(** * A shallow embedding of the YouTube Website Streamer

    The repository holds three generations of one Node.js program, each a
    [WebsiteStreamer] class driven by a restart-forever [main]:

    - [src/src/index.js]: frames are pushed by a CDP screencast and piped
      into FFmpeg's standard input (module [Index]);
    - [src/unnamed/part_001]: frames are polled with [page.screenshot()] in
      a fixed-rate loop (module [Polled]);
    - [src/unnamed/part_002]: FFmpeg grabs the X display itself and the
      process only supervises it (module [X11grab]).

    The object's fields are a record, every method is a function in a small
    state-and-exception monad over that record, the child processes and the
    pending timers of the event loop, and everything the program does to the
    outside (spawn, write, kill, CDP commands, log calls) is appended to a
    trace.  What the outside answers (does [page.goto] reject, does
    [stdin.write] report a full buffer, what does [Date.now()] return) is
    an explicit argument of the function that asks. *)

From Stdlib Require Import ZArith String Bool Lia List.
From stdpp Require Import base list.
Import ListNotations.
Open Scope string_scope.
Open Scope list_scope.
Open Scope Z_scope.

(** ** Configuration *)

(** The environment variables the program reads.  A numeric variable is
    given as the result of [parseInt]: [None] stands for [NaN] (variable
    unset or not a number). *)
Record ProcessEnv := {
  env_STREAM_KEY : option string;
  env_FPS : option Z;
  env_RESTART_DELAY : option Z;
  env_PAGE_REFRESH_INTERVAL : option Z }.

(** [parseInt(v) || d]: [NaN] and [0] are falsy. *)
Definition parseInt_or (v : option Z) (d : Z) : Z :=
  match v with
  | Some z => if z =? 0 then d else z
  | None => d
  end.

Record Config := {
  STREAM_KEY : option string;
  FPS : Z;
  RESTART_DELAY : Z;
  PAGE_REFRESH_INTERVAL : Z }.

(** [Math.floor(1000 / this.FPS)] *)
Definition FRAME_INTERVAL (c : Config) : Z := 1000 / FPS c.

(** [!CONFIG.STREAM_KEY]: [undefined] and the empty string are falsy. *)
Definition falsy_string (v : option string) : bool :=
  match v with
  | None => true
  | Some s => if string_dec s "" then true else false
  end.

(** ** Effects, errors, processes *)

Inductive Level := INFO | ERROR | WARN | DEBUG.

Inductive Signal := SIGTERM | SIGKILL.

Inductive Error :=
| ErrStreamKey                 (* new Error('STREAM_KEY ...') *)
| ErrExternal (what : string)  (* a rejected promise of Puppeteer or Node *)
| ErrTypeError (what : string) (* a property read on null *).

(** The callbacks handed to [setTimeout] that outlive the function that
    set them: only [() => this.startFFmpeg()]. *)
Inductive Callback := CbStartFFmpeg.

Inductive CdpMsg := StartScreencast | StopScreencast | ScreencastFrameAck.

Definition Frame := nat.

(** What the program does to the outside, in program order.  Log texts
    are abbreviated to an ASCII key. *)
Inductive Effect :=
| Log (l : Level) (key : string)
| Spawn (pid : nat)
| StdinWrite (pid : nat) (f : Frame) (canWrite : bool)
| OnceDrain (pid : nat)
| Drained (pid : nat)
| StdinEnd (pid : nat)
| Kill (pid : nat) (sig : Signal)
| SetTimeout (cb : Callback) (ms : Z)
| Sleep (ms : Z)
| Launch
| Pages
| NewPage
| SetUserAgent
| EvaluateOnNewDocument
| PageGoto
| SetViewport
| Evaluate
| PageReload
| Screenshot
| CreateCDPSession
| CdpSend (m : CdpMsg)
| CdpDetach
| BrowserClose
| NewStreamer
| ProcessExit (code : Z).

(** The answer of an awaited external call. *)
Inductive Outcome (A : Type) :=
| Resolves (a : A)
| Rejects (e : Error).
Arguments Resolves {A} a.
Arguments Rejects {A} e.

(** The answer of [stdin.write(chunk)]: it returns [true], returns [false]
    (buffer above the high-water mark), or throws. *)
Inductive WriteAnswer :=
| Wrote (canWrite : bool)
| WriteThrows (e : Error).

(** A child process as the program can observe it: whether it has exited
    (its 'close' event was delivered), whether [stdin.writable] holds,
    whether its input pipe still waits for a drain, and the signals it was
    sent. *)
Record Proc := {
  exited : bool;
  writable : bool;
  needDrain : bool;
  signals : list Signal }.

Definition fresh_proc : Proc :=
  {| exited := false; writable := true; needDrain := false; signals := [] |}.

Definition proc_end_stdin (p : Proc) : Proc :=
  {| exited := exited p; writable := false; needDrain := needDrain p;
     signals := signals p |}.

Definition proc_signal (sig : Signal) (p : Proc) : Proc :=
  {| exited := exited p; writable := writable p; needDrain := needDrain p;
     signals := signals p ++ [sig] |}.

Definition proc_written (canWrite : bool) (p : Proc) : Proc :=
  {| exited := exited p; writable := writable p;
     needDrain := needDrain p || negb canWrite; signals := signals p |}.

Definition proc_drained (p : Proc) : Proc :=
  {| exited := exited p; writable := writable p; needDrain := false;
     signals := signals p |}.

Definition proc_closed (p : Proc) : Proc :=
  {| exited := true; writable := false; needDrain := false;
     signals := signals p |}.

(** ** The streamer object and the system around it *)

(** The fields set by the constructor.  [browser], [page] and
    [cdpSession] hold an object or [null]; [ffmpeg] holds the child process,
    named by its index in the process table.  [part_001] has no
    [cdpSession] and [part_002] has neither [cdpSession] nor [frameCount]:
    there the fields keep their initial value. *)
Record WebsiteStreamer := {
  browser : option nat;
  page : option nat;
  cdpSession : option nat;
  ffmpeg : option nat;
  isRunning : bool;
  frameCount : Z;
  lastRefreshTime : Z }.

(** [new WebsiteStreamer()] at time [now]. *)
Definition constructor (now : Z) : WebsiteStreamer :=
  {| browser := None; page := None; cdpSession := None; ffmpeg := None;
     isRunning := false; frameCount := 0; lastRefreshTime := now |}.

Definition set_browser (v : option nat) (o : WebsiteStreamer) :=
  {| browser := v; page := page o; cdpSession := cdpSession o;
     ffmpeg := ffmpeg o; isRunning := isRunning o;
     frameCount := frameCount o; lastRefreshTime := lastRefreshTime o |}.
Definition set_page (v : option nat) (o : WebsiteStreamer) :=
  {| browser := browser o; page := v; cdpSession := cdpSession o;
     ffmpeg := ffmpeg o; isRunning := isRunning o;
     frameCount := frameCount o; lastRefreshTime := lastRefreshTime o |}.
Definition set_cdpSession (v : option nat) (o : WebsiteStreamer) :=
  {| browser := browser o; page := page o; cdpSession := v;
     ffmpeg := ffmpeg o; isRunning := isRunning o;
     frameCount := frameCount o; lastRefreshTime := lastRefreshTime o |}.
Definition set_ffmpeg (v : option nat) (o : WebsiteStreamer) :=
  {| browser := browser o; page := page o; cdpSession := cdpSession o;
     ffmpeg := v; isRunning := isRunning o;
     frameCount := frameCount o; lastRefreshTime := lastRefreshTime o |}.
Definition set_isRunning (v : bool) (o : WebsiteStreamer) :=
  {| browser := browser o; page := page o; cdpSession := cdpSession o;
     ffmpeg := ffmpeg o; isRunning := v;
     frameCount := frameCount o; lastRefreshTime := lastRefreshTime o |}.
Definition set_frameCount (v : Z) (o : WebsiteStreamer) :=
  {| browser := browser o; page := page o; cdpSession := cdpSession o;
     ffmpeg := ffmpeg o; isRunning := isRunning o;
     frameCount := v; lastRefreshTime := lastRefreshTime o |}.
Definition set_lastRefreshTime (v : Z) (o : WebsiteStreamer) :=
  {| browser := browser o; page := page o; cdpSession := cdpSession o;
     ffmpeg := ffmpeg o; isRunning := isRunning o;
     frameCount := frameCount o; lastRefreshTime := v |}.

(** The object, the child processes spawned so far, the timers waiting in
    the event loop and the trace of effects. *)
Record Sys := {
  self : WebsiteStreamer;
  procs : list Proc;
  timers : list (Callback * Z);
  trace : list Effect }.

Definition boot (now : Z) : Sys :=
  {| self := constructor now; procs := []; timers := []; trace := [] |}.

(** ** The monad: state that survives a throw *)

Inductive Result (A : Type) :=
| Ok (a : A)
| Throw (e : Error).
Arguments Ok {A} a.
Arguments Throw {A} e.

Definition M (A : Type) : Type := Sys -> Result A * Sys.

Definition ret {A} (a : A) : M A := fun s => (Ok a, s).

Definition bind {A B} (m : M A) (k : A -> M B) : M B :=
  fun s => match m s with
           | (Ok a, s') => k a s'
           | (Throw e, s') => (Throw e, s')
           end.

Definition throw {A} (e : Error) : M A := fun s => (Throw e, s).

(** [try { m } catch (e) { h e }] *)
Definition try_catch {A} (m : M A) (h : Error -> M A) : M A :=
  fun s => match m s with
           | (Ok a, s') => (Ok a, s')
           | (Throw e, s') => h e s'
           end.

Notation "x <- c1 ;; c2" := (bind c1 (fun x => c2))
  (at level 100, c1 at next level, c2 at level 200, right associativity).
Notation "c1 ;; c2" := (bind c1 (fun _ => c2))
  (at level 100, c2 at level 200, right associativity).

Definition get : M Sys := fun s => (Ok s, s).

Definition this : M WebsiteStreamer := fun s => (Ok (self s), s).

Definition update (f : WebsiteStreamer -> WebsiteStreamer) : M unit :=
  fun s => (Ok tt, {| self := f (self s); procs := procs s;
                      timers := timers s; trace := trace s |}).

Definition emit (e : Effect) : M unit :=
  fun s => (Ok tt, {| self := self s; procs := procs s;
                      timers := timers s; trace := trace s ++ [e] |}).

Definition on_proc (pid : nat) (f : Proc -> Proc) : M unit :=
  fun s => (Ok tt, {| self := self s; procs := alter f pid (procs s);
                      timers := timers s; trace := trace s |}).

Definition log (l : Level) (key : string) : M unit := emit (Log l key).

(** [await new Promise(resolve => setTimeout(resolve, ms))] *)
Definition sleep (ms : Z) : M unit := emit (Sleep ms).

(** [await call], the call being recorded as [e]. *)
Definition await {A} (e : Effect) (o : Outcome A) : M A :=
  emit e ;;
  match o with
  | Resolves a => ret a
  | Rejects err => throw err
  end.

(** The event loop takes the oldest pending timer, if any. *)
Definition pop_timer : M (option (Callback * Z)) :=
  fun s => match timers s with
           | [] => (Ok None, s)
           | t :: rest =>
               (Ok (Some t), {| self := self s; procs := procs s;
                                timers := rest; trace := trace s |})
           end.

(** [setTimeout(cb, ms)] with a callback that outlives the caller. *)
Definition setTimeout (cb : Callback) (ms : Z) : M unit :=
  fun s => (Ok tt, {| self := self s; procs := procs s;
                      timers := timers s ++ [(cb, ms)];
                      trace := trace s ++ [SetTimeout cb ms] |}).

(** [spawn('ffmpeg', args)]: a new child process, named by its index.
    A failed spawn is reported by a later 'error' event, not by a throw.
    The argument vector plays no part in what is proved and is left out. *)
Definition spawn : M nat :=
  fun s => (Ok (length (procs s)),
            {| self := self s; procs := procs s ++ [fresh_proc];
               timers := timers s;
               trace := trace s ++ [Spawn (length (procs s))] |}).

(** [this.ffmpeg.stdin.writable] for the process [pid]. *)
Definition stdin_writable (s : Sys) (pid : nat) : bool :=
  match procs s !! pid with
  | Some p => writable p
  | None => false
  end.

(** [!this.ffmpeg || !this.ffmpeg.stdin.writable] *)
Definition encoder_unavailable (s : Sys) : bool :=
  match ffmpeg (self s) with
  | None => true
  | Some pid => negb (stdin_writable s pid)
  end.

(** What [sendFrameToFFmpeg] and [captureAndSendFrame] return: [false],
    [true], or a promise that resolves to [true] on the next 'drain'. *)
Inductive SendResult := SentFalse | SentTrue | SentAfterDrain.

(** The awaited answers of one [stop()]: the two CDP calls of
    [stopScreencast] and [browser.close()]. *)
Record StopAnswers := {
  ans_stopScreencast : Outcome unit;
  ans_detach : Outcome unit;
  ans_browserClose : Outcome unit }.

(** The events the Node event loop delivers to the program's listeners. *)
Inductive Event :=
| EvClose (pid : nat) (code : Z)
| EvError
| EvDrain (pid : nat)
| EvTimer (musicExists : bool)
| EvScreencastFrame (f : Frame) (w : WriteAnswer) (ack : Outcome unit).

(** How a polling loop of the model ends: the loop condition was found
    false, or the supplied ticks ran out with the loop still going. *)
Inductive LoopEnd := LoopLeft | StillLooping.

(** What the 'close' and 'drain' events mean for the process itself. *)
Definition deliver_close (pid : nat) : M unit := on_proc pid proc_closed.

Definition deliver_drain (pid : nat) : M unit :=
  emit (Drained pid) ;; on_proc pid proc_drained.

(** [this.ffmpeg.stdin.write(frame)] on process [pid]. *)
Definition stdin_write (pid : nat) (f : Frame) (w : WriteAnswer) : M bool :=
  match w with
  | WriteThrows e => throw e
  | Wrote canWrite =>
      emit (StdinWrite pid f canWrite) ;;
      on_proc pid (proc_written canWrite) ;;
      ret canWrite
  end.

(** [this.frameCount++] *)
Definition incr_frameCount : M unit :=
  update (fun o => set_frameCount (frameCount o + 1) o).

(** ** src/src/index.js: CDP screencast piped into FFmpeg *)

Module Index.

(** One turn of the [while (this.isRunning)] loop of [startScreencast]:
    the clock at the age check, the answer of [page.goto], the clock when
    the page has settled, and the events delivered during the one-second
    sleep. *)
Record Tick := {
  tick_now : Z;
  tick_goto : Outcome unit;
  tick_loaded : Z;
  tick_events : list Event }.

(** The awaited answers of one [start()]. *)
Record StartAnswers := {
  ans_launch : Outcome nat;
  ans_newPage : Outcome nat;
  ans_setUserAgent : Outcome unit;
  ans_goto : Outcome unit;
  ans_loaded : Z;
  ans_musicExists : bool;
  ans_warmup : list Event;
  ans_createCDPSession : Outcome nat;
  ans_startScreencast : Outcome unit;
  ans_ticks : list Tick;
  ans_stop : StopAnswers }.

(** One pass of the restart loop of [main]: the answers for [start()] and
    for the [stop()] of the catch block, and the events delivered while
    the catch block waits out the restart delay. *)
Record Attempt := {
  att_start : StartAnswers;
  att_stop : StopAnswers;
  att_backoff : list Event }.

Inductive Exit := Exited (code : Z) | Alive.

(** [CONFIG] as built from the environment. *)
Definition mkCONFIG (env : ProcessEnv) : Config :=
  {| STREAM_KEY := env_STREAM_KEY env;
     FPS := parseInt_or (env_FPS env) 24;
     RESTART_DELAY := parseInt_or (env_RESTART_DELAY env) 5000;
     PAGE_REFRESH_INTERVAL :=
       parseInt_or (env_PAGE_REFRESH_INTERVAL env) 3600000 |}.

(** The delay of the relaunch timer in the 'close' listener. *)
Definition RELAUNCH_DELAY : Z := 1000.

(** Every way the object is driven: an event of the loop, a method, or
    a log line or sleep of [main] between two methods. *)
Inductive Op :=
| OpHandle (ev : Event)
| OpStartBrowser (launch newPage : Outcome nat) (setUserAgent : Outcome unit)
| OpLoadPage (goto : Outcome unit) (loaded : Z)
| OpRefresh (now : Z) (goto : Outcome unit) (loaded : Z)
| OpStartFFmpeg (musicExists : bool)
| OpSendFrame (f : Frame) (w : WriteAnswer)
| OpCapture (shot : Outcome Frame) (during : list Event) (w : WriteAnswer)
| OpStartScreencast (createCDPSession : Outcome nat)
    (startSc : Outcome unit) (ticks : list Tick)
| OpStop (x : StopAnswers)
| OpStart (x : StartAnswers)
| OpShutdown (x : StopAnswers)
| OpLog (l : Level) (key : string)
| OpSleep (ms : Z).

Section WithConfig.
Variable CONFIG : Config.

Definition validateConfig : M unit :=
  if falsy_string (STREAM_KEY CONFIG) then throw ErrStreamKey
  else
    log INFO "config valid" ;; log INFO "URL" ;; log INFO "resolution" ;;
    log INFO "FPS" ;; log INFO "bitrate".

Definition startBrowser (launch newPage : Outcome nat)
    (setUserAgent : Outcome unit) : M unit :=
  log INFO "starting browser" ;;
  b <- await Launch launch ;;
  update (set_browser (Some b)) ;;
  p <- await NewPage newPage ;;
  update (set_page (Some p)) ;;
  await SetUserAgent setUserAgent ;;
  log INFO "browser started".

Definition loadPage (goto : Outcome unit) (loaded : Z) : M unit :=
  log INFO "loading page" ;;
  try_catch
    (o <- this ;;
     match page o with
     | None => throw (ErrTypeError "this.page is null")
     | Some _ =>
         await PageGoto goto ;;
         sleep 3000 ;;
         log INFO "page loaded" ;;
         update (set_lastRefreshTime loaded)
     end)
    (fun e => log ERROR "page load error" ;; throw e).

Definition refreshPageIfNeeded (now : Z) (goto : Outcome unit)
    (loaded : Z) : M unit :=
  o <- this ;;
  let timeSinceRefresh := now - lastRefreshTime o in
  if PAGE_REFRESH_INTERVAL CONFIG <=? timeSinceRefresh then
    log INFO "refreshing page" ;;
    loadPage goto loaded
  else ret tt.

Definition getAudioInputArgs (musicExists : bool) : M unit :=
  if musicExists then log INFO "using background music"
  else log INFO "music not found, using silence".

(** The listener of the child's 'close' event. *)
Definition on_close (code : Z) : M unit :=
  log WARN "FFmpeg exited" ;;
  update (set_ffmpeg None) ;;
  o <- this ;;
  if isRunning o then
    log INFO "restarting FFmpeg" ;;
    setTimeout CbStartFFmpeg RELAUNCH_DELAY
  else ret tt.

(** The listener of the child's 'error' event. *)
Definition on_error : M unit := log ERROR "FFmpeg error".

Definition startFFmpeg (musicExists : bool) : M unit :=
  log INFO "starting FFmpeg" ;;
  log INFO "RTMP URL" ;;
  getAudioInputArgs musicExists ;;
  log DEBUG "FFmpeg command" ;;
  pid <- spawn ;;
  update (set_ffmpeg (Some pid)) ;;
  log INFO "FFmpeg started".

Definition sendFrameToFFmpeg (frameData : Frame) (w : WriteAnswer)
    : M SendResult :=
  s <- get ;;
  match ffmpeg (self s) with
  | None => ret SentFalse
  | Some pid =>
      if negb (stdin_writable s pid) then ret SentFalse
      else
        try_catch
          (canWrite <- stdin_write pid frameData w ;;
           incr_frameCount ;;
           o <- this ;;
           (if Z.rem (frameCount o) 30 =? 0 then log INFO "frames sent"
            else ret tt) ;;
           if negb canWrite then
             emit (OnceDrain pid) ;; ret SentAfterDrain
           else ret SentTrue)
          (fun e => log ERROR "FFmpeg write error" ;; ret SentFalse)
  end.

(** The listener of 'Page.screencastFrame'.  The value returned by
    [sendFrameToFFmpeg] is dropped: the call is not awaited. *)
Definition on_screencastFrame (frame : Frame) (w : WriteAnswer)
    (ack : Outcome unit) : M unit :=
  s <- get ;;
  if negb (isRunning (self s)) || encoder_unavailable s then ret tt
  else
    try_catch
      (sendFrameToFFmpeg frame w ;;
       o <- this ;;
       match cdpSession o with
       | None => throw (ErrTypeError "this.cdpSession is null")
       | Some _ => await (CdpSend ScreencastFrameAck) ack
       end)
      (fun e => log ERROR "screencast frame error").

(** What the event loop runs for each event.  A pending timer holds
    [() => this.startFFmpeg()]; the timer event fires the oldest one. *)
Definition handle (ev : Event) : M unit :=
  match ev with
  | EvClose pid code => deliver_close pid ;; on_close code
  | EvError => on_error
  | EvDrain pid => deliver_drain pid
  | EvTimer musicExists =>
      t <- pop_timer ;;
      match t with
      | None => ret tt
      | Some (CbStartFFmpeg, _) => startFFmpeg musicExists
      end
  | EvScreencastFrame f w ack => on_screencastFrame f w ack
  end.

(** Events delivered while an async function sleeps.  An error thrown by
    a listener goes to the 'uncaughtException' listener, which logs it. *)
Fixpoint deliver (evs : list Event) : M unit :=
  match evs with
  | [] => ret tt
  | ev :: rest =>
      try_catch (handle ev)
        (fun e => log ERROR "uncaught exception" ;; log ERROR "stack") ;;
      deliver rest
  end.

(** [captureAndSendFrame], the fallback path.  [during] are the events
    delivered while [page.screenshot()] is awaited. *)
Definition captureAndSendFrame (shot : Outcome Frame) (during : list Event)
    (w : WriteAnswer) : M SendResult :=
  s <- get ;;
  match page (self s) with
  | None => ret SentFalse
  | Some _ =>
      if encoder_unavailable s then ret SentFalse
      else
        try_catch
          (emit Screenshot ;;
           deliver during ;;
           match shot with
           | Rejects e => throw e
           | Resolves screenshot => sendFrameToFFmpeg screenshot w
           end)
          (fun e => log ERROR "frame capture error" ;; ret SentFalse)
  end.

(** One turn of the loop of [startScreencast], after the loop condition. *)
Definition monitor_iteration (t : Tick) : M unit :=
  refreshPageIfNeeded (tick_now t) (tick_goto t) (tick_loaded t) ;;
  o <- this ;;
  (if (Z.rem (frameCount o) (FPS CONFIG * 30) =? 0) && (0 <? frameCount o)
   then log INFO "statistics" else ret tt) ;;
  sleep 1000 ;;
  deliver (tick_events t).

(** [while (this.isRunning) { ... }] over the supplied ticks. *)
Fixpoint monitor_loop (ticks : list Tick) : M LoopEnd :=
  o <- this ;;
  if isRunning o then
    match ticks with
    | [] => ret StillLooping
    | t :: rest => monitor_iteration t ;; monitor_loop rest
    end
  else ret LoopLeft.

(** [startScreencast] up to and including [this.isRunning = true]. *)
Definition startScreencast_setup (createCDPSession : Outcome nat)
    (startSc : Outcome unit) : M unit :=
  log INFO "starting CDP screencast" ;;
  o <- this ;;
  match page o with
  | None => throw (ErrTypeError "this.page is null")
  | Some _ =>
      c <- await CreateCDPSession createCDPSession ;;
      update (set_cdpSession (Some c)) ;;
      await (CdpSend StartScreencast) startSc ;;
      log INFO "CDP screencast started" ;;
      update (set_isRunning true)
  end.

Definition startScreencast (createCDPSession : Outcome nat)
    (startSc : Outcome unit) (ticks : list Tick) : M LoopEnd :=
  startScreencast_setup createCDPSession startSc ;;
  monitor_loop ticks.

Definition stopScreencast (x : StopAnswers) : M unit :=
  o <- this ;;
  match cdpSession o with
  | None => ret tt
  | Some _ =>
      try_catch
        (await (CdpSend StopScreencast) (ans_stopScreencast x) ;;
         await CdpDetach (ans_detach x))
        (fun _ => ret tt) ;;
      update (set_cdpSession None)
  end.

Definition stop (x : StopAnswers) : M unit :=
  log INFO "stopping streamer" ;;
  update (set_isRunning false) ;;
  stopScreencast x ;;
  o <- this ;;
  match ffmpeg o with
  | None => ret tt
  | Some pid =>
      emit (StdinEnd pid) ;; on_proc pid proc_end_stdin ;;
      emit (Kill pid SIGTERM) ;; on_proc pid (proc_signal SIGTERM) ;;
      update (set_ffmpeg None)
  end ;;
  o <- this ;;
  match browser o with
  | None => ret tt
  | Some _ =>
      await BrowserClose (ans_browserClose x) ;;
      update (set_browser None) ;;
      update (set_page None)
  end ;;
  log INFO "streamer stopped".

Definition start (x : StartAnswers) : M LoopEnd :=
  try_catch
    (log INFO "banner" ;; log INFO "mode: CDP screencast" ;;
     startBrowser (ans_launch x) (ans_newPage x) (ans_setUserAgent x) ;;
     loadPage (ans_goto x) (ans_loaded x) ;;
     startFFmpeg (ans_musicExists x) ;;
     sleep 2000 ;;
     deliver (ans_warmup x) ;;
     startScreencast (ans_createCDPSession x) (ans_startScreencast x)
       (ans_ticks x))
    (fun e =>
       log ERROR "critical startup error" ;;
       stop (ans_stop x) ;;
       throw e).

(** The signal listener [shutdown]. *)
Definition shutdown (x : StopAnswers) : M unit :=
  log INFO "signal received" ;;
  stop x ;;
  emit (ProcessExit 0).

(** [while (true) { try { await streamer.start() } catch ... }] over the
    supplied attempts.  The listeners and timers of the failed run live
    on: their events arrive while the catch block sleeps. *)
Fixpoint restart_loop (attempts : list Attempt) : M LoopEnd :=
  match attempts with
  | [] => ret StillLooping
  | a :: rest =>
      r <- try_catch (start (att_start a))
             (fun e =>
                log ERROR "streamer crashed" ;;
                stop (att_stop a) ;;
                log INFO "restarting in RESTART_DELAY" ;;
                sleep (RESTART_DELAY CONFIG) ;;
                deliver (att_backoff a) ;;
                ret LoopLeft) ;;
      match r with
      | StillLooping => ret StillLooping
      | LoopLeft => restart_loop rest
      end
  end.

Definition main_body (now : Z) (attempts : list Attempt) : M LoopEnd :=
  validateConfig ;;
  emit NewStreamer ;;
  update (fun _ => constructor now) ;;
  restart_loop attempts.

(** [main().catch(...)]: a rejection of [main] is logged and the process
    exits with code 1. *)
Definition main (now : Z) (attempts : list Attempt) : Exit * Sys :=
  match main_body now attempts (boot now) with
  | (Ok _, s) => (Alive, s)
  | (Throw e, s) =>
      (Exited 1,
       snd ((log ERROR "fatal error" ;; emit (ProcessExit 1)) s))
  end.

(** The state an operation leaves behind, whether it returned or threw. *)
Definition step (op : Op) (s : Sys) : Sys :=
  match op with
  | OpHandle ev => snd (handle ev s)
  | OpStartBrowser l p u => snd (startBrowser l p u s)
  | OpLoadPage g t => snd (loadPage g t s)
  | OpRefresh n g t => snd (refreshPageIfNeeded n g t s)
  | OpStartFFmpeg m => snd (startFFmpeg m s)
  | OpSendFrame f w => snd (sendFrameToFFmpeg f w s)
  | OpCapture shot during w => snd (captureAndSendFrame shot during w s)
  | OpStartScreencast c a ticks => snd (startScreencast c a ticks s)
  | OpStop x => snd (stop x s)
  | OpStart x => snd (start x s)
  | OpShutdown x => snd (shutdown x s)
  | OpLog l key => snd (log l key s)
  | OpSleep ms => snd (sleep ms s)
  end.

Definition run (ops : list Op) (s : Sys) : Sys :=
  fold_left (fun s op => step op s) ops s.

(** The states of a streamer constructed at some time and driven in any
    way since. *)
Definition reachable (s : Sys) : Prop :=
  exists now ops, run ops (boot now) = s.

End WithConfig.
End Index.

(** ** src/unnamed/part_001: screenshots polled at a fixed rate *)

Module Polled.

(** One turn of the loop of [startCapturing]: the clock at the top, the
    answer of [page.screenshot()] and the events delivered while it is
    awaited, the answer of [stdin.write()], the argument of the write
    callback ([None] for no error), the clock and answers of the refresh
    check, the clock at the bottom, and the events delivered before the
    next turn. *)
Record Tick := {
  tick_start : Z;
  tick_shot : Outcome Frame;
  tick_during : list Event;
  tick_write : WriteAnswer;
  tick_flushed : option Error;
  tick_now : Z;
  tick_goto : Outcome unit;
  tick_loaded : Z;
  tick_end : Z;
  tick_events : list Event }.

Record StartAnswers := {
  ans_launch : Outcome nat;
  ans_newPage : Outcome nat;
  ans_setUserAgent : Outcome unit;
  ans_goto : Outcome unit;
  ans_loaded : Z;
  ans_warmup : list Event;
  ans_ticks : list Tick;
  ans_stop : StopAnswers }.

Definition mkCONFIG (env : ProcessEnv) : Config :=
  {| STREAM_KEY := env_STREAM_KEY env;
     FPS := parseInt_or (env_FPS env) 6;
     RESTART_DELAY := parseInt_or (env_RESTART_DELAY env) 5000;
     PAGE_REFRESH_INTERVAL :=
       parseInt_or (env_PAGE_REFRESH_INTERVAL env) 3600000 |}.

Section WithConfig.
Variable CONFIG : Config.

Definition startBrowser (launch newPage : Outcome nat)
    (setUserAgent : Outcome unit) : M unit :=
  log INFO "starting browser" ;;
  b <- await Launch launch ;;
  update (set_browser (Some b)) ;;
  p <- await NewPage newPage ;;
  update (set_page (Some p)) ;;
  await SetUserAgent setUserAgent ;;
  log INFO "browser started".

Definition loadPage (goto : Outcome unit) (loaded : Z) : M unit :=
  log INFO "loading page" ;;
  try_catch
    (o <- this ;;
     match page o with
     | None => throw (ErrTypeError "this.page is null")
     | Some _ =>
         await PageGoto goto ;;
         sleep 3000 ;;
         log INFO "page loaded" ;;
         update (set_lastRefreshTime loaded)
     end)
    (fun e => log ERROR "page load error" ;; throw e).

Definition refreshPageIfNeeded (now : Z) (goto : Outcome unit)
    (loaded : Z) : M unit :=
  o <- this ;;
  let timeSinceRefresh := now - lastRefreshTime o in
  if PAGE_REFRESH_INTERVAL CONFIG <=? timeSinceRefresh then
    log INFO "refreshing page" ;;
    loadPage goto loaded
  else ret tt.

Definition on_close (code : Z) : M unit :=
  log WARN "FFmpeg exited" ;;
  update (set_ffmpeg None) ;;
  o <- this ;;
  if isRunning o then
    log INFO "restarting FFmpeg" ;;
    setTimeout CbStartFFmpeg 1000
  else ret tt.

Definition on_error : M unit := log ERROR "FFmpeg error".

Definition startFFmpeg : M unit :=
  log INFO "starting FFmpeg" ;;
  log INFO "RTMP URL" ;;
  log DEBUG "FFmpeg command" ;;
  pid <- spawn ;;
  update (set_ffmpeg (Some pid)) ;;
  log INFO "FFmpeg started".

(** No screencast exists in this file: its event is ignored. *)
Definition handle (ev : Event) : M unit :=
  match ev with
  | EvClose pid code => deliver_close pid ;; on_close code
  | EvError => on_error
  | EvDrain pid => deliver_drain pid
  | EvTimer _ =>
      t <- pop_timer ;;
      match t with
      | None => ret tt
      | Some (CbStartFFmpeg, _) => startFFmpeg
      end
  | EvScreencastFrame _ _ _ => ret tt
  end.

Fixpoint deliver (evs : list Event) : M unit :=
  match evs with
  | [] => ret tt
  | ev :: rest =>
      try_catch (handle ev)
        (fun e => log ERROR "uncaught exception" ;; log ERROR "stack") ;;
      deliver rest
  end.

(** The promise built by [captureAndSendFrame], as its awaiting caller
    sees it settle.  [stdin.write] runs in the promise executor, so a throw
    there rejects the promise.  The write callback runs when the chunk has
    been flushed, with [flushed] as its argument; when the write had
    reported a full buffer and the flush succeeds, the 'drain' listener
    registered by [once] runs at that same flush. *)
Definition write_promise (pid : nat) (screenshot : Frame) (w : WriteAnswer)
    (flushed : option Error) : M bool :=
  canWrite <- stdin_write pid screenshot w ;;
  (if canWrite then ret tt
   else log WARN "FFmpeg buffer full, waiting" ;; emit (OnceDrain pid)) ;;
  match flushed with
  | Some e => log ERROR "FFmpeg write error" ;; ret false
  | None =>
      (if canWrite then ret tt else deliver_drain pid) ;;
      incr_frameCount ;;
      o <- this ;;
      (if Z.rem (frameCount o) 30 =? 0 then log INFO "frames sent"
       else ret tt) ;;
      ret true
  end.

(** [captureAndSendFrame] as awaited by [startCapturing].  [during] are
    the events delivered while [page.screenshot()] is awaited: the guard
    is not taken again after it, so that [this.ffmpeg] may be null at the
    write.  The [try] covers the screenshot only: the promise is returned,
    not awaited, inside it, so its rejection passes the [catch] by. *)
Definition captureAndSendFrame (shot : Outcome Frame) (during : list Event)
    (w : WriteAnswer) (flushed : option Error) : M bool :=
  s <- get ;;
  let unavailable :=
    match page (self s) with
    | None => true
    | Some _ => encoder_unavailable s
    end in
  if unavailable then
    (if frameCount (self s) =? 0 then log WARN "FFmpeg stdin not ready"
     else ret tt) ;;
    ret false
  else
    r <- try_catch
           (emit Screenshot ;;
            deliver during ;;
            screenshot <- match shot with
                          | Rejects e => throw e
                          | Resolves screenshot => ret screenshot
                          end ;;
            o <- this ;;
            (if frameCount o =? 0 then log INFO "first frame captured"
             else ret tt) ;;
            ret (Some screenshot))
           (fun e => log ERROR "frame capture error" ;; ret None) ;;
    match r with
    | None => ret false
    | Some screenshot =>
        o <- this ;;
        match ffmpeg o with
        | None => throw (ErrTypeError "this.ffmpeg is null")
        | Some pid => write_promise pid screenshot w flushed
        end
    end.

(** One turn of the loop of [startCapturing], after the loop condition. *)
Definition capture_iteration (t : Tick) : M unit :=
  let startTime := tick_start t in
  success <- captureAndSendFrame (tick_shot t) (tick_during t)
               (tick_write t) (tick_flushed t) ;;
  o <- this ;;
  (if negb success && isRunning o then log WARN "frame not sent, skipping"
   else ret tt) ;;
  refreshPageIfNeeded (tick_now t) (tick_goto t) (tick_loaded t) ;;
  o <- this ;;
  (if (Z.rem (frameCount o) (FPS CONFIG * 30) =? 0) && (0 <? frameCount o)
   then log INFO "statistics" else ret tt) ;;
  let elapsed := tick_end t - startTime in
  let delay := Z.max 0 (FRAME_INTERVAL CONFIG - elapsed) in
  (if 0 <? delay then sleep delay else ret tt) ;;
  deliver (tick_events t).

Fixpoint capture_loop (ticks : list Tick) : M LoopEnd :=
  o <- this ;;
  if isRunning o then
    match ticks with
    | [] => ret StillLooping
    | t :: rest => capture_iteration t ;; capture_loop rest
    end
  else ret LoopLeft.

Definition startCapturing (ticks : list Tick) : M LoopEnd :=
  log INFO "starting frame capture" ;;
  update (set_isRunning true) ;;
  capture_loop ticks.

Definition stop (x : StopAnswers) : M unit :=
  log INFO "stopping streamer" ;;
  update (set_isRunning false) ;;
  o <- this ;;
  match ffmpeg o with
  | None => ret tt
  | Some pid =>
      emit (StdinEnd pid) ;; on_proc pid proc_end_stdin ;;
      emit (Kill pid SIGTERM) ;; on_proc pid (proc_signal SIGTERM) ;;
      update (set_ffmpeg None)
  end ;;
  o <- this ;;
  match browser o with
  | None => ret tt
  | Some _ =>
      await BrowserClose (ans_browserClose x) ;;
      update (set_browser None) ;;
      update (set_page None)
  end ;;
  log INFO "streamer stopped".

Definition start (x : StartAnswers) : M LoopEnd :=
  try_catch
    (log INFO "banner" ;;
     startBrowser (ans_launch x) (ans_newPage x) (ans_setUserAgent x) ;;
     loadPage (ans_goto x) (ans_loaded x) ;;
     startFFmpeg ;;
     sleep 2000 ;;
     deliver (ans_warmup x) ;;
     startCapturing (ans_ticks x))
    (fun e =>
       log ERROR "critical startup error" ;;
       stop (ans_stop x) ;;
       throw e).

End WithConfig.
End Polled.

(** ** src/unnamed/part_002: FFmpeg grabs the X display itself *)

Module X11grab.

(** One turn of [runMainLoop]: the clock at the age check, the answer of
    [page.reload], the clock after the reload, and the events delivered
    during the ten-second sleep. *)
Record Tick := {
  tick_now : Z;
  tick_reload : Outcome unit;
  tick_reloaded : Z;
  tick_events : list Event }.

(** The awaited answers of one [start()]: [browser.pages()] answers with
    the first page, if there is one. *)
Record StartAnswers := {
  ans_launch : Outcome nat;
  ans_pages : Outcome (option nat);
  ans_newPage : Outcome nat;
  ans_setUserAgent : Outcome unit;
  ans_hideCursor : Outcome unit;
  ans_hideWebdriver : Outcome unit;
  ans_goto : Outcome unit;
  ans_setViewport : Outcome unit;
  ans_evaluate : Outcome unit;
  ans_loaded : Z;
  ans_musicExists : bool;
  ans_warmup : list Event;
  ans_ticks : list Tick }.

Definition mkCONFIG (env : ProcessEnv) : Config :=
  {| STREAM_KEY := env_STREAM_KEY env;
     FPS := parseInt_or (env_FPS env) 30;
     RESTART_DELAY := parseInt_or (env_RESTART_DELAY env) 5000;
     PAGE_REFRESH_INTERVAL :=
       parseInt_or (env_PAGE_REFRESH_INTERVAL env) 3600000 |}.

Section WithConfig.
Variable CONFIG : Config.

Definition getAudioInputArgs (musicExists : bool) : M unit :=
  if musicExists then log INFO "background music"
  else log INFO "music not found, using silence".

Definition on_close (code : Z) : M unit :=
  log WARN "FFmpeg exited" ;;
  o <- this ;;
  if isRunning o then
    log INFO "restarting FFmpeg in 2 s" ;;
    setTimeout CbStartFFmpeg 2000
  else ret tt.

Definition on_error : M unit := log ERROR "FFmpeg error".

Definition startFFmpeg (musicExists : bool) : M unit :=
  log INFO "starting FFmpeg with x11grab" ;;
  log INFO "RTMP" ;;
  getAudioInputArgs musicExists ;;
  log DEBUG "FFmpeg command" ;;
  pid <- spawn ;;
  update (set_ffmpeg (Some pid)) ;;
  update (set_isRunning true) ;;
  log INFO "FFmpeg started, stream active".

Definition handle (ev : Event) : M unit :=
  match ev with
  | EvClose pid code => deliver_close pid ;; on_close code
  | EvError => on_error
  | EvDrain pid => deliver_drain pid
  | EvTimer musicExists =>
      t <- pop_timer ;;
      match t with
      | None => ret tt
      | Some (CbStartFFmpeg, _) => startFFmpeg musicExists
      end
  | EvScreencastFrame _ _ _ => ret tt
  end.

Fixpoint deliver (evs : list Event) : M unit :=
  match evs with
  | [] => ret tt
  | ev :: rest =>
      try_catch (handle ev)
        (fun e => log ERROR "uncaught exception") ;;
      deliver rest
  end.

Definition refreshPageIfNeeded (now : Z) (reload : Outcome unit)
    (reloaded : Z) : M unit :=
  o <- this ;;
  let elapsed := now - lastRefreshTime o in
  if PAGE_REFRESH_INTERVAL CONFIG <=? elapsed then
    log INFO "refreshing page" ;;
    try_catch
      (o <- this ;;
       match page o with
       | None => throw (ErrTypeError "this.page is null")
       | Some _ =>
           await PageReload reload ;;
           sleep 10000 ;;
           log INFO "page refreshed"
       end)
      (fun e => log ERROR "refresh error") ;;
    update (set_lastRefreshTime reloaded)
  else ret tt.

Definition main_iteration (t : Tick) : M unit :=
  try_catch
    (refreshPageIfNeeded (tick_now t) (tick_reload t) (tick_reloaded t))
    (fun e => log ERROR "main loop error") ;;
  sleep 10000 ;;
  deliver (tick_events t).

Fixpoint main_loop (ticks : list Tick) : M LoopEnd :=
  o <- this ;;
  if isRunning o then
    match ticks with
    | [] => ret StillLooping
    | t :: rest => main_iteration t ;; main_loop rest
    end
  else ret LoopLeft.

Definition runMainLoop (ticks : list Tick) : M LoopEnd :=
  log INFO "main loop started" ;;
  main_loop ticks.

Definition stop (x : StopAnswers) : M unit :=
  log INFO "stopping streamer" ;;
  update (set_isRunning false) ;;
  o <- this ;;
  match ffmpeg o with
  | None => ret tt
  | Some pid =>
      emit (Kill pid SIGTERM) ;; on_proc pid (proc_signal SIGTERM) ;;
      update (set_ffmpeg None)
  end ;;
  o <- this ;;
  match browser o with
  | None => ret tt
  | Some _ =>
      await BrowserClose (ans_browserClose x) ;;
      update (set_browser None)
  end ;;
  log INFO "streamer stopped".

Definition startBrowser (x : StartAnswers) : M unit :=
  log INFO "starting browser on the virtual display" ;;
  b <- await Launch (ans_launch x) ;;
  update (set_browser (Some b)) ;;
  pages <- await Pages (ans_pages x) ;;
  p <- match pages with
       | Some p0 => ret p0
       | None => await NewPage (ans_newPage x)
       end ;;
  update (set_page (Some p)) ;;
  await SetUserAgent (ans_setUserAgent x) ;;
  await EvaluateOnNewDocument (ans_hideCursor x) ;;
  await EvaluateOnNewDocument (ans_hideWebdriver x) ;;
  log INFO "browser started".

Definition loadPage (x : StartAnswers) : M unit :=
  log INFO "loading page" ;;
  o <- this ;;
  match page o with
  | None => throw (ErrTypeError "this.page is null")
  | Some _ =>
      await PageGoto (ans_goto x) ;;
      await SetViewport (ans_setViewport x) ;;
      log INFO "waiting for the WebGL map" ;;
      sleep 10000 ;;
      await Evaluate (ans_evaluate x) ;;
      log INFO "status" ;;
      log INFO "page loaded and ready" ;;
      update (set_lastRefreshTime (ans_loaded x))
  end.

(** [start()] has no [try]: what throws in it reaches the caller as it
    is. *)
Definition start (x : StartAnswers) : M LoopEnd :=
  log INFO "" ;; log INFO "banner" ;; log INFO "mode" ;; log INFO "" ;;
  startBrowser x ;;
  loadPage x ;;
  startFFmpeg (ans_musicExists x) ;;
  sleep 3000 ;;
  deliver (ans_warmup x) ;;
  runMainLoop (ans_ticks x).

End WithConfig.
End X11grab.

(** ** Measures on traces *)

Definition is_write (e : Effect) : bool :=
  match e with StdinWrite _ _ _ => true | _ => false end.

Definition is_spawn (e : Effect) : bool :=
  match e with Spawn _ => true | _ => false end.

Definition is_kill (sig : Signal) (e : Effect) : bool :=
  match e, sig with
  | Kill _ SIGTERM, SIGTERM => true
  | Kill _ SIGKILL, SIGKILL => true
  | _, _ => false
  end.

(** The log line [refreshPageIfNeeded] writes when, and only when, it
    decides to reload. *)
Definition is_rejuvenation (e : Effect) : bool :=
  match e with
  | Log INFO key => if string_dec key "refreshing page" then true else false
  | _ => false
  end.

(** The log line of the catch block of [main]'s restart loop. *)
Definition is_supervisor_restart (e : Effect) : bool :=
  match e with
  | Log ERROR key => if string_dec key "streamer crashed" then true else false
  | _ => false
  end.

Definition count (p : Effect -> bool) (tr : list Effect) : nat :=
  length (List.filter p tr).

(** Frames handed to the encoder. *)
Definition writes (tr : list Effect) : nat := count is_write tr.

Definition spawns (tr : list Effect) : nat := count is_spawn tr.

Definition rejuvenations (tr : list Effect) : nat := count is_rejuvenation tr.

(** Backpressure on a trace: after a write to [pid] that reported a full
    buffer, no write to [pid] before that pipe's drain.  [waiting] is the
    pipe that has reported a full buffer and has not drained since. *)
Fixpoint respects_backpressure (waiting : option nat) (tr : list Effect)
    : bool :=
  match tr with
  | [] => true
  | StdinWrite pid _ canWrite :: rest =>
      match waiting with
      | Some q => if Nat.eqb q pid then false
                  else respects_backpressure
                         (if canWrite then waiting else Some pid) rest
      | None => respects_backpressure
                  (if canWrite then None else Some pid) rest
      end
  | Drained pid :: rest =>
      match waiting with
      | Some q => respects_backpressure
                    (if Nat.eqb q pid then None else waiting) rest
      | None => respects_backpressure None rest
      end
  | _ :: rest => respects_backpressure waiting rest
  end.

(** The encoder process [pid] is gone for good: it has exited, or it was
    sent the signal that cannot be ignored. *)
Definition exited_or_killed (s : Sys) (pid : nat) : bool :=
  match procs s !! pid with
  | Some p => exited p || existsb (fun sig => match sig with
                                              | SIGKILL => true
                                              | SIGTERM => false
                                              end) (signals p)
  | None => false
  end.

(** ** Concrete runs *)

Definition env_default : ProcessEnv :=
  {| env_STREAM_KEY := Some "live-key"; env_FPS := None;
     env_RESTART_DELAY := None; env_PAGE_REFRESH_INTERVAL := None |}.

(** [STREAM_KEY] unset. *)
Definition env_no_key : ProcessEnv :=
  {| env_STREAM_KEY := None; env_FPS := None;
     env_RESTART_DELAY := None; env_PAGE_REFRESH_INTERVAL := None |}.

(** [RESTART_DELAY=500]. *)
Definition env_fast_restart : ProcessEnv :=
  {| env_STREAM_KEY := Some "live-key"; env_FPS := None;
     env_RESTART_DELAY := Some 500; env_PAGE_REFRESH_INTERVAL := None |}.

(** [FPS=2]. *)
Definition env_two_fps : ProcessEnv :=
  {| env_STREAM_KEY := Some "live-key"; env_FPS := Some 2;
     env_RESTART_DELAY := None; env_PAGE_REFRESH_INTERVAL := None |}.

Definition ok_stop : StopAnswers :=
  {| ans_stopScreencast := Resolves tt; ans_detach := Resolves tt;
     ans_browserClose := Resolves tt |}.

(** A [start()] in which every awaited call succeeds. *)
Definition smooth_start (ticks : list Index.Tick) : Index.StartAnswers :=
  {| Index.ans_launch := Resolves 0%nat;
     Index.ans_newPage := Resolves 0%nat;
     Index.ans_setUserAgent := Resolves tt;
     Index.ans_goto := Resolves tt;
     Index.ans_loaded := 4000;
     Index.ans_musicExists := false;
     Index.ans_warmup := [];
     Index.ans_createCDPSession := Resolves 0%nat;
     Index.ans_startScreencast := Resolves tt;
     Index.ans_ticks := ticks;
     Index.ans_stop := ok_stop |}.

(** The streamer right after a successful start: browser, page, session
    and encoder 0 live, the running flag set. *)
Definition live0 : Sys :=
  snd (Index.start (Index.mkCONFIG env_default) (smooth_start []) (boot 0)).

(** A turn of the monitor loop at time [now] in which no refresh is due
    and the given events arrive. *)
Definition calm_tick (now : Z) (evs : list Event) : Index.Tick :=
  {| Index.tick_now := now; Index.tick_goto := Resolves tt;
     Index.tick_loaded := now; Index.tick_events := evs |}.

(** The encoder exits four times within four seconds; each time the
    relaunch timer fires a second later. *)
Definition four_crashes : list Index.Tick :=
  [ calm_tick 6000 [EvClose 0 1];
    calm_tick 7000 [EvTimer false; EvClose 1 1];
    calm_tick 8000 [EvTimer false; EvClose 2 1];
    calm_tick 9000 [EvTimer false; EvClose 3 1];
    calm_tick 10000 [EvTimer false] ].

(** Exit events in a trace (the warning the 'close' listener logs). *)
Definition is_exit_report (e : Effect) : bool :=
  match e with
  | Log WARN key => if string_dec key "FFmpeg exited" then true else false
  | _ => false
  end.

(** A round of crash and relaunch: the process [pid] closes with [code]
    and the relaunch timer fires. *)
Definition crash_round (r : nat * Z * bool) : list Event :=
  let '(pid, code, musicExists) := r in
  [EvClose pid code; EvTimer musicExists].

(** The effects that act on the child process [pid]. *)
Definition on_process (pid : nat) (e : Effect) : bool :=
  match e with
  | StdinWrite q _ _ | OnceDrain q | StdinEnd q | Kill q _ => Nat.eqb q pid
  | _ => false
  end.

Definition is_sleep (e : Effect) : bool :=
  match e with Sleep _ => true | _ => false end.

(** Two screencast frames in a row, the first write reporting a full
    buffer, no 'drain' in between. *)
Definition two_frames_no_drain : list Event :=
  [ EvScreencastFrame 1%nat (Wrote false) (Resolves tt);
    EvScreencastFrame 2%nat (Wrote true) (Resolves tt) ].

(** The log line of the 'uncaughtException' listener. *)
Definition is_uncaught (e : Effect) : bool :=
  match e with
  | Log ERROR key =>
      if string_dec key "uncaught exception" then true else false
  | _ => false
  end.

(** The one pass of [main]'s restart loop in which the encoder exits four
    times, under [FPS=2]. *)
Definition crash_loop_run : Index.Exit * Sys :=
  Index.main (Index.mkCONFIG env_two_fps) 0
    [ {| Index.att_start := smooth_start four_crashes;
         Index.att_stop := ok_stop; Index.att_backoff := [] |} ].

(** The warning [startCapturing] logs for a frame that was not sent. *)
Definition is_skip_warning (e : Effect) : bool :=
  match e with
  | Log WARN key =>
      if string_dec key "frame not sent, skipping" then true else false
  | _ => false
  end.

(** The error [captureAndSendFrame] logs for a failed screenshot. *)
Definition is_capture_error (e : Effect) : bool :=
  match e with
  | Log ERROR key =>
      if string_dec key "frame capture error" then true else false
  | _ => false
  end.

Definition polled_start (ticks : list Polled.Tick) : Polled.StartAnswers :=
  {| Polled.ans_launch := Resolves 0%nat;
     Polled.ans_newPage := Resolves 0%nat;
     Polled.ans_setUserAgent := Resolves tt;
     Polled.ans_goto := Resolves tt;
     Polled.ans_loaded := 4000;
     Polled.ans_warmup := [];
     Polled.ans_ticks := ticks;
     Polled.ans_stop := ok_stop |}.

(** A turn of the capture loop starting at [t] whose screenshot is
    answered by [shot] and whose write by [w]. *)
Definition polled_tick (t : Z) (shot : Outcome Frame) (w : WriteAnswer)
    : Polled.Tick :=
  {| Polled.tick_start := t; Polled.tick_shot := shot;
     Polled.tick_during := []; Polled.tick_write := w;
     Polled.tick_flushed := None; Polled.tick_now := t + 40;
     Polled.tick_goto := Resolves tt; Polled.tick_loaded := t + 40;
     Polled.tick_end := t + 40;
     Polled.tick_events := [] |}.

(** Three screenshots in a row fail within half a second; the fourth
    succeeds. *)
Definition three_failures : list Polled.Tick :=
  [ polled_tick 6000 (Rejects (ErrExternal "screenshot")) (Wrote true);
    polled_tick 6166 (Rejects (ErrExternal "screenshot")) (Wrote true);
    polled_tick 6332 (Rejects (ErrExternal "screenshot")) (Wrote true);
    polled_tick 6498 (Resolves 1%nat) (Wrote true) ].

Definition three_failures_run : Result LoopEnd * Sys :=
  Polled.start (Polled.mkCONFIG env_default) (polled_start three_failures)
    (boot 0).

(** Two polled frames, the first write reporting a full buffer. *)
Definition polled_full_buffer_run : Result LoopEnd * Sys :=
  Polled.start (Polled.mkCONFIG env_default)
    (polled_start
       [ polled_tick 6000 (Resolves 1%nat) (Wrote false);
         polled_tick 6166 (Resolves 2%nat) (Wrote true) ])
    (boot 0).

(** A turn an hour after the page was loaded: the screenshot is rejected,
    the page refresh is due and [page.goto] rejects as well. *)
Definition failed_reload_tick : Polled.Tick :=
  {| Polled.tick_start := 3604000;
     Polled.tick_shot := Rejects (ErrExternal "screenshot");
     Polled.tick_during := []; Polled.tick_write := Wrote true;
     Polled.tick_flushed := None; Polled.tick_now := 3604040;
     Polled.tick_goto := Rejects (ErrExternal "page.goto");
     Polled.tick_loaded := 3604040; Polled.tick_end := 3604040;
     Polled.tick_events := [] |}.

(** A turn of the capture loop loses its frame to a failed acquisition:
    the screenshot is rejected. *)
Definition acquisition_fails (t : Polled.Tick) : Prop :=
  exists e, Polled.tick_shot t = Rejects e.

(** The page reload of a turn, should one be due, succeeds. *)
Definition reload_succeeds (t : Polled.Tick) : Prop :=
  Polled.tick_goto t = Resolves tt.

(** 118 screencast frames, each written and acknowledged. *)
Definition frames_118 : list Index.Op :=
  repeat (Index.OpHandle (EvScreencastFrame 0%nat (Wrote true) (Resolves tt)))
    118.

(** The streamer after those frames: counter at 118, page loaded at
    time 4000. *)
Definition after_118 : Sys :=
  Index.run (Index.mkCONFIG env_default) frames_118 live0.

(** The hourly refresh falls due at this turn and the reload succeeds,
    the page having settled at 3608000. *)
Definition refresh_tick : Index.Tick :=
  {| Index.tick_now := 3604000; Index.tick_goto := Resolves tt;
     Index.tick_loaded := 3608000; Index.tick_events := [] |}.

(** The rejuvenations the claim asks for over the turns of a run that
    loaded its page at [last]: one each time the age of the page has
    reached the interval, the age starting again from the time of that
    reload. *)
Fixpoint crossings (interval last : Z) (ticks : list Index.Tick) : nat :=
  match ticks with
  | [] => 0%nat
  | t :: rest =>
      if interval <=? Index.tick_now t - last
      then S (crossings interval (Index.tick_loaded t) rest)
      else crossings interval last rest
  end.

(** Every page reload of these turns, should one be due, succeeds. *)
Definition reloads_succeed (ticks : list Index.Tick) : Prop :=
  Forall (fun t => Index.tick_goto t = Resolves tt) ticks.

(** Every call awaited by [start()] before its loop resolves. *)
Definition starts_smoothly (x : Index.StartAnswers) : Prop :=
  (exists b, Index.ans_launch x = Resolves b) /\
  (exists p, Index.ans_newPage x = Resolves p) /\
  Index.ans_setUserAgent x = Resolves tt /\
  Index.ans_goto x = Resolves tt /\
  (exists c, Index.ans_createCDPSession x = Resolves c) /\
  Index.ans_startScreencast x = Resolves tt.

(** ** Properties of computations and relations between states *)

(** A computation that never throws, whatever the state. *)
Definition nothrow {A} (m : M A) : Prop :=
  forall s, exists a, fst (m s) = Ok a.

(** A relation between the state before and the state after that every
    step of a computation maintains, whether it returns or throws. *)
Definition always (R : Sys -> Sys -> Prop) {A} (m : M A) : Prop :=
  forall s, R s (snd (m s)).

(** The running flag, the page handles, the refresh clock and the number
    of rejuvenations: no event listener of [index.js] changes them. *)
Definition quiet (s s' : Sys) : Prop :=
  isRunning (self s') = isRunning (self s) /\
  browser (self s') = browser (self s) /\
  page (self s') = page (self s) /\
  cdpSession (self s') = cdpSession (self s) /\
  lastRefreshTime (self s') = lastRefreshTime (self s) /\
  rejuvenations (trace s') = rejuvenations (trace s).

(** What the event listeners of [part_001] never touch. *)
Definition polled_quiet (s s' : Sys) : Prop :=
  isRunning (self s') = isRunning (self s) /\
  page (self s') = page (self s) /\
  frameCount (self s') = frameCount (self s) /\
  count is_skip_warning (trace s') = count is_skip_warning (trace s) /\
  count is_capture_error (trace s') = count is_capture_error (trace s).

(** The frame counter moves in step with the frames written to the
    encoder's pipe: their difference never changes, and the number of
    frames written never shrinks. *)
Definition counted (s s' : Sys) : Prop :=
  frameCount (self s') - Z.of_nat (writes (trace s'))
    = frameCount (self s) - Z.of_nat (writes (trace s)) /\
  (writes (trace s) <= writes (trace s'))%nat.

(** No page refresh is decided. *)
Definition calm (s s' : Sys) : Prop :=
  rejuvenations (trace s') = rejuvenations (trace s).

(** What [stop()] does to release the session and the browser. *)
Definition is_stop_screencast (e : Effect) : bool :=
  match e with CdpSend StopScreencast => true | _ => false end.

Definition is_browser_close (e : Effect) : bool :=
  match e with BrowserClose => true | _ => false end.

(** A page is only ever held together with its browser. *)
Definition page_needs_browser (s : Sys) : Prop :=
  browser (self s) = None -> page (self s) = None.

Definition tidy (s s' : Sys) : Prop :=
  page_needs_browser s -> page_needs_browser s'.

(** ** Further measures and conditions *)

Definition is_exit (e : Effect) : bool :=
  match e with ProcessExit _ => true | _ => false end.

(** The 'close' events among the events delivered. *)
Definition closes (evs : list Event) : nat :=
  length (List.filter (fun ev => match ev with
                                 | EvClose _ _ => true
                                 | _ => false
                                 end) evs).

(** [browser.close()] resolves in the [stop()] of the restart loop's catch
    block. *)
Definition closes_cleanly (a : Index.Attempt) : Prop :=
  ans_browserClose (Index.att_stop a) = Resolves tt.

(** The state in which [main] enters its restart loop: the configuration
    was valid and the streamer has just been constructed. *)
Definition booted (CONFIG : Config) (now : Z) : Sys :=
  snd ((Index.validateConfig CONFIG ;;
        emit NewStreamer ;;
        update (fun _ => constructor now)) (boot now)).

(** [browser.close()] rejects whenever it is called. *)
Definition stuck_stop : StopAnswers :=
  {| ans_stopScreencast := Resolves tt; ans_detach := Resolves tt;
     ans_browserClose := Rejects (ErrExternal "browser.close") |}.

(** The browser launches, the page fails to load, and the browser then
    refuses to close. *)
Definition stuck_start : Index.StartAnswers :=
  {| Index.ans_launch := Resolves 0%nat;
     Index.ans_newPage := Resolves 0%nat;
     Index.ans_setUserAgent := Resolves tt;
     Index.ans_goto := Rejects (ErrExternal "page.goto");
     Index.ans_loaded := 4000;
     Index.ans_musicExists := false;
     Index.ans_warmup := [];
     Index.ans_createCDPSession := Resolves 0%nat;
     Index.ans_startScreencast := Resolves tt;
     Index.ans_ticks := [];
     Index.ans_stop := stuck_stop |}.

(** The encoder held, if any, is the process spawned last. *)
Definition held_is_newest (s : Sys) : Prop :=
  forall pid, ffmpeg (self s) = Some pid -> S pid = length (procs s).

(** While the running flag is set, the browser, the page and the CDP
    session are held. *)
Definition running_holds_session (s : Sys) : Prop :=
  isRunning (self s) = true ->
  browser (self s) <> None /\ page (self s) <> None /\
  cdpSession (self s) <> None.

Definition well_formed (s : Sys) : Prop :=
  held_is_newest s /\ running_holds_session s /\ page_needs_browser s.

Definition keeps_well_formed (s s' : Sys) : Prop :=
  well_formed s -> well_formed s'.

(** What an event listener leaves alone when it writes no frame. *)
Definition idle (s s' : Sys) : Prop :=
  writes (trace s') = writes (trace s) /\
  frameCount (self s') = frameCount (self s) /\
  isRunning (self s') = isRunning (self s).

(** Relaunches done and relaunches pending, taken together. *)
Definition relaunches (s : Sys) : nat :=
  (spawns (trace s) + length (timers s))%nat.

Definition settled (s s' : Sys) : Prop :=
  relaunches s' = relaunches s /\
  isRunning (self s') = isRunning (self s).

(** Nothing about the encoder has changed. *)
Definition before_encoder (s s' : Sys) : Prop :=
  spawns (trace s') = spawns (trace s) /\
  ffmpeg (self s') = ffmpeg (self s) /\
  isRunning (self s') = isRunning (self s) /\
  procs s' = procs s.

(** A [start()] of [part_002] whose page fails to load after the browser
    was launched. *)
Definition x11_failing_start : X11grab.StartAnswers :=
  {| X11grab.ans_launch := Resolves 0%nat;
     X11grab.ans_pages := Resolves (Some 0%nat);
     X11grab.ans_newPage := Resolves 1%nat;
     X11grab.ans_setUserAgent := Resolves tt;
     X11grab.ans_hideCursor := Resolves tt;
     X11grab.ans_hideWebdriver := Resolves tt;
     X11grab.ans_goto := Rejects (ErrExternal "page.goto");
     X11grab.ans_setViewport := Resolves tt;
     X11grab.ans_evaluate := Resolves tt;
     X11grab.ans_loaded := 14000;
     X11grab.ans_musicExists := false;
     X11grab.ans_warmup := [];
     X11grab.ans_ticks := [] |}.

(** The milliseconds slept in a trace. *)
Definition slept (tr : list Effect) : Z :=
  fold_right (fun e acc => match e with Sleep ms => ms + acc | _ => acc end)
    0 tr.

(** The listeners of [part_001] neither sleep nor touch the refresh
    clock. *)
Definition sleepless (s s' : Sys) : Prop :=
  slept (trace s') = slept (trace s) /\
  lastRefreshTime (self s') = lastRefreshTime (self s).

(** No frame is written to the encoder. *)
Definition unwritten (s s' : Sys) : Prop :=
  writes (trace s') = writes (trace s).

(** [STREAM_KEY=] (set, but empty). *)
Definition env_empty_key : ProcessEnv :=
  {| env_STREAM_KEY := Some ""; env_FPS := None;
     env_RESTART_DELAY := None; env_PAGE_REFRESH_INTERVAL := None |}.

(** Nothing is held and the running flag is cleared. *)
Definition released (s : Sys) : Prop :=
  browser (self s) = None /\ page (self s) = None /\
  cdpSession (self s) = None /\ ffmpeg (self s) = None /\
  isRunning (self s) = false.

(** No browser, page or session is held and the running flag is
    cleared. *)
Definition session_released (s : Sys) : Prop :=
  browser (self s) = None /\ page (self s) = None /\
  cdpSession (self s) = None /\ isRunning (self s) = false.

Definition is_timer (ev : Event) : bool :=
  match ev with EvTimer _ => true | _ => false end.

(** No relaunch timer fires while the catch block of this attempt waits
    out the restart delay. *)
Definition no_timer_fires (a : Index.Attempt) : Prop :=
  Forall (fun ev => is_timer ev = false) (Index.att_backoff a).

(** An attempt whose page fails to load and whose browser closes. *)
Definition failing_attempt : Index.Attempt :=
  {| Index.att_start :=
       {| Index.ans_launch := Resolves 0%nat;
          Index.ans_newPage := Resolves 0%nat;
          Index.ans_setUserAgent := Resolves tt;
          Index.ans_goto := Rejects (ErrExternal "page.goto");
          Index.ans_loaded := 4000;
          Index.ans_musicExists := false;
          Index.ans_warmup := [];
          Index.ans_createCDPSession := Resolves 0%nat;
          Index.ans_startScreencast := Resolves tt;
          Index.ans_ticks := [];
          Index.ans_stop := ok_stop |};
     Index.att_stop := ok_stop; Index.att_backoff := [] |}.

Definition is_ack (e : Effect) : bool :=
  match e with CdpSend ScreencastFrameAck => true | _ => false end.

Definition is_once_drain (e : Effect) : bool :=
  match e with OnceDrain _ => true | _ => false end.

(** An attempt that starts well; the encoder exits in the first turn of
    the monitor loop, the page refresh of the second turn fails, and the
    relaunch timer fires while the catch block sleeps. *)
Definition late_relaunch_attempt : Index.Attempt :=
  {| Index.att_start :=
       smooth_start
         [ calm_tick 6000 [EvClose 0 1];
           {| Index.tick_now := 3604000;
              Index.tick_goto := Rejects (ErrExternal "page.goto");
              Index.tick_loaded := 3604000; Index.tick_events := [] |} ];
     Index.att_stop := ok_stop;
     Index.att_backoff := [EvTimer false] |}.

(** * Properties *)

(** ** Reasoning principles for the monad *)

Lemma bind_ok {A B} (m : M A) (k : A -> M B) s a s' :
  m s = (Ok a, s') -> bind m k s = k a s'.
Proof. unfold bind; intros ->; reflexivity. Qed.

Lemma bind_throw {A B} (m : M A) (k : A -> M B) s e s' :
  m s = (Throw e, s') -> bind m k s = (Throw e, s').
Proof. unfold bind; intros ->; reflexivity. Qed.


Lemma nothrow_ret {A} (a : A) : nothrow (ret a).
Proof. intros s; exists a; reflexivity. Qed.

Lemma nothrow_bind {A B} (m : M A) (k : A -> M B) :
  nothrow m -> (forall a, nothrow (k a)) -> nothrow (bind m k).
Proof.
  intros Hm Hk s. unfold bind.
  destruct (Hm s) as [a Ha]. destruct (m s) as [[a'|e] s']; simpl in Ha.
  - apply Hk.
  - discriminate.
Qed.

Lemma nothrow_try_catch {A} (m : M A) (h : Error -> M A) :
  (forall e, nothrow (h e)) -> nothrow (try_catch m h).
Proof.
  intros Hh s. unfold try_catch.
  destruct (m s) as [[a|e] s'].
  - exists a; reflexivity.
  - apply Hh.
Qed.

Lemma nothrow_get : nothrow get.
Proof. intros s; eexists; reflexivity. Qed.

Lemma nothrow_this : nothrow this.
Proof. intros s; eexists; reflexivity. Qed.

Lemma nothrow_update f : nothrow (update f).
Proof. intros s; eexists; reflexivity. Qed.

Lemma nothrow_emit e : nothrow (emit e).
Proof. intros s; eexists; reflexivity. Qed.

Lemma nothrow_on_proc pid f : nothrow (on_proc pid f).
Proof. intros s; eexists; reflexivity. Qed.

Lemma nothrow_setTimeout cb ms : nothrow (setTimeout cb ms).
Proof. intros s; eexists; reflexivity. Qed.

Lemma nothrow_spawn : nothrow spawn.
Proof. intros s; eexists; reflexivity. Qed.

Lemma nothrow_pop_timer : nothrow pop_timer.
Proof. intros s; unfold pop_timer; destruct (timers s); eexists; reflexivity. Qed.

Create HintDb nothrow.
#[local] Hint Resolve nothrow_ret nothrow_get nothrow_this nothrow_update
  nothrow_emit nothrow_on_proc nothrow_setTimeout nothrow_spawn
  nothrow_pop_timer : nothrow.

(** Splits a goal [nothrow m] along the shape of [m]. *)
Ltac nothrow_step :=
  match goal with
  | |- nothrow (bind _ _) => apply nothrow_bind; [ | intros ]
  | |- nothrow (try_catch _ _) => apply nothrow_try_catch; intros
  | |- nothrow (if ?b then _ else _) => destruct b
  | |- nothrow (match ?x with _ => _ end) => destruct x
  | |- nothrow _ => solve [ auto with nothrow ]
  end.

Ltac nothrow_tac := repeat nothrow_step.

Lemma nothrow_log l key : nothrow (log l key).
Proof. unfold log; nothrow_tac. Qed.

Lemma nothrow_sleep ms : nothrow (sleep ms).
Proof. unfold sleep; nothrow_tac. Qed.

Lemma nothrow_deliver_close pid : nothrow (deliver_close pid).
Proof. unfold deliver_close; nothrow_tac. Qed.

Lemma nothrow_deliver_drain pid : nothrow (deliver_drain pid).
Proof. unfold deliver_drain; nothrow_tac. Qed.

Lemma nothrow_incr_frameCount : nothrow incr_frameCount.
Proof. unfold incr_frameCount; nothrow_tac. Qed.

#[local] Hint Resolve nothrow_log nothrow_sleep nothrow_deliver_close
  nothrow_deliver_drain nothrow_incr_frameCount : nothrow.

Lemma nothrow_Index_startFFmpeg m : nothrow (Index.startFFmpeg m).
Proof. unfold Index.startFFmpeg, Index.getAudioInputArgs; nothrow_tac. Qed.

Lemma nothrow_Index_on_close code : nothrow (Index.on_close code).
Proof. unfold Index.on_close; nothrow_tac. Qed.

Lemma nothrow_Index_sendFrameToFFmpeg f w :
  nothrow (Index.sendFrameToFFmpeg f w).
Proof. unfold Index.sendFrameToFFmpeg; nothrow_tac. Qed.

#[local] Hint Resolve nothrow_Index_startFFmpeg nothrow_Index_on_close
  nothrow_Index_sendFrameToFFmpeg : nothrow.

Lemma nothrow_Index_on_screencastFrame f w ack :
  nothrow (Index.on_screencastFrame f w ack).
Proof. unfold Index.on_screencastFrame; nothrow_tac. Qed.

#[local] Hint Resolve nothrow_Index_on_screencastFrame : nothrow.

Lemma nothrow_Index_handle ev : nothrow (Index.handle ev).
Proof.
  destruct ev; unfold Index.handle, Index.on_error; nothrow_tac.
Qed.

Lemma nothrow_Index_deliver evs : nothrow (Index.deliver evs).
Proof.
  induction evs as [|ev evs IH]; simpl; nothrow_tac.
Qed.

#[local] Hint Resolve nothrow_Index_handle nothrow_Index_deliver : nothrow.

Lemma nothrow_Index_captureAndSendFrame shot during w :
  nothrow (Index.captureAndSendFrame shot during w).
Proof. unfold Index.captureAndSendFrame; nothrow_tac. Qed.

(** *** Relations every step maintains *)

Section Always.
Context (R : Sys -> Sys -> Prop) `{!PreOrder R}.

Lemma always_ret {A} (a : A) : always R (ret a).
Proof. intros s; simpl; reflexivity. Qed.

Lemma always_throw {A} e : always R (@throw A e).
Proof. intros s; simpl; reflexivity. Qed.

Lemma always_get : always R get.
Proof. intros s; simpl; reflexivity. Qed.

Lemma always_this : always R this.
Proof. intros s; simpl; reflexivity. Qed.

Lemma always_bind {A B} (m : M A) (k : A -> M B) :
  always R m -> (forall a, always R (k a)) -> always R (bind m k).
Proof.
  intros Hm Hk s. unfold bind.
  specialize (Hm s). destruct (m s) as [[a|e] s']; simpl in *.
  - etransitivity; [exact Hm | apply Hk].
  - exact Hm.
Qed.

Lemma always_try_catch {A} (m : M A) (h : Error -> M A) :
  always R m -> (forall e, always R (h e)) -> always R (try_catch m h).
Proof.
  intros Hm Hh s. unfold try_catch.
  specialize (Hm s). destruct (m s) as [[a|e] s']; simpl in *.
  - exact Hm.
  - etransitivity; [exact Hm | apply Hh].
Qed.

End Always.

Lemma always_weaken (R R' : Sys -> Sys -> Prop) {A} (m : M A) :
  (forall s s', R s s' -> R' s s') -> always R m -> always R' m.
Proof. intros H Hm s; apply H, Hm. Qed.

Create HintDb always.
#[local] Hint Resolve always_ret always_throw always_get always_this : always.

(** Splits a goal [always R m] along the shape of [m]; [leaf] settles the
    primitive operations for the relation at hand. *)
Ltac always_step leaf :=
  match goal with
  | |- always _ (bind _ _) => apply always_bind; [ try exact _ | | intros ]
  | |- always _ (try_catch _ _) =>
      apply always_try_catch; [ try exact _ | | intros ]
  | |- always _ (let _ := _ in _) => cbv zeta
  | |- always _ (if ?b then _ else _) => destruct b
  | |- always _ (match ?x with _ => _ end) => destruct x
  | |- always _ (log _ _) => unfold log
  | |- always _ (sleep _) => unfold sleep
  | |- always _ (await _ _) => unfold await
  | |- always _ (deliver_close _) => unfold deliver_close
  | |- always _ (deliver_drain _) => unfold deliver_drain
  | |- always _ _ => solve [ auto with always ]
  | |- always _ _ => solve [ leaf ]
  end.

Ltac always_tac leaf := repeat (always_step leaf).

Lemma count_app p (a b : list Effect) : count p (a ++ b) = (count p a + count p b)%nat.
Proof. unfold count. rewrite List.filter_app, length_app. reflexivity. Qed.

Lemma count_snoc p (a : list Effect) e :
  count p (a ++ [e]) = (count p a + (if p e then 1 else 0))%nat.
Proof. rewrite count_app. unfold count; simpl. destruct (p e); reflexivity. Qed.

(** *** What the listeners of the event loop never touch *)


#[local] Instance quiet_preorder : PreOrder quiet.
Proof.
  split.
  - intros s; unfold quiet; tauto.
  - intros a b c (?&?&?&?&?&?) (?&?&?&?&?&?); unfold quiet;
      repeat split; congruence.
Qed.

Ltac quiet_leaf :=
  let s0 := fresh "s" in
  intros s0;
  unfold quiet, rejuvenations, update, emit, on_proc, setTimeout, spawn,
    pop_timer, incr_frameCount;
  try (destruct (timers s0));
  simpl; rewrite ?count_snoc; simpl; repeat split; try reflexivity; lia.

Lemma quiet_stdin_write pid f w : always quiet (stdin_write pid f w).
Proof. unfold stdin_write. always_tac quiet_leaf. Qed.

Lemma quiet_incr : always quiet incr_frameCount.
Proof. quiet_leaf. Qed.

#[local] Hint Resolve quiet_stdin_write quiet_incr : always.

Lemma quiet_Index_startFFmpeg m : always quiet (Index.startFFmpeg m).
Proof.
  unfold Index.startFFmpeg, Index.getAudioInputArgs. always_tac quiet_leaf.
Qed.

Lemma quiet_Index_on_close code : always quiet (Index.on_close code).
Proof. unfold Index.on_close. always_tac quiet_leaf. Qed.

Lemma quiet_Index_sendFrameToFFmpeg f w :
  always quiet (Index.sendFrameToFFmpeg f w).
Proof. unfold Index.sendFrameToFFmpeg. always_tac quiet_leaf. Qed.

#[local] Hint Resolve quiet_Index_startFFmpeg quiet_Index_on_close
  quiet_Index_sendFrameToFFmpeg : always.

Lemma quiet_Index_handle ev : always quiet (Index.handle ev).
Proof.
  destruct ev; unfold Index.handle, Index.on_error,
    Index.on_screencastFrame; always_tac quiet_leaf.
Qed.

#[local] Hint Resolve quiet_Index_handle : always.

Lemma quiet_Index_deliver evs : always quiet (Index.deliver evs).
Proof.
  induction evs as [|ev evs IH]; simpl; always_tac quiet_leaf.
Qed.

#[local] Hint Resolve quiet_Index_deliver : always.

(** ** Boot without a stream key *)

(** C9: with the stream key missing from the environment,
    [validateConfig] throws, and [main] ends with the fatal-error log line
    and [process.exit(1)]: no streamer is constructed, no browser or
    encoder is started, the restart loop is never entered and nothing is
    retried, whatever the later attempts would have met. *)
Theorem C9_missing_stream_key_exits_1
    (env : ProcessEnv) (now : Z) (attempts : list Index.Attempt) (s : Sys) :
  env_STREAM_KEY env = None ->
  Index.validateConfig (Index.mkCONFIG env) s = (Throw ErrStreamKey, s) /\
  Index.main (Index.mkCONFIG env) now attempts =
    (Index.Exited 1,
     {| self := constructor now; procs := []; timers := [];
        trace := [Log ERROR "fatal error"; ProcessExit 1] |}).
Proof.
  intros Hkey.
  assert (Hv : forall s0,
    Index.validateConfig (Index.mkCONFIG env) s0 = (Throw ErrStreamKey, s0)).
  { intros s0. unfold Index.validateConfig, Index.mkCONFIG; simpl.
    rewrite Hkey; reflexivity. }
  split; [apply Hv|].
  unfold Index.main, Index.main_body.
  rewrite (bind_throw _ _ _ _ _ (Hv (boot now))).
  reflexivity.
Qed.

Lemma C9_missing_stream_key_exits_1_witness :
  env_STREAM_KEY env_no_key = None /\
  Index.main (Index.mkCONFIG env_no_key) 0
    [ {| Index.att_start := smooth_start four_crashes;
         Index.att_stop := ok_stop; Index.att_backoff := [] |} ] =
    (Index.Exited 1,
     {| self := constructor 0; procs := []; timers := [];
        trace := [Log ERROR "fatal error"; ProcessExit 1] |}).
Proof.
  split; [reflexivity|].
  apply (C9_missing_stream_key_exits_1 env_no_key 0 _ (boot 0)).
  reflexivity.
Defined.

(** With the key present the same boot constructs the streamer and enters
    the restart loop. *)
Example boot_with_key_enters_loop :
  fst (Index.main (Index.mkCONFIG env_default) 0
         [ {| Index.att_start := smooth_start [];
              Index.att_stop := ok_stop; Index.att_backoff := [] |} ])
  = Index.Alive.
Proof. reflexivity. Qed.

(** ** Frames sent while no encoder can take them *)

Lemma encoder_unavailable_after_close pid code s :
  encoder_unavailable (snd (Index.handle (EvClose pid code) s)) = true.
Proof.
  unfold Index.handle, Index.on_close, deliver_close, bind, on_proc, log,
    emit, update, this, setTimeout, encoder_unavailable; simpl.
  destruct (isRunning (self s)); reflexivity.
Qed.

Lemma Index_stop_clears_ffmpeg x s :
  ffmpeg (self (snd (Index.stop x s))) = None.
Proof.
  destruct s as [[b p c f r n t] ps ts tr].
  destruct x as [[[]|e1] [[]|e2] [[]|e3]]; destruct c, f, b; reflexivity.
Qed.

(** C10: when no encoder process is held or its input pipe is not
    writable, [sendFrameToFFmpeg] and [captureAndSendFrame] return [false]
    without throwing and leave the whole state as it was (not even a log
    line is written); that is the situation after every 'close' event until
    the relaunch, and after [stop()].  Neither function throws in any
    state, also when the encoder goes away while the screenshot is
    awaited. *)
Theorem C10_send_without_encoder_drops_frame
    (s : Sys) (f : Frame) (w : WriteAnswer) (shot : Outcome Frame)
    (during : list Event) :
  encoder_unavailable s = true ->
  Index.sendFrameToFFmpeg f w s = (Ok SentFalse, s) /\
  Index.captureAndSendFrame shot during w s = (Ok SentFalse, s) /\
  (forall pid code s0,
     encoder_unavailable (snd (Index.handle (EvClose pid code) s0)) = true) /\
  (forall x s0, encoder_unavailable (snd (Index.stop x s0)) = true) /\
  nothrow (Index.sendFrameToFFmpeg f w) /\
  nothrow (Index.captureAndSendFrame shot during w).
Proof.
  intros Hun. repeat split.
  - unfold encoder_unavailable in Hun.
    unfold Index.sendFrameToFFmpeg, bind, get; simpl.
    destruct (ffmpeg (self s)); [|reflexivity].
    rewrite Hun; reflexivity.
  - unfold Index.captureAndSendFrame, bind, get; simpl.
    destruct (page (self s)); [|reflexivity].
    rewrite Hun; reflexivity.
  - intros; apply encoder_unavailable_after_close.
  - intros x s0. unfold encoder_unavailable.
    rewrite Index_stop_clears_ffmpeg; reflexivity.
  - apply nothrow_Index_sendFrameToFFmpeg.
  - apply nothrow_Index_captureAndSendFrame.
Qed.

(** The encoder of [live0] has exited and the relaunch timer has not
    fired yet. *)
Lemma C10_send_without_encoder_drops_frame_witness :
  let s := snd (Index.handle (EvClose 0 1) live0) in
  encoder_unavailable s = true /\
  Index.sendFrameToFFmpeg 7%nat (Wrote true) s = (Ok SentFalse, s) /\
  Index.captureAndSendFrame (Resolves 7%nat) [] (Wrote true) s
    = (Ok SentFalse, s).
Proof.
  split; [reflexivity|].
  pose proof (C10_send_without_encoder_drops_frame
                (snd (Index.handle (EvClose 0 1) live0)) 7%nat (Wrote true)
                (Resolves 7%nat) [] eq_refl) as H.
  split; [exact (proj1 H) | exact (proj1 (proj2 H))].
Defined.

(** The encoder exits while [page.screenshot()] is awaited: the frame is
    dropped, nothing is thrown and the frame counter stays. *)
Example capture_survives_crash_during_screenshot :
  let r := Index.captureAndSendFrame (Resolves 7%nat) [EvClose 0 1]
             (Wrote true) live0 in
  fst r = Ok SentFalse /\ frameCount (self (snd r)) = 0.
Proof. split; reflexivity. Qed.

(** ** Stopping the encoder *)

Lemma exited_or_killed_after_sigterm s s' pid f :
  (forall p, exited (f p) = exited p) ->
  (forall p, exists l, signals (f p) = signals p ++ l /\
                       existsb (fun sig => match sig with
                                           | SIGKILL => true
                                           | SIGTERM => false
                                           end) l = false) ->
  procs s' = alter f pid (procs s) ->
  exited_or_killed s' pid = exited_or_killed s pid.
Proof.
  intros Hex Hsig Hp. unfold exited_or_killed. rewrite Hp.
  rewrite list_lookup_alter_eq.
  destruct (procs s !! pid) as [p|]; simpl; auto.
  rewrite Hex. destruct (Hsig p) as (l & -> & Hl).
  rewrite existsb_app, Hl, orb_false_r. reflexivity.
Qed.

(** C4, as the code has it: with an encoder [pid] held, [stop()] of
    [index.js] ends the input pipe, sends SIGTERM, and drops its handle at
    once; it does nothing else to the process, so it neither waits for the
    exit nor ever sends SIGKILL, and the process is exactly as exited or
    killed after [stop()] as it was before.  [stop()] of [part_002] sends
    SIGTERM only, with the same absence of a wait and of a forced kill;
    [stop()] of [part_001] does to the encoder what that of [index.js]
    does. *)
Theorem C4_stop_signals_without_waiting
    (x : StopAnswers) (s : Sys) (pid : nat) :
  ffmpeg (self s) = Some pid ->
  (let s' := snd (Index.stop x s) in
   (exists l, trace s' = trace s ++ l /\
              List.filter (on_process pid) l = [StdinEnd pid; Kill pid SIGTERM] /\
              count (is_kill SIGKILL) l = 0%nat) /\
   procs s' = alter (proc_signal SIGTERM) pid
                (alter proc_end_stdin pid (procs s)) /\
   ffmpeg (self s') = None /\
   isRunning (self s') = false /\
   exited_or_killed s' pid = exited_or_killed s pid) /\
  (let s' := snd (X11grab.stop x s) in
   (exists l, trace s' = trace s ++ l /\
              List.filter (on_process pid) l = [Kill pid SIGTERM] /\
              count (is_kill SIGKILL) l = 0%nat) /\
   procs s' = alter (proc_signal SIGTERM) pid (procs s) /\
   ffmpeg (self s') = None /\
   exited_or_killed s' pid = exited_or_killed s pid) /\
  (let s' := snd (Polled.stop x s) in
   (exists l, trace s' = trace s ++ l /\
              List.filter (on_process pid) l = [StdinEnd pid; Kill pid SIGTERM] /\
              count (is_kill SIGKILL) l = 0%nat) /\
   procs s' = alter (proc_signal SIGTERM) pid
                (alter proc_end_stdin pid (procs s)) /\
   ffmpeg (self s') = None /\
   isRunning (self s') = false /\
   exited_or_killed s' pid = exited_or_killed s pid).
Proof.
  intros Hf.
  destruct s as [[b p c f r n t] ps ts tr]; simpl in Hf; subst f.
  split.
  - assert (Hprocs : procs (snd (Index.stop x
              {| self := {| browser := b; page := p; cdpSession := c;
                            ffmpeg := Some pid; isRunning := r;
                            frameCount := n; lastRefreshTime := t |};
                 procs := ps; timers := ts; trace := tr |}))
            = alter (proc_signal SIGTERM) pid (alter proc_end_stdin pid ps)).
    { destruct x as [[[]|e1] [[]|e2] [[]|e3]]; destruct c, b; reflexivity. }
    cbv zeta. repeat split.
    + destruct x as [[[]|e1] [[]|e2] [[]|e3]]; destruct c, b;
        (eexists; split;
         [ cbn; rewrite <- ?app_assoc; reflexivity
         | cbn; rewrite ?Nat.eqb_refl; split; reflexivity ]).
    + exact Hprocs.
    + apply Index_stop_clears_ffmpeg.
    + destruct x as [[[]|e1] [[]|e2] [[]|e3]]; destruct c, b; reflexivity.
    + apply exited_or_killed_after_sigterm
        with (f := fun q => proc_signal SIGTERM (proc_end_stdin q)).
      * reflexivity.
      * intros q; exists [SIGTERM]; split; reflexivity.
      * rewrite Hprocs. simpl. apply list_alter_alter_eq.
  - assert (Hprocs : procs (snd (X11grab.stop x
              {| self := {| browser := b; page := p; cdpSession := c;
                            ffmpeg := Some pid; isRunning := r;
                            frameCount := n; lastRefreshTime := t |};
                 procs := ps; timers := ts; trace := tr |}))
            = alter (proc_signal SIGTERM) pid ps).
    { destruct x as [o1 o2 [[]|e3]]; destruct b; reflexivity. }
    assert (Hprocs' : procs (snd (Polled.stop x
              {| self := {| browser := b; page := p; cdpSession := c;
                            ffmpeg := Some pid; isRunning := r;
                            frameCount := n; lastRefreshTime := t |};
                 procs := ps; timers := ts; trace := tr |}))
            = alter (proc_signal SIGTERM) pid (alter proc_end_stdin pid ps)).
    { destruct x as [o1 o2 [[]|e3]]; destruct b; reflexivity. }
    cbv zeta. split; [repeat split|repeat split].
    + destruct x as [o1 o2 [[]|e3]]; destruct b;
        (eexists; split;
         [ cbn; rewrite <- ?app_assoc; reflexivity
         | cbn; rewrite ?Nat.eqb_refl; split; reflexivity ]).
    + exact Hprocs.
    + destruct x as [o1 o2 [[]|e3]]; destruct b; reflexivity.
    + apply exited_or_killed_after_sigterm with (f := proc_signal SIGTERM).
      * reflexivity.
      * intros q; exists [SIGTERM]; split; reflexivity.
      * exact Hprocs.
    + destruct x as [o1 o2 [[]|e3]]; destruct b;
        (eexists; split;
         [ cbn; rewrite <- ?app_assoc; reflexivity
         | cbn; rewrite ?Nat.eqb_refl; split; reflexivity ]).
    + exact Hprocs'.
    + destruct x as [o1 o2 [[]|e3]]; destruct b; reflexivity.
    + destruct x as [o1 o2 [[]|e3]]; destruct b; reflexivity.
    + apply exited_or_killed_after_sigterm
        with (f := fun q => proc_signal SIGTERM (proc_end_stdin q)).
      * reflexivity.
      * intros q; exists [SIGTERM]; split; reflexivity.
      * rewrite Hprocs'. simpl. apply list_alter_alter_eq.
Qed.

Lemma C4_stop_signals_without_waiting_witness :
  ffmpeg (self live0) = Some 0%nat /\
  procs (snd (Index.stop ok_stop live0))
    = alter (proc_signal SIGTERM) 0%nat
        (alter proc_end_stdin 0%nat (procs live0)) /\
  exited_or_killed (snd (Index.stop ok_stop live0)) 0
    = exited_or_killed live0 0.
Proof.
  split; [reflexivity|].
  pose proof (C4_stop_signals_without_waiting ok_stop live0 0%nat eq_refl)
    as [(_ & Hp & _ & _ & Hk) _].
  split; [exact Hp | exact Hk].
Defined.

(** C4 as stated fails: [stop()] on the freshly started streamer returns
    normally while encoder 0 has neither exited nor been sent SIGKILL, and
    no SIGKILL appears anywhere in the trace. *)
Lemma C4_stop_returns_before_exit_counterexample :
  ffmpeg (self live0) = Some 0%nat /\
  fst (Index.stop ok_stop live0) = Ok tt /\
  procs (snd (Index.stop ok_stop live0))
    = [ {| exited := false; writable := false; needDrain := false;
           signals := [SIGTERM] |} ] /\
  exited_or_killed (snd (Index.stop ok_stop live0)) 0 = false /\
  count (is_kill SIGKILL) (trace (snd (Index.stop ok_stop live0))) = 0%nat.
Proof. repeat split; reflexivity. Qed.

(** ** The encoder exits *)

Lemma Index_deliver_app evs1 evs2 s :
  Index.deliver (evs1 ++ evs2) s
  = Index.deliver evs2 (snd (Index.deliver evs1 s)).
Proof.
  revert s. induction evs1 as [|ev evs1 IH]; intros s; [reflexivity|].
  simpl. unfold bind.
  destruct (try_catch (Index.handle ev) _ s) as [[[]|e] s1] eqn:E.
  - apply IH.
  - exfalso.
    unfold try_catch in E.
    destruct (nothrow_Index_handle ev s) as [a Ha].
    destruct (Index.handle ev s) as [[[]|e'] s2]; [congruence|].
    discriminate.
Qed.

Lemma X11grab_deliver_app evs1 evs2 s :
  X11grab.deliver (evs1 ++ evs2) s
  = X11grab.deliver evs2 (snd (X11grab.deliver evs1 s)).
Proof.
  revert s. induction evs1 as [|ev evs1 IH]; intros s; [reflexivity|].
  simpl. unfold bind.
  destruct (try_catch (X11grab.handle ev) _ s) as [[[]|e] s1] eqn:E.
  - apply IH.
  - exfalso. unfold try_catch in E.
    destruct (X11grab.handle ev s) as [[[]|e'] s2]; [congruence|].
    unfold log, emit in E. discriminate.
Qed.

(** One round of crash and relaunch in [index.js], from a running state
    with no timer pending. *)
Lemma Index_crash_round r s :
  isRunning (self s) = true -> timers s = [] ->
  let s' := snd (Index.deliver (crash_round r) s) in
  isRunning (self s') = true /\ timers s' = [] /\
  ffmpeg (self s') = Some (length (procs s)) /\
  length (procs s') = S (length (procs s)) /\
  spawns (trace s') = S (spawns (trace s)) /\
  count is_exit_report (trace s') = S (count is_exit_report (trace s)) /\
  count is_uncaught (trace s') = count is_uncaught (trace s).
Proof.
  destruct r as [[pid code] m].
  destruct s as [[b p c f r n t] ps ts tr]; simpl.
  intros -> ->. destruct m; cbn -[count spawns length];
    unfold spawns; rewrite !count_snoc; cbn -[count length];
    rewrite length_app, length_alter; cbn -[count]; repeat split; lia.
Qed.

(** The same round in [part_002], where the relaunch waits 2000 ms, the
    old handle is kept until the relaunch and [startFFmpeg] sets the
    running flag itself. *)
Lemma X11grab_crash_round r s :
  isRunning (self s) = true -> timers s = [] ->
  let s' := snd (X11grab.deliver (crash_round r) s) in
  isRunning (self s') = true /\ timers s' = [] /\
  ffmpeg (self s') = Some (length (procs s)) /\
  length (procs s') = S (length (procs s)) /\
  spawns (trace s') = S (spawns (trace s)) /\
  count is_exit_report (trace s') = S (count is_exit_report (trace s)) /\
  count is_uncaught (trace s') = count is_uncaught (trace s).
Proof.
  destruct r as [[pid code] m].
  destruct s as [[b p c f r n t] ps ts tr]; simpl.
  intros -> ->. destruct m; cbn -[count spawns length];
    unfold spawns; rewrite !count_snoc; cbn -[count length];
    rewrite length_app, length_alter; cbn -[count]; repeat split; lia.
Qed.

(** C1, as the code has it: there is no crash counter and no threshold.
    However many times the encoder exits while the relay is running, every
    exit is answered by one relaunch; the running flag stays set, no
    listener throws (nothing reaches the 'uncaughtException' listener), and
    the encoder held at the end is the one spawned last.  This holds for
    the 'close' listener of [index.js] and of [part_002] alike. *)
Theorem C1_every_crash_is_relaunched
    (rounds : list (nat * Z * bool)) (s : Sys) :
  isRunning (self s) = true -> timers s = [] ->
  (let s' := snd (Index.deliver (flat_map crash_round rounds) s) in
   isRunning (self s') = true /\ timers s' = [] /\
   spawns (trace s') = (spawns (trace s) + length rounds)%nat /\
   count is_exit_report (trace s')
     = (count is_exit_report (trace s) + length rounds)%nat /\
   count is_uncaught (trace s') = count is_uncaught (trace s) /\
   length (procs s') = (length (procs s) + length rounds)%nat /\
   (rounds <> [] -> ffmpeg (self s') = Some (pred (length (procs s'))))) /\
  (let s' := snd (X11grab.deliver (flat_map crash_round rounds) s) in
   isRunning (self s') = true /\ timers s' = [] /\
   spawns (trace s') = (spawns (trace s) + length rounds)%nat /\
   count is_exit_report (trace s')
     = (count is_exit_report (trace s) + length rounds)%nat /\
   count is_uncaught (trace s') = count is_uncaught (trace s) /\
   length (procs s') = (length (procs s) + length rounds)%nat /\
   (rounds <> [] -> ffmpeg (self s') = Some (pred (length (procs s'))))).
Proof.
  intros Hrun Ht. split.
  - revert s Hrun Ht.
    induction rounds as [|r rounds IH] using rev_ind; intros s Hrun Ht.
    + simpl. repeat split; auto; try lia. congruence.
    + rewrite flat_map_app. simpl flat_map at 2. rewrite app_nil_r.
      cbv zeta. rewrite Index_deliver_app.
      destruct (IH s Hrun Ht) as (H1 & H2 & H3 & H4 & H5 & H6 & _).
      set (s1 := snd (Index.deliver (flat_map crash_round rounds) s)) in *.
      destruct (Index_crash_round r s1 H1 H2) as (G1 & G2 & G3 & G4 & G5 & G6 & G7).
      rewrite length_app; simpl.
      repeat split; auto; try lia.
      intros _. rewrite G3, G4. reflexivity.
  - revert s Hrun Ht.
    induction rounds as [|r rounds IH] using rev_ind; intros s Hrun Ht.
    + simpl. repeat split; auto; try lia. congruence.
    + rewrite flat_map_app. simpl flat_map at 2. rewrite app_nil_r.
      cbv zeta. rewrite X11grab_deliver_app.
      destruct (IH s Hrun Ht) as (H1 & H2 & H3 & H4 & H5 & H6 & _).
      set (s1 := snd (X11grab.deliver (flat_map crash_round rounds) s)) in *.
      destruct (X11grab_crash_round r s1 H1 H2) as (G1 & G2 & G3 & G4 & G5 & G6 & G7).
      rewrite length_app; simpl.
      repeat split; auto; try lia.
      intros _. rewrite G3, G4. reflexivity.
Qed.

Lemma C1_every_crash_is_relaunched_witness :
  isRunning (self live0) = true /\ timers live0 = [] /\
  let rounds := [(0%nat, 1, false); (1%nat, 1, false); (2%nat, 1, false);
                 (3%nat, 1, false)] in
  let s' := snd (Index.deliver (flat_map crash_round rounds) live0) in
  isRunning (self s') = true /\
  spawns (trace s') = (spawns (trace live0) + 4)%nat.
Proof.
  split; [reflexivity|]. split; [reflexivity|].
  pose proof (C1_every_crash_is_relaunched
                [(0%nat, 1, false); (1%nat, 1, false); (2%nat, 1, false);
                 (3%nat, 1, false)] live0 eq_refl eq_refl)
    as [(H1 & _ & H3 & _) _].
  split; [exact H1 | exact H3].
Defined.

(** C1 as stated fails: with a threshold of three in mind, the encoder
    exits four times within four seconds of one pipeline run; [start()]
    is still in its loop afterwards, [main] has caught nothing and
    restarted nothing, and the fifth encoder is running. *)
Lemma C1_four_crashes_no_escalation_counterexample :
  count is_exit_report (trace (snd crash_loop_run)) = 4%nat /\
  fst (Index.start (Index.mkCONFIG env_two_fps) (smooth_start four_crashes)
         (boot 0)) = Ok StillLooping /\
  fst crash_loop_run = Index.Alive /\
  count is_supervisor_restart (trace (snd crash_loop_run)) = 0%nat /\
  isRunning (self (snd crash_loop_run)) = true /\
  ffmpeg (self (snd crash_loop_run)) = Some 4%nat /\
  spawns (trace (snd crash_loop_run)) = 5%nat.
Proof. repeat split; vm_compute; reflexivity. Qed.

(** C5, as the code has it.  A 'close' event met while the relay is
    running nulls the encoder handle, schedules exactly one relaunch after
    the fixed 1000 ms and returns normally with the running flag still set;
    when that timer fires a fresh encoder is spawned.  A 'close' event met
    while the relay is not running schedules nothing and spawns nothing.
    The 1000 ms are shorter than the restart delay of [main] whenever
    [RESTART_DELAY] is unset, zero, or set above 1000. *)
Theorem C5_close_relaunches_only_while_running
    (env : ProcessEnv) (s : Sys) (code : Z) (musicExists : bool) :
  (isRunning (self s) = true ->
   exists s',
     Index.on_close code s = (Ok tt, s') /\
     timers s' = timers s ++ [(CbStartFFmpeg, Index.RELAUNCH_DELAY)] /\
     isRunning (self s') = true /\
     ffmpeg (self s') = None /\
     procs s' = procs s /\
     spawns (trace s') = spawns (trace s) /\
     let r := Index.handle (EvTimer musicExists) s' in
     fst r = Ok tt /\
     ffmpeg (self (snd r)) = Some (length (procs s)) /\
     procs (snd r) = procs s ++ [fresh_proc] /\
     spawns (trace (snd r)) = S (spawns (trace s))) /\
  (isRunning (self s) = false ->
   exists s',
     Index.on_close code s = (Ok tt, s') /\
     timers s' = timers s /\
     ffmpeg (self s') = None /\
     procs s' = procs s /\
     spawns (trace s') = spawns (trace s)) /\
  Index.RELAUNCH_DELAY = 1000 /\
  (match env_RESTART_DELAY env with
   | None => True
   | Some d => d = 0 \/ 1000 < d
   end -> Index.RELAUNCH_DELAY < RESTART_DELAY (Index.mkCONFIG env)).
Proof.
  destruct s as [[b p c f r n t] ps ts tr]; simpl.
  repeat split.
  - intros ->. eexists; split; [reflexivity|].
    cbn -[count spawns]. unfold spawns. rewrite !count_snoc.
    repeat split; try (cbn; lia).
    + destruct ts as [|[[] d] ts'], musicExists; reflexivity.
    + destruct ts as [|[[] d] ts'], musicExists; reflexivity.
    + destruct ts as [|[[] d] ts'], musicExists; reflexivity.
    + destruct ts as [|[[] d] ts'], musicExists;
        cbn -[count]; rewrite !count_snoc; cbn; lia.
  - intros ->. eexists; split; [reflexivity|].
    cbn -[count spawns]. unfold spawns. rewrite !count_snoc.
    repeat split; cbn; lia.
  - unfold Index.RELAUNCH_DELAY, Index.mkCONFIG, parseInt_or; simpl.
    destruct (env_RESTART_DELAY env) as [d|]; [|lia].
    intros [->|Hd]; [simpl; lia|].
    destruct (d =? 0) eqn:E; lia.
Qed.

Lemma C5_close_relaunches_only_while_running_witness :
  isRunning (self live0) = true /\
  timers (snd (Index.on_close 1 live0))
    = [(CbStartFFmpeg, Index.RELAUNCH_DELAY)] /\
  Index.RELAUNCH_DELAY < RESTART_DELAY (Index.mkCONFIG env_default).
Proof.
  split; [reflexivity|].
  pose proof (C5_close_relaunches_only_while_running env_default live0 1 false)
    as (H1 & _ & _ & H4).
  destruct (H1 eq_refl) as (s' & E & Ht & _).
  split.
  - rewrite E. exact Ht.
  - apply H4. exact I.
Defined.

(** C5 as stated fails: under [RESTART_DELAY=500] an exit of the running
    encoder is still answered after 1000 ms, which is not shorter than the
    restart delay. *)
Lemma C5_relaunch_delay_not_shorter_counterexample :
  isRunning (self live0) = true /\
  timers (snd (Index.on_close 1 live0)) = [(CbStartFFmpeg, 1000)] /\
  RESTART_DELAY (Index.mkCONFIG env_fast_restart) = 500 /\
  ~ (1000 < RESTART_DELAY (Index.mkCONFIG env_fast_restart)).
Proof. repeat split; try reflexivity. vm_compute. discriminate. Qed.

(** A relaunch timer set before [stop()] is neither cleared by [stop()]
    nor checked against the running flag when it fires: the encoder exits,
    [stop()] completes within the second, and the timer then spawns
    encoder 1 for a streamer that is stopped. *)
Example relaunch_timer_survives_stop :
  let s1 := snd (Index.handle (EvClose 0 1) live0) in
  let s2 := snd (Index.stop ok_stop s1) in
  let s3 := snd (Index.handle (EvTimer false) s2) in
  isRunning (self s2) = false /\ ffmpeg (self s2) = None /\
  timers s2 = [(CbStartFFmpeg, 1000)] /\
  isRunning (self s3) = false /\ ffmpeg (self s3) = Some 1%nat /\
  spawns (trace s3) = S (spawns (trace s2)).
Proof. repeat split; reflexivity. Qed.

(** ** Backpressure *)

(** C2 on the screencast path of [index.js]: the first frame's write
    reports a full buffer; the listener drops the promise that
    [sendFrameToFFmpeg] returns, acknowledges the frame at once, and the
    next frame is written to the same pipe with no drain in between. *)
Theorem C2_screencast_ack_not_withheld :
  let s := snd (Index.deliver two_frames_no_drain live0) in
  fst (Index.sendFrameToFFmpeg 1%nat (Wrote false) live0)
    = Ok SentAfterDrain /\
  trace s = trace live0 ++
    [ StdinWrite 0 1%nat false; OnceDrain 0; CdpSend ScreencastFrameAck;
      StdinWrite 0 2%nat true; CdpSend ScreencastFrameAck ] /\
  (procs (snd (Index.deliver [EvScreencastFrame 1%nat (Wrote false)
                                (Resolves tt)] live0)) !! 0%nat
     = Some {| exited := false; writable := true; needDrain := true;
               signals := [] |}) /\
  respects_backpressure None (trace live0) = true /\
  respects_backpressure None (trace s) = false /\
  frameCount (self s) = 2.
Proof. repeat split; reflexivity. Qed.

(** On the polled path of [part_001] the caller awaits the promise, and
    the second frame is written after the drain. *)
Example polled_write_waits_for_drain :
  fst polled_full_buffer_run = Ok StillLooping /\
  List.filter (fun e => is_write e || match e with
                                      | Drained _ => true
                                      | _ => false
                                      end)
    (trace (snd polled_full_buffer_run))
    = [StdinWrite 0 1%nat false; Drained 0; StdinWrite 0 2%nat true] /\
  respects_backpressure None (trace (snd polled_full_buffer_run)) = true.
Proof. repeat split; reflexivity. Qed.

(** ** Failed acquisitions on the polled path *)


#[local] Instance polled_quiet_preorder : PreOrder polled_quiet.
Proof.
  split.
  - intros s; unfold polled_quiet; tauto.
  - intros a b c (?&?&?&?&?) (?&?&?&?&?); unfold polled_quiet;
      repeat split; congruence.
Qed.

Ltac polled_quiet_leaf :=
  let s0 := fresh "s" in
  intros s0;
  unfold polled_quiet, update, emit, on_proc, setTimeout, spawn, pop_timer;
  try (destruct (timers s0));
  simpl; rewrite ?count_snoc; simpl; repeat split; try reflexivity; lia.

Lemma polled_quiet_handle ev : always polled_quiet (Polled.handle ev).
Proof.
  destruct ev; unfold Polled.handle, Polled.on_error, Polled.on_close,
    Polled.startFFmpeg; always_tac polled_quiet_leaf.
Qed.

#[local] Hint Resolve polled_quiet_handle : always.

Lemma polled_quiet_deliver evs : always polled_quiet (Polled.deliver evs).
Proof.
  induction evs as [|ev evs IH]; simpl; always_tac polled_quiet_leaf.
Qed.

Lemma Polled_deliver_ok evs s : fst (Polled.deliver evs s) = Ok tt.
Proof.
  revert s. induction evs as [|ev evs IH]; intros s; [reflexivity|].
  simpl. unfold bind, try_catch.
  destruct (Polled.handle ev s) as [[[]|e] s1]; [apply IH|].
  unfold log, emit; simpl. apply IH.
Qed.

(** Evaluates a computation on a symbolic state, splitting on every
    condition the evaluation meets. *)
Ltac run_cases keep :=
  repeat (keep;
    match goal with
    | |- context [if ?b then _ else _] => destruct b eqn:?
    | |- context [match ?x with Some _ => _ | None => _ end] =>
        destruct x eqn:?
    end).

Ltac unfold_monad :=
  unfold bind, try_catch, ret, throw, get, this, update, emit, log, sleep,
    await, on_proc, setTimeout, spawn, pop_timer, incr_frameCount,
    stdin_write, deliver_close, deliver_drain in *.

Ltac polled_cbn :=
  unfold_monad;
  cbn -[count Z.rem Z.leb Z.ltb Z.eqb Z.max Z.sub Z.mul Z.div Z.add
        lookup Polled.deliver] in *.

(** Replaces a delivery of events to the listeners of [part_001] by the
    state it leaves, of which only what the listeners never touch is
    known. *)
Ltac polled_events :=
  match goal with
  | |- context [Polled.deliver ?evs ?s0] =>
      let Q := fresh "Q" in
      let Q0 := fresh "Q0" in
      pose proof (polled_quiet_deliver evs s0) as Q;
      pose proof (Polled_deliver_ok evs s0) as Q0;
      destruct (Polled.deliver evs s0)
        as [[[]|?] [[? ? ? ? ? ? ?] ? ? ?]]; [|discriminate Q0];
      clear Q0;
      unfold polled_quiet in Q; simpl in Q;
      destruct Q as (? & ? & ? & ? & ?);
      subst
  end.

(** One turn of the capture loop whose screenshot fails, whatever events
    arrive meanwhile: the loop's flag stays set, the frame counter stays,
    and the turn leaves exactly one skipped-frame warning.  The turn
    throws only when a page reload is due and [page.goto] rejects, and
    then it throws that rejection. *)
Lemma Polled_failed_iteration CONFIG t s :
  isRunning (self s) = true -> page (self s) <> None ->
  acquisition_fails t ->
  let r := Polled.capture_iteration CONFIG t s in
  isRunning (self (snd r)) = true /\
  page (self (snd r)) = page (self s) /\
  frameCount (self (snd r)) = frameCount (self s) /\
  count is_skip_warning (trace (snd r))
    = S (count is_skip_warning (trace s)) /\
  match fst r with
  | Ok _ => True
  | Throw e => Polled.tick_goto t = Rejects e
  end.
Proof.
  destruct t as [t0 shot during w fl now goto loaded tend evs].
  destruct s as [[b p c f r n tl] ps ts tr].
  unfold acquisition_fails; simpl.
  intros -> Hp [e ->].
  destruct p as [p|]; [clear Hp|congruence].
  unfold Polled.capture_iteration, Polled.captureAndSendFrame,
    Polled.refreshPageIfNeeded, Polled.loadPage, encoder_unavailable,
    stdin_writable.
  destruct goto as [[]|eg].
  all: repeat (run_cases polled_cbn; try polled_events).
  all: polled_cbn; rewrite ?count_snoc in *; polled_cbn;
    repeat split; try reflexivity; try lia.
Qed.

(** C3, as the code has it: [part_001] keeps no count of failed
    acquisitions and has no fatal source error.  Over any number of
    consecutive turns whose screenshot fails, whatever events arrive in
    between, no acquisition failure ever ends the capture loop: either the
    loop is still turning when the ticks run out, its running flag set,
    the frame counter untouched and one skipped-frame warning written per
    turn; or it was ended by the one error the loop lets through, the
    rejection of a page reload that fell due in one of the turns.  When
    every reload succeeds the first is the case. *)
Theorem C3_acquisition_failures_never_escalate
    (CONFIG : Config) (ticks : list Polled.Tick) (s : Sys) :
  isRunning (self s) = true -> page (self s) <> None ->
  Forall acquisition_fails ticks ->
  ((exists s',
      Polled.capture_loop CONFIG ticks s = (Ok StillLooping, s') /\
      isRunning (self s') = true /\
      frameCount (self s') = frameCount (self s) /\
      count is_skip_warning (trace s')
        = (count is_skip_warning (trace s) + length ticks)%nat) \/
   (exists e s' t,
      Polled.capture_loop CONFIG ticks s = (Throw e, s') /\
      In t ticks /\ Polled.tick_goto t = Rejects e /\
      isRunning (self s') = true /\
      frameCount (self s') = frameCount (self s))) /\
  (Forall reload_succeeds ticks ->
   exists s',
     Polled.capture_loop CONFIG ticks s = (Ok StillLooping, s') /\
     isRunning (self s') = true /\
     frameCount (self s') = frameCount (self s) /\
     count is_skip_warning (trace s')
       = (count is_skip_warning (trace s) + length ticks)%nat).
Proof.
  intros Hrun Hpage Hfail.
  assert (Hcases :
    (exists s',
      Polled.capture_loop CONFIG ticks s = (Ok StillLooping, s') /\
      isRunning (self s') = true /\
      frameCount (self s') = frameCount (self s) /\
      count is_skip_warning (trace s')
        = (count is_skip_warning (trace s) + length ticks)%nat) \/
    (exists e s' t,
      Polled.capture_loop CONFIG ticks s = (Throw e, s') /\
      In t ticks /\ Polled.tick_goto t = Rejects e /\
      isRunning (self s') = true /\
      frameCount (self s') = frameCount (self s))).
  { revert s Hrun Hpage.
    induction Hfail as [|t ticks Ht Hfail IH]; intros s Hrun Hpage.
    - left. exists s. simpl. unfold bind, this. rewrite Hrun.
      repeat split; simpl; auto.
    - pose proof (Polled_failed_iteration CONFIG t s Hrun Hpage Ht)
        as (R1 & P1 & F1 & W1 & T1).
      destruct (Polled.capture_iteration CONFIG t s) as [[[]|e] s1] eqn:E1;
        simpl in R1, P1, F1, W1, T1.
      + destruct (IH s1 R1) as [(s' & E' & R' & F' & W')
                               |(e & s' & t' & E' & I' & G' & R' & F')].
        { rewrite P1; exact Hpage. }
        * left. exists s'. split.
          { simpl. unfold bind at 1, this. rewrite Hrun.
            rewrite (bind_ok _ _ _ _ _ E1). exact E'. }
          repeat split; auto; try congruence.
          rewrite W', W1. simpl. lia.
        * right. exists e, s', t'. split.
          { simpl. unfold bind at 1, this. rewrite Hrun.
            rewrite (bind_ok _ _ _ _ _ E1). exact E'. }
          repeat split; auto; try congruence. right; exact I'.
      + right. exists e, s1, t. split.
        { simpl. unfold bind at 1, this. rewrite Hrun.
          rewrite (bind_throw _ _ _ _ _ E1). reflexivity. }
        repeat split; auto. left; reflexivity. }
  split; [exact Hcases|].
  intros Hload.
  destruct Hcases as [H|(e & s' & t & _ & I & G & _)]; [exact H|].
  exfalso.
  pose proof (proj1 (List.Forall_forall _ _) Hload t I) as Hl.
  unfold reload_succeeds in Hl. congruence.
Qed.

Lemma C3_acquisition_failures_never_escalate_witness :
  let s := snd (Polled.start (Polled.mkCONFIG env_default)
                  (polled_start []) (boot 0)) in
  let ticks := firstn 3 three_failures in
  isRunning (self s) = true /\ page (self s) <> None /\
  Forall acquisition_fails ticks /\ Forall reload_succeeds ticks /\
  exists s',
    Polled.capture_loop (Polled.mkCONFIG env_default) ticks s
      = (Ok StillLooping, s') /\
    isRunning (self s') = true.
Proof.
  assert (Hp : page (self (snd (Polled.start (Polled.mkCONFIG env_default)
                  (polled_start []) (boot 0)))) <> None)
    by (vm_compute; discriminate).
  assert (Hf : Forall acquisition_fails (firstn 3 three_failures))
    by (repeat constructor; eexists; reflexivity).
  assert (Hl : Forall reload_succeeds (firstn 3 three_failures))
    by (repeat constructor).
  assert (Hr : isRunning (self (snd (Polled.start (Polled.mkCONFIG env_default)
                  (polled_start []) (boot 0)))) = true)
    by (vm_compute; reflexivity).
  split; [exact Hr|]. split; [exact Hp|].
  split; [exact Hf|]. split; [exact Hl|].
  destruct (C3_acquisition_failures_never_escalate
              (Polled.mkCONFIG env_default) (firstn 3 three_failures)
              _ Hr Hp Hf) as (_ & H).
  destruct (H Hl) as (s' & E & R & _).
  exists s'. split; [exact E | exact R].
Defined.

(** C3 as stated fails: three screenshots in a row are rejected within
    half a second; each failure is logged, [start()] throws nothing and is
    still in its capture loop, and the fourth frame is captured and sent as
    the first of the stream. *)
Lemma C3_three_failures_no_escalation_counterexample :
  count is_capture_error (trace (snd three_failures_run)) = 3%nat /\
  count is_skip_warning (trace (snd three_failures_run)) = 3%nat /\
  fst three_failures_run = Ok StillLooping /\
  isRunning (self (snd three_failures_run)) = true /\
  List.filter is_write (trace (snd three_failures_run))
    = [StdinWrite 0 1%nat true] /\
  frameCount (self (snd three_failures_run)) = 1.
Proof. repeat split; vm_compute; reflexivity. Qed.

(** The one error that ends the capture loop in a turn whose acquisition
    failed: the screenshot is rejected, which is logged and skipped, and
    the page refresh due in the same turn fails, which the loop lets
    through to [start()]. *)
Example polled_failed_reload_ends_loop :
  let s := snd (Polled.start (Polled.mkCONFIG env_default)
                  (polled_start []) (boot 0)) in
  let r := Polled.capture_loop (Polled.mkCONFIG env_default)
             [failed_reload_tick] s in
  fst r = Throw (ErrExternal "page.goto") /\
  count is_capture_error (trace (snd r)) = 1%nat /\
  count is_skip_warning (trace (snd r)) = 1%nat.
Proof. repeat split; vm_compute; reflexivity. Qed.

(** ** The frame counter *)


#[local] Instance counted_preorder : PreOrder counted.
Proof.
  split.
  - intros s; unfold counted; split; [reflexivity | lia].
  - intros a b c [H1 H2] [H3 H4]; unfold counted; split; lia.
Qed.

Ltac counted_leaf :=
  let s0 := fresh "s" in
  intros s0;
  unfold counted, writes, update, emit, on_proc, setTimeout, spawn,
    pop_timer;
  try (destruct (timers s0));
  simpl; rewrite ?count_snoc; simpl; split; lia.

Lemma counted_Index_sendFrameToFFmpeg f w :
  always counted (Index.sendFrameToFFmpeg f w).
Proof.
  intros s. unfold Index.sendFrameToFFmpeg, counted, writes.
  destruct s as [[b p c ff r n t] ps ts tr].
  destruct w as [[]|e]; run_cases polled_cbn;
    simpl; rewrite ?count_snoc; simpl; split; lia.
Qed.

#[local] Hint Resolve counted_Index_sendFrameToFFmpeg : always.

Lemma counted_Index_startFFmpeg m : always counted (Index.startFFmpeg m).
Proof.
  unfold Index.startFFmpeg, Index.getAudioInputArgs.
  always_tac counted_leaf.
Qed.

Lemma counted_Index_on_close code : always counted (Index.on_close code).
Proof. unfold Index.on_close. always_tac counted_leaf. Qed.

#[local] Hint Resolve counted_Index_startFFmpeg counted_Index_on_close
  : always.

Lemma counted_Index_handle ev : always counted (Index.handle ev).
Proof.
  destruct ev; unfold Index.handle, Index.on_error,
    Index.on_screencastFrame; always_tac counted_leaf.
Qed.

#[local] Hint Resolve counted_Index_handle : always.

Lemma counted_Index_deliver evs : always counted (Index.deliver evs).
Proof.
  induction evs as [|ev evs IH]; simpl; always_tac counted_leaf.
Qed.

#[local] Hint Resolve counted_Index_deliver : always.

Lemma counted_Index_startBrowser l p u :
  always counted (Index.startBrowser l p u).
Proof. unfold Index.startBrowser. always_tac counted_leaf. Qed.

Lemma counted_Index_loadPage g t : always counted (Index.loadPage g t).
Proof. unfold Index.loadPage. always_tac counted_leaf. Qed.

#[local] Hint Resolve counted_Index_startBrowser counted_Index_loadPage
  : always.

Lemma counted_Index_refreshPageIfNeeded CONFIG n g t :
  always counted (Index.refreshPageIfNeeded CONFIG n g t).
Proof. unfold Index.refreshPageIfNeeded. always_tac counted_leaf. Qed.

Lemma counted_Index_captureAndSendFrame shot during w :
  always counted (Index.captureAndSendFrame shot during w).
Proof. unfold Index.captureAndSendFrame. always_tac counted_leaf. Qed.

#[local] Hint Resolve counted_Index_refreshPageIfNeeded
  counted_Index_captureAndSendFrame : always.

Lemma counted_Index_monitor_iteration CONFIG t :
  always counted (Index.monitor_iteration CONFIG t).
Proof. unfold Index.monitor_iteration. always_tac counted_leaf. Qed.

#[local] Hint Resolve counted_Index_monitor_iteration : always.

Lemma counted_Index_monitor_loop CONFIG ticks :
  always counted (Index.monitor_loop CONFIG ticks).
Proof.
  induction ticks as [|t ticks IH]; simpl; always_tac counted_leaf.
Qed.

#[local] Hint Resolve counted_Index_monitor_loop : always.

Lemma counted_Index_startScreencast CONFIG c a ticks :
  always counted (Index.startScreencast CONFIG c a ticks).
Proof.
  unfold Index.startScreencast, Index.startScreencast_setup.
  always_tac counted_leaf.
Qed.

Lemma counted_Index_stop x : always counted (Index.stop x).
Proof.
  unfold Index.stop, Index.stopScreencast. always_tac counted_leaf.
Qed.

#[local] Hint Resolve counted_Index_startScreencast counted_Index_stop
  : always.

Lemma counted_Index_start CONFIG x : always counted (Index.start CONFIG x).
Proof. unfold Index.start. always_tac counted_leaf. Qed.

Lemma counted_Index_shutdown x : always counted (Index.shutdown x).
Proof. unfold Index.shutdown. always_tac counted_leaf. Qed.

#[local] Hint Resolve counted_Index_start counted_Index_shutdown : always.

Lemma counted_Index_step CONFIG op s : counted s (Index.step CONFIG op s).
Proof.
  destruct op; cbv beta iota delta [Index.step];
    match goal with
    | |- counted ?s (snd (?m ?s)) =>
        let H := fresh in
        assert (H : always counted m) by always_tac counted_leaf;
        apply H
    end.
Qed.

Lemma counted_Index_run CONFIG ops s : counted s (Index.run CONFIG ops s).
Proof.
  revert s. induction ops as [|op ops IH]; intros s; simpl.
  - reflexivity.
  - etransitivity; [apply counted_Index_step | apply IH].
Qed.

Lemma Index_refresh_keeps_frames CONFIG now goto loaded s :
  let s' := snd (Index.refreshPageIfNeeded CONFIG now goto loaded s) in
  frameCount (self s') = frameCount (self s) /\
  writes (trace s') = writes (trace s) /\
  isRunning (self s') = isRunning (self s) /\
  ffmpeg (self s') = ffmpeg (self s) /\
  procs s' = procs s.
Proof.
  destruct s as [[b p c ff r n t] ps ts tr].
  unfold Index.refreshPageIfNeeded, Index.loadPage, writes.
  destruct goto as [[]|e]; run_cases polled_cbn;
    simpl; rewrite ?count_snoc; simpl; repeat split; lia.
Qed.

Lemma Index_refresh_resets_age CONFIG now loaded s :
  PAGE_REFRESH_INTERVAL CONFIG <= now - lastRefreshTime (self s) ->
  page (self s) <> None ->
  let r := Index.refreshPageIfNeeded CONFIG now (Resolves tt) loaded s in
  fst r = Ok tt /\
  lastRefreshTime (self (snd r)) = loaded /\
  rejuvenations (trace (snd r)) = S (rejuvenations (trace s)).
Proof.
  destruct s as [[b p c ff r n t] ps ts tr]; simpl.
  intros Hdue Hp. destruct p as [p|]; [|congruence].
  unfold Index.refreshPageIfNeeded, Index.loadPage, rejuvenations.
  polled_cbn.
  destruct (PAGE_REFRESH_INTERVAL CONFIG <=? now - t) eqn:E; [|lia].
  polled_cbn. rewrite !count_snoc. simpl. repeat split; lia.
Qed.

Lemma Index_send_counts f canWrite s :
  encoder_unavailable s = false ->
  let r := Index.sendFrameToFFmpeg f (Wrote canWrite) s in
  frameCount (self (snd r)) = frameCount (self s) + 1 /\
  writes (trace (snd r)) = S (writes (trace s)) /\
  lastRefreshTime (self (snd r)) = lastRefreshTime (self s).
Proof.
  destruct s as [[b p c ff r n t] ps ts tr].
  unfold encoder_unavailable, Index.sendFrameToFFmpeg, writes.
  unfold stdin_writable. simpl.
  intros Hav. destruct ff as [pid|]; [|discriminate].
  destruct (ps !! pid) as [q|] eqn:Eq; [|discriminate].
  destruct (writable q) eqn:Ew; [|discriminate].
  destruct canWrite; polled_cbn; rewrite Eq; polled_cbn; rewrite Ew;
    polled_cbn; destruct (Z.rem (n + 1) 30 =? 0); polled_cbn;
    rewrite ?count_snoc; simpl; repeat split; lia.
Qed.

(** C6: over every run of the streamer the frame counter never decreases
    and grows by exactly the number of frames written to the encoder; a
    page refresh leaves the counter and the frames as they are and, when
    it succeeds, sets only the refresh clock; the frame sent next takes the
    counter to the successor of its value before the refresh. *)
Theorem C6_frame_counter_counts_every_frame
    (CONFIG : Config) (ops : list Index.Op) (s : Sys) (now : Z)
    (goto : Outcome unit) (loaded : Z) (f : Frame) (canWrite : bool) :
  let s1 := Index.run CONFIG ops s in
  let s2 := snd (Index.refreshPageIfNeeded CONFIG now goto loaded s1) in
  let s3 := snd (Index.sendFrameToFFmpeg f (Wrote canWrite) s2) in
  frameCount (self s) <= frameCount (self s1) /\
  frameCount (self s1) - frameCount (self s)
    = Z.of_nat (writes (trace s1)) - Z.of_nat (writes (trace s)) /\
  frameCount (self s2) = frameCount (self s1) /\
  writes (trace s2) = writes (trace s1) /\
  (PAGE_REFRESH_INTERVAL CONFIG <= now - lastRefreshTime (self s1) ->
   page (self s1) <> None -> goto = Resolves tt ->
   lastRefreshTime (self s2) = loaded) /\
  (encoder_unavailable s2 = false ->
   frameCount (self s3) = frameCount (self s1) + 1 /\
   writes (trace s3) = S (writes (trace s1)) /\
   lastRefreshTime (self s3) = lastRefreshTime (self s2)).
Proof.
  cbv zeta.
  destruct (counted_Index_run CONFIG ops s) as [Hbal Hmono].
  destruct (Index_refresh_keeps_frames CONFIG now goto loaded
              (Index.run CONFIG ops s)) as (Hf & Hw & _).
  split; [lia|]. split; [lia|]. split; [exact Hf|]. split; [exact Hw|].
  split.
  - intros Hdue Hp ->.
    apply (Index_refresh_resets_age CONFIG now loaded _ Hdue Hp).
  - intros Hav.
    destruct (Index_send_counts f canWrite _ Hav) as (A & B & C).
    repeat split; [lia | lia | exact C].
Qed.

(** The counter stands at 118; the hourly refresh falls due and succeeds;
    the next frame is number 119. *)
Lemma C6_frame_counter_counts_every_frame_witness :
  let CONFIG := Index.mkCONFIG env_default in
  let s2 := snd (Index.refreshPageIfNeeded CONFIG 3604000 (Resolves tt)
                   3608000 after_118) in
  let s3 := snd (Index.sendFrameToFFmpeg 0%nat (Wrote true) s2) in
  frameCount (self after_118) = 118 /\
  PAGE_REFRESH_INTERVAL CONFIG <= 3604000 - lastRefreshTime (self after_118) /\
  page (self after_118) <> None /\
  encoder_unavailable s2 = false /\
  lastRefreshTime (self s2) = 3608000 /\
  frameCount (self s3) = 118 + 1.
Proof.
  cbv zeta. unfold after_118.
  pose proof (C6_frame_counter_counts_every_frame
                (Index.mkCONFIG env_default) frames_118 live0 3604000
                (Resolves tt) 3608000 0%nat true)
    as (_ & _ & _ & _ & Hage & Hnext).
  cbv zeta in Hage, Hnext.
  split; [vm_compute; reflexivity|].
  split; [vm_compute; discriminate|].
  split; [vm_compute; discriminate|].
  split; [vm_compute; reflexivity|].
  split.
  - apply Hage; [vm_compute; discriminate | vm_compute; discriminate
                | reflexivity].
  - transitivity
      (frameCount (self (Index.run (Index.mkCONFIG env_default)
                           frames_118 live0)) + 1).
    + apply Hnext. vm_compute; reflexivity.
    + vm_compute; reflexivity.
Defined.

(** ** Rejuvenation *)


#[local] Instance calm_preorder : PreOrder calm.
Proof.
  split.
  - intros s; reflexivity.
  - intros a b c H1 H2; unfold calm in *; congruence.
Qed.

Lemma quiet_calm s s' : quiet s s' -> calm s s'.
Proof. intros (_&_&_&_&_&H); exact H. Qed.

Ltac calm_leaf :=
  let s0 := fresh "s" in
  intros s0;
  unfold calm, rejuvenations, update, emit, on_proc, setTimeout, spawn,
    pop_timer;
  try (destruct (timers s0));
  simpl; rewrite ?count_snoc; simpl; try reflexivity; lia.

Lemma calm_Index_deliver evs : always calm (Index.deliver evs).
Proof. apply (always_weaken quiet), quiet_Index_deliver. apply quiet_calm. Qed.

Lemma calm_Index_startFFmpeg m : always calm (Index.startFFmpeg m).
Proof.
  apply (always_weaken quiet), quiet_Index_startFFmpeg. apply quiet_calm.
Qed.

#[local] Hint Resolve calm_Index_deliver calm_Index_startFFmpeg : always.

Lemma calm_Index_startBrowser l p u : always calm (Index.startBrowser l p u).
Proof. unfold Index.startBrowser. always_tac calm_leaf. Qed.

Lemma calm_Index_loadPage g t : always calm (Index.loadPage g t).
Proof. unfold Index.loadPage. always_tac calm_leaf. Qed.

Lemma calm_Index_stop x : always calm (Index.stop x).
Proof. unfold Index.stop, Index.stopScreencast. always_tac calm_leaf. Qed.

#[local] Hint Resolve calm_Index_startBrowser calm_Index_loadPage
  calm_Index_stop : always.

Lemma calm_Index_start_no_ticks CONFIG x :
  Index.ans_ticks x = [] -> always calm (Index.start CONFIG x).
Proof.
  destruct x; simpl; intros ->.
  unfold Index.start, Index.startScreencast, Index.startScreencast_setup;
    simpl.
  always_tac calm_leaf.
Qed.

(** What follows the refresh check in one turn of the monitor loop. *)
Lemma Index_monitor_iteration_rest CONFIG t s :
  let r := Index.refreshPageIfNeeded CONFIG (Index.tick_now t)
             (Index.tick_goto t) (Index.tick_loaded t) s in
  quiet (snd r) (snd (Index.monitor_iteration CONFIG t s)) /\
  (fst r = Ok tt -> fst (Index.monitor_iteration CONFIG t s) = Ok tt).
Proof.
  cbv zeta. unfold Index.monitor_iteration.
  set (rest := fun _ : unit => bind this _).
  assert (Hq : always quiet (rest tt))
    by (unfold rest; always_tac quiet_leaf).
  assert (Hn : nothrow (rest tt)) by (unfold rest; nothrow_tac).
  set (m := Index.refreshPageIfNeeded CONFIG _ _ _).
  unfold bind. destruct (m s) as [[[]|e] s1]; simpl.
  - split; [apply Hq|]. intros _.
    destruct (Hn s1) as [[] Ha]. exact Ha.
  - split; [reflexivity | discriminate].
Qed.

Lemma Index_refresh_counts CONFIG now goto loaded s :
  rejuvenations
    (trace (snd (Index.refreshPageIfNeeded CONFIG now goto loaded s)))
  = (rejuvenations (trace s)
     + (if (PAGE_REFRESH_INTERVAL CONFIG <=? now - lastRefreshTime (self s))%Z
        then 1 else 0))%nat.
Proof.
  destruct s as [[b p c ff r n t] ps ts tr].
  unfold Index.refreshPageIfNeeded, Index.loadPage, rejuvenations.
  destruct goto as [[]|e]; run_cases polled_cbn;
    simpl; rewrite ?count_snoc; simpl; lia.
Qed.

Lemma Index_refresh_not_due CONFIG now goto loaded s :
  now - lastRefreshTime (self s) < PAGE_REFRESH_INTERVAL CONFIG ->
  Index.refreshPageIfNeeded CONFIG now goto loaded s = (Ok tt, s).
Proof.
  intros H. unfold Index.refreshPageIfNeeded, bind, this; simpl.
  destruct (PAGE_REFRESH_INTERVAL CONFIG <=? now - lastRefreshTime (self s))
    eqn:E; [lia | reflexivity].
Qed.

Lemma Index_refresh_trace CONFIG now loaded s :
  PAGE_REFRESH_INTERVAL CONFIG <= now - lastRefreshTime (self s) ->
  page (self s) <> None ->
  trace (snd (Index.refreshPageIfNeeded CONFIG now (Resolves tt) loaded s))
  = trace s ++ [ Log INFO "refreshing page"; Log INFO "loading page";
                 PageGoto; Sleep 3000; Log INFO "page loaded" ].
Proof.
  destruct s as [[b p c ff r n t] ps ts tr]; simpl.
  intros Hdue Hp. destruct p as [p|]; [|congruence].
  unfold Index.refreshPageIfNeeded, Index.loadPage. polled_cbn.
  destruct (PAGE_REFRESH_INTERVAL CONFIG <=? now - t) eqn:E; [|lia].
  polled_cbn. rewrite <- !app_assoc. reflexivity.
Qed.

Lemma Index_monitor_loop_not_running CONFIG ticks s :
  isRunning (self s) = false ->
  Index.monitor_loop CONFIG ticks s = (Ok LoopLeft, s).
Proof.
  intros H. destruct ticks; simpl; unfold bind, this; rewrite H; reflexivity.
Qed.

Lemma X11grab_refresh CONFIG now reload reloaded s :
  let r := X11grab.refreshPageIfNeeded CONFIG now reload reloaded s in
  fst r = Ok tt /\
  if PAGE_REFRESH_INTERVAL CONFIG <=? now - lastRefreshTime (self s)
  then lastRefreshTime (self (snd r)) = reloaded /\
       rejuvenations (trace (snd r)) = S (rejuvenations (trace s))
  else snd r = s.
Proof.
  destruct s as [[b p c ff r n t] ps ts tr].
  unfold X11grab.refreshPageIfNeeded, rejuvenations.
  destruct reload as [[]|e]; polled_cbn;
    destruct (PAGE_REFRESH_INTERVAL CONFIG <=? now - t) eqn:E;
    try (split; reflexivity);
    destruct p; polled_cbn; rewrite ?count_snoc; simpl;
    repeat split; lia.
Qed.

Lemma Index_refresh_keeps_page CONFIG now goto loaded s :
  page (self (snd (Index.refreshPageIfNeeded CONFIG now goto loaded s)))
  = page (self s).
Proof.
  destruct s as [[b p c ff r n t] ps ts tr].
  unfold Index.refreshPageIfNeeded, Index.loadPage.
  destruct goto as [[]|e]; run_cases polled_cbn; reflexivity.
Qed.

(** While the running flag is set the monitor loop takes every turn it is
    given, and with the reloads succeeding it rejuvenates once per
    crossing of the interval. *)
Lemma Index_monitor_loop_rejuvenates CONFIG ticks s :
  isRunning (self s) = true -> page (self s) <> None ->
  reloads_succeed ticks ->
  exists s',
    Index.monitor_loop CONFIG ticks s = (Ok StillLooping, s') /\
    isRunning (self s') = true /\
    rejuvenations (trace s')
    = (rejuvenations (trace s)
       + crossings (PAGE_REFRESH_INTERVAL CONFIG) (lastRefreshTime (self s))
           ticks)%nat.
Proof.
  intros Hrun Hpage Hall. revert s Hrun Hpage.
  induction Hall as [|t ticks Hg _ IH]; intros s Hrun Hpage.
  - exists s. simpl. unfold bind, this. rewrite Hrun.
    repeat split; auto.
  - destruct (Index_monitor_iteration_rest CONFIG t s) as [Hq Hok].
    pose proof (Index_refresh_keeps_frames CONFIG (Index.tick_now t)
                  (Index.tick_goto t) (Index.tick_loaded t) s)
      as (_ & _ & Kr & _).
    pose proof (Index_refresh_keeps_page CONFIG (Index.tick_now t)
                  (Index.tick_goto t) (Index.tick_loaded t) s) as Kp.
    assert (Href :
      fst (Index.refreshPageIfNeeded CONFIG (Index.tick_now t)
             (Index.tick_goto t) (Index.tick_loaded t) s) = Ok tt /\
      lastRefreshTime
        (self (snd (Index.refreshPageIfNeeded CONFIG (Index.tick_now t)
                      (Index.tick_goto t) (Index.tick_loaded t) s)))
      = (if PAGE_REFRESH_INTERVAL CONFIG
            <=? Index.tick_now t - lastRefreshTime (self s)
         then Index.tick_loaded t else lastRefreshTime (self s)) /\
      rejuvenations
        (trace (snd (Index.refreshPageIfNeeded CONFIG (Index.tick_now t)
                       (Index.tick_goto t) (Index.tick_loaded t) s)))
      = (rejuvenations (trace s)
         + (if (PAGE_REFRESH_INTERVAL CONFIG
                <=? Index.tick_now t - lastRefreshTime (self s))%Z
            then 1 else 0))%nat).
    { destruct (PAGE_REFRESH_INTERVAL CONFIG
                <=? Index.tick_now t - lastRefreshTime (self s)) eqn:Ed.
      - rewrite Hg.
        destruct (Index_refresh_resets_age CONFIG (Index.tick_now t)
                    (Index.tick_loaded t) s) as (A1 & A2 & A3);
          [lia | exact Hpage |].
        repeat split; [exact A1 | exact A2 | rewrite A3; lia].
      - rewrite Index_refresh_not_due by lia.
        repeat split; simpl; lia. }
    destruct Href as (R1 & R2 & R3).
    specialize (Hok R1).
    destruct Hq as (Q1 & _ & Q3 & _ & Q5 & Q6).
    destruct (Index.monitor_iteration CONFIG t s) as [[[]|e] s1] eqn:E;
      [|discriminate Hok].
    simpl in Q1, Q3, Q5, Q6.
    destruct (IH s1) as (s' & E' & R' & C').
    { rewrite Q1. cbv zeta in Kr. congruence. }
    { rewrite Q3, Kp. exact Hpage. }
    exists s'. split.
    { simpl. unfold bind at 1, this. rewrite Hrun.
      rewrite (bind_ok _ _ _ _ _ E). exact E'. }
    split; [exact R'|].
    rewrite C', Q6, Q5, R3, R2. simpl.
    destruct (PAGE_REFRESH_INTERVAL CONFIG
              <=? Index.tick_now t - lastRefreshTime (self s)); lia.
Qed.

(** A [start()] whose awaited calls all resolve reaches its loop, and the
    loop rejuvenates once per crossing of the interval, counted from the
    time the page was loaded. *)
Lemma Index_start_rejuvenates CONFIG x s :
  starts_smoothly x -> reloads_succeed (Index.ans_ticks x) ->
  exists s',
    Index.start CONFIG x s = (Ok StillLooping, s') /\
    rejuvenations (trace s')
    = (rejuvenations (trace s)
       + crossings (PAGE_REFRESH_INTERVAL CONFIG) (Index.ans_loaded x)
           (Index.ans_ticks x))%nat.
Proof.
  destruct x as [l np ua g loaded m warm cc ss ticks xs];
    unfold starts_smoothly; simpl.
  intros ([b0 ->] & [p0 ->] & -> & -> & [c0 ->] & ->) Hall.
  destruct s as [[b p c ff r n t] ps ts tr].
  unfold Index.start, Index.startBrowser, Index.loadPage,
    Index.startFFmpeg, Index.getAudioInputArgs, Index.startScreencast,
    Index.startScreencast_setup, rejuvenations.
  destruct m; polled_cbn.
  all: match goal with
       | |- context [Index.deliver ?evs ?s0] =>
           pose proof (quiet_Index_deliver evs s0) as Q;
           destruct (nothrow_Index_deliver evs s0) as [[] D];
           destruct (Index.deliver evs s0)
             as [[[]|?] [[? ? ? ? ? ? ?] ? ? ?]];
           [|discriminate D]
       end.
  all: unfold quiet, rejuvenations in Q; polled_cbn;
    destruct Q as (? & ? & ? & ? & ? & Q6); subst; polled_cbn.
  all: match goal with
       | |- context [Index.monitor_loop ?cfg ?tk ?s2] =>
           destruct (Index_monitor_loop_rejuvenates cfg tk s2)
             as (s' & E & _ & C);
           [reflexivity | discriminate | exact Hall |];
           rewrite E; exists s'; split; [reflexivity|];
           unfold rejuvenations in C; polled_cbn
       end.
  all: rewrite C; rewrite ?count_snoc in *; polled_cbn;
    rewrite Q6; rewrite ?count_snoc; polled_cbn; lia.
Qed.



(** ** Stopping twice *)


#[local] Instance tidy_preorder : PreOrder tidy.
Proof.
  split.
  - intros s H; exact H.
  - intros a b c H1 H2 H; exact (H2 (H1 H)).
Qed.

Ltac tidy_leaf :=
  let s0 := fresh "s" in
  intros s0;
  unfold tidy, page_needs_browser, update, emit, on_proc, setTimeout,
    spawn, pop_timer, incr_frameCount;
  try (destruct (timers s0));
  simpl; auto.

Lemma tidy_Index_startBrowser l p u : always tidy (Index.startBrowser l p u).
Proof.
  intros s. destruct s as [[b pg c ff r n t] ps ts tr].
  unfold tidy, page_needs_browser, Index.startBrowser.
  destruct l as [b'|e1], p as [p'|e2], u as [[]|e3];
    polled_cbn; auto; discriminate.
Qed.

Lemma tidy_Index_stop x : always tidy (Index.stop x).
Proof.
  intros s. destruct s as [[b pg c ff r n t] ps ts tr].
  unfold tidy, page_needs_browser, Index.stop, Index.stopScreencast.
  destruct x as [[[]|e1] [[]|e2] [[]|e3]]; destruct c, ff, b;
    polled_cbn; auto; discriminate.
Qed.

Lemma tidy_stdin_write pid f w : always tidy (stdin_write pid f w).
Proof. unfold stdin_write. always_tac tidy_leaf. Qed.

Lemma tidy_incr : always tidy incr_frameCount.
Proof. tidy_leaf. Qed.

#[local] Hint Resolve tidy_Index_startBrowser tidy_Index_stop
  tidy_stdin_write tidy_incr : always.

Lemma tidy_Index_startFFmpeg m : always tidy (Index.startFFmpeg m).
Proof.
  unfold Index.startFFmpeg, Index.getAudioInputArgs. always_tac tidy_leaf.
Qed.

Lemma tidy_Index_on_close code : always tidy (Index.on_close code).
Proof. unfold Index.on_close. always_tac tidy_leaf. Qed.

Lemma tidy_Index_sendFrameToFFmpeg f w :
  always tidy (Index.sendFrameToFFmpeg f w).
Proof. unfold Index.sendFrameToFFmpeg. always_tac tidy_leaf. Qed.

#[local] Hint Resolve tidy_Index_startFFmpeg tidy_Index_on_close
  tidy_Index_sendFrameToFFmpeg : always.

Lemma tidy_Index_handle ev : always tidy (Index.handle ev).
Proof.
  destruct ev; unfold Index.handle, Index.on_error,
    Index.on_screencastFrame; always_tac tidy_leaf.
Qed.

#[local] Hint Resolve tidy_Index_handle : always.

Lemma tidy_Index_deliver evs : always tidy (Index.deliver evs).
Proof.
  induction evs as [|ev evs IH]; simpl; always_tac tidy_leaf.
Qed.

Lemma tidy_Index_loadPage g t : always tidy (Index.loadPage g t).
Proof. unfold Index.loadPage. always_tac tidy_leaf. Qed.

#[local] Hint Resolve tidy_Index_deliver tidy_Index_loadPage : always.

Lemma tidy_Index_refreshPageIfNeeded CONFIG n g t :
  always tidy (Index.refreshPageIfNeeded CONFIG n g t).
Proof. unfold Index.refreshPageIfNeeded. always_tac tidy_leaf. Qed.

Lemma tidy_Index_captureAndSendFrame shot during w :
  always tidy (Index.captureAndSendFrame shot during w).
Proof. unfold Index.captureAndSendFrame. always_tac tidy_leaf. Qed.

#[local] Hint Resolve tidy_Index_refreshPageIfNeeded
  tidy_Index_captureAndSendFrame : always.

Lemma tidy_Index_monitor_loop CONFIG ticks :
  always tidy (Index.monitor_loop CONFIG ticks).
Proof.
  induction ticks as [|t ticks IH]; simpl;
    unfold Index.monitor_iteration; always_tac tidy_leaf.
Qed.

#[local] Hint Resolve tidy_Index_monitor_loop : always.

Lemma tidy_Index_startScreencast CONFIG c a ticks :
  always tidy (Index.startScreencast CONFIG c a ticks).
Proof.
  unfold Index.startScreencast, Index.startScreencast_setup.
  always_tac tidy_leaf.
Qed.

#[local] Hint Resolve tidy_Index_startScreencast : always.

Lemma tidy_Index_start CONFIG x : always tidy (Index.start CONFIG x).
Proof. unfold Index.start. always_tac tidy_leaf. Qed.

Lemma tidy_Index_shutdown x : always tidy (Index.shutdown x).
Proof. unfold Index.shutdown. always_tac tidy_leaf. Qed.

#[local] Hint Resolve tidy_Index_start tidy_Index_shutdown : always.

Lemma tidy_Index_step CONFIG op s : tidy s (Index.step CONFIG op s).
Proof.
  destruct op; cbv beta iota delta [Index.step];
    match goal with
    | |- tidy ?s (snd (?m ?s)) =>
        let H := fresh in
        assert (H : always tidy m) by always_tac tidy_leaf;
        apply H
    end.
Qed.

Lemma reachable_page_needs_browser CONFIG s :
  Index.reachable CONFIG s -> page_needs_browser s.
Proof.
  intros (now & ops & <-).
  assert (H : forall s0, tidy s0 (Index.run CONFIG ops s0)).
  { induction ops as [|op ops IH]; intros s0; simpl.
    - reflexivity.
    - etransitivity; [apply tidy_Index_step | apply IH]. }
  apply H. intros _. reflexivity.
Qed.




(** * Further properties of the code *)

(** ** How [stop()], [start()] and [shutdown] end *)

Lemma Index_stop_cases (x : StopAnswers) (s : Sys) :
  let r := Index.stop x s in
  isRunning (self (snd r)) = false /\
  cdpSession (self (snd r)) = None /\
  ffmpeg (self (snd r)) = None /\
  timers (snd r) = timers s /\
  match fst r with
  | Ok _ =>
      browser (self (snd r)) = None /\
      (page_needs_browser s -> page (self (snd r)) = None) /\
      (browser (self s) = None \/ ans_browserClose x = Resolves tt)
  | Throw e =>
      ans_browserClose x = Rejects e /\
      browser (self s) <> None /\
      browser (self (snd r)) = browser (self s) /\
      page (self (snd r)) = page (self s)
  end.
Proof.
  destruct s as [[b pg c ff r n t] ps ts tr].
  unfold page_needs_browser.
  destruct x as [[[]|e1] [[]|e2] [[]|e3]]; destruct c, ff, b;
    cbn; repeat split; auto; try discriminate; try (intros _; reflexivity).
Qed.

(** [stop()] of [index.js] always clears the running flag, the CDP
    session and the encoder handle and leaves the timers alone.  It returns
    normally exactly when no browser is held or [browser.close()] resolves,
    and then the browser handle is null (the page handle too, where a page
    was only held with its browser).  It throws exactly the rejection of
    [browser.close()], and then the browser and page handles are what they
    were. *)
Theorem Index_stop_outcome (x : StopAnswers) (s : Sys) :
  let r := Index.stop x s in
  isRunning (self (snd r)) = false /\
  cdpSession (self (snd r)) = None /\
  ffmpeg (self (snd r)) = None /\
  timers (snd r) = timers s /\
  match fst r with
  | Ok _ =>
      browser (self (snd r)) = None /\
      (page_needs_browser s -> page (self (snd r)) = None) /\
      (browser (self s) = None \/ ans_browserClose x = Resolves tt)
  | Throw e =>
      ans_browserClose x = Rejects e /\
      browser (self s) <> None /\
      browser (self (snd r)) = browser (self s) /\
      page (self (snd r)) = page (self s)
  end.
Proof. exact (Index_stop_cases x s). Qed.

Lemma nothrow_Index_stop x :
  ans_browserClose x = Resolves tt -> nothrow (Index.stop x).
Proof.
  intros Hx s. pose proof (Index_stop_cases x s) as (_ & _ & _ & _ & H).
  destruct (fst (Index.stop x s)) as [[]|e] eqn:E.
  - exists tt; reflexivity.
  - destruct H as (H & _). congruence.
Qed.

Lemma try_catch_throw_inv {A} (m : M A) (h : Error -> M A) s e s' :
  try_catch m h s = (Throw e, s') ->
  exists e0 s1, m s = (Throw e0, s1) /\ h e0 s1 = (Throw e, s').
Proof.
  unfold try_catch. destruct (m s) as [[a|e0] s1]; intros H.
  - discriminate.
  - exists e0, s1; auto.
Qed.

Lemma try_catch_ok_inv {A} (m : M A) (h : Error -> M A) s a s' :
  try_catch m h s = (Ok a, s') ->
  m s = (Ok a, s') \/ exists e0 s1, m s = (Throw e0, s1) /\ h e0 s1 = (Ok a, s').
Proof.
  unfold try_catch. destruct (m s) as [[a0|e0] s1]; intros H.
  - left; exact H.
  - right; exists e0, s1; auto.
Qed.

Lemma bind_ok_inv {A B} (m : M A) (k : A -> M B) s b s' :
  bind m k s = (Ok b, s') ->
  exists a s1, m s = (Ok a, s1) /\ k a s1 = (Ok b, s').
Proof.
  unfold bind. destruct (m s) as [[a|e] s1]; intros H.
  - exists a, s1; auto.
  - discriminate.
Qed.

Lemma Index_failed_start_cases
    (CONFIG : Config) (x : Index.StartAnswers) (s s' : Sys) (e : Error) :
  Index.start CONFIG x s = (Throw e, s') ->
  isRunning (self s') = false /\
  cdpSession (self s') = None /\
  ffmpeg (self s') = None /\
  (page_needs_browser s ->
   ans_browserClose (Index.ans_stop x) = Resolves tt ->
   browser (self s') = None /\ page (self s') = None).
Proof.
  unfold Index.start. intros H.
  apply try_catch_throw_inv in H as (e0 & s1 & Hbody & Hh).
  assert (Htidy : tidy s s1).
  { match type of Hbody with
    | ?body s = _ =>
        assert (Hb : always tidy body) by always_tac tidy_leaf;
        specialize (Hb s); rewrite Hbody in Hb; exact Hb
    end. }
  unfold bind, log, emit in Hh. simpl in Hh.
  set (s2 := {| self := self s1; procs := procs s1; timers := timers s1;
                trace := trace s1 ++ [Log ERROR "critical startup error"] |})
    in Hh.
  pose proof (Index_stop_cases (Index.ans_stop x) s2)
    as (H1 & H2 & H3 & _ & H5).
  destruct (Index.stop (Index.ans_stop x) s2) as [[[]|e1] s3];
    simpl in *; injection Hh as <- <-.
  - repeat split; auto.
    + apply H5.
    + apply H5. intros Hb. apply (Htidy H). exact Hb.
  - repeat split; auto; destruct H5 as (H5 & _); congruence.
Qed.

(** A [start()] that throws has run [stop()] on the way out: the running
    flag, the CDP session and the encoder handle are cleared, and when that
    [browser.close()] resolved, the browser and the page are released
    too. *)
Theorem Index_failed_start_releases
    (CONFIG : Config) (x : Index.StartAnswers) (s s' : Sys) (e : Error) :
  Index.start CONFIG x s = (Throw e, s') ->
  isRunning (self s') = false /\
  cdpSession (self s') = None /\
  ffmpeg (self s') = None /\
  (page_needs_browser s ->
   ans_browserClose (Index.ans_stop x) = Resolves tt ->
   browser (self s') = None /\ page (self s') = None).
Proof. exact (Index_failed_start_cases CONFIG x s s' e). Qed.

Lemma Index_failed_start_releases_witness :
  let CONFIG := Index.mkCONFIG env_default in
  let x := smooth_start [ {| Index.tick_now := 3604000;
                            Index.tick_goto := Rejects (ErrExternal "page.goto");
                            Index.tick_loaded := 3608000;
                            Index.tick_events := [] |} ] in
  fst (Index.start CONFIG x (boot 0)) = Throw (ErrExternal "page.goto") /\
  isRunning (self (snd (Index.start CONFIG x (boot 0)))) = false /\
  browser (self (snd (Index.start CONFIG x (boot 0)))) = None.
Proof.
  cbv zeta.
  set (x := smooth_start _). set (CONFIG := Index.mkCONFIG env_default).
  assert (E : Index.start CONFIG x (boot 0)
              = (Throw (ErrExternal "page.goto"),
                 snd (Index.start CONFIG x (boot 0))))
    by (vm_compute; reflexivity).
  destruct (Index_failed_start_releases CONFIG x (boot 0) _ _ E)
    as (H1 & _ & _ & H4).
  split; [rewrite E; reflexivity|]. split; [exact H1|].
  apply H4; [intros _; reflexivity | reflexivity].
Defined.

(** ** The restart loop of [main] *)

Lemma nothrow_Index_validateConfig CONFIG :
  falsy_string (STREAM_KEY CONFIG) = false ->
  nothrow (Index.validateConfig CONFIG).
Proof.
  intros H. unfold Index.validateConfig. rewrite H. nothrow_tac.
Qed.

Lemma nothrow_Index_restart_loop CONFIG attempts :
  Forall closes_cleanly attempts ->
  nothrow (Index.restart_loop CONFIG attempts).
Proof.
  induction 1 as [|a attempts Ha _ IH]; simpl.
  - nothrow_tac.
  - pose proof (nothrow_Index_stop _ Ha) as Hstop.
    nothrow_tac; auto.
Qed.

(** With a stream key configured, and as long as the [browser.close()] of
    the catch block resolves, [main] never ends: whatever goes wrong in any
    number of [start()] attempts, it is caught, the streamer is stopped
    and the loop goes on. *)
Theorem Index_main_never_gives_up
    (CONFIG : Config) (now : Z) (attempts : list Index.Attempt) :
  falsy_string (STREAM_KEY CONFIG) = false ->
  Forall closes_cleanly attempts ->
  fst (Index.main CONFIG now attempts) = Index.Alive.
Proof.
  intros Hkey Hclose. unfold Index.main.
  assert (N : nothrow (Index.main_body CONFIG now attempts)).
  { unfold Index.main_body.
    pose proof (nothrow_Index_validateConfig CONFIG Hkey).
    pose proof (nothrow_Index_restart_loop CONFIG attempts Hclose).
    nothrow_tac; auto. }
  destruct (N (boot now)) as [a Ha].
  destruct (Index.main_body CONFIG now attempts (boot now)) as [[r|e] s];
    [reflexivity | discriminate].
Qed.

(** Three attempts in a row fail to load the page; [main] is still
    alive. *)
Lemma Index_main_never_gives_up_witness :
  let a := {| Index.att_start :=
                {| Index.ans_launch := Resolves 0%nat;
                   Index.ans_newPage := Resolves 0%nat;
                   Index.ans_setUserAgent := Resolves tt;
                   Index.ans_goto := Rejects (ErrExternal "page.goto");
                   Index.ans_loaded := 4000;
                   Index.ans_musicExists := false;
                   Index.ans_warmup := [];
                   Index.ans_createCDPSession := Resolves 0%nat;
                   Index.ans_startScreencast := Resolves tt;
                   Index.ans_ticks := [];
                   Index.ans_stop := ok_stop |};
              Index.att_stop := ok_stop; Index.att_backoff := [] |} in
  falsy_string (STREAM_KEY (Index.mkCONFIG env_default)) = false /\
  Forall closes_cleanly [a; a; a] /\
  fst (Index.main (Index.mkCONFIG env_default) 0 [a; a; a]) = Index.Alive /\
  count is_supervisor_restart
    (trace (snd (Index.main (Index.mkCONFIG env_default) 0 [a; a; a])))
  = 3%nat.
Proof.
  cbv zeta.
  assert (Hk : falsy_string (STREAM_KEY (Index.mkCONFIG env_default)) = false)
    by reflexivity.
  split; [exact Hk|].
  match goal with
  | |- Forall closes_cleanly ?l /\ _ =>
      assert (Hc : Forall closes_cleanly l)
        by (repeat constructor)
  end.
  split; [exact Hc|].
  split; [exact (Index_main_never_gives_up _ 0 _ Hk Hc)|].
  vm_compute; reflexivity.
Defined.

(** The one way [main] dies with a key configured: [start()] has thrown
    and left the browser held (its own [stop()] could not close it), and
    the [browser.close()] of the catch block rejects as well.  The
    rejection leaves the restart loop, and the process exits with
    code 1. *)
Theorem Index_main_dies_when_stop_rejects
    (CONFIG : Config) (now : Z) (a : Index.Attempt)
    (rest : list Index.Attempt) (e e' : Error) (s1 : Sys) :
  falsy_string (STREAM_KEY CONFIG) = false ->
  Index.start CONFIG (Index.att_start a) (booted CONFIG now)
    = (Throw e, s1) ->
  browser (self s1) <> None ->
  ans_browserClose (Index.att_stop a) = Rejects e' ->
  fst (Index.main CONFIG now (a :: rest)) = Index.Exited 1.
Proof.
  intros Hkey Hstart Hb Hx.
  assert (Hboot : (Index.validateConfig CONFIG ;;
                   emit NewStreamer ;;
                   update (fun _ => constructor now)) (boot now)
                  = (Ok tt, booted CONFIG now)).
  { unfold booted. unfold Index.validateConfig. rewrite Hkey. reflexivity. }
  assert (Hstop : forall s0, browser (self s0) <> None ->
            fst (Index.stop (Index.att_stop a) s0) = Throw e').
  { intros s0 Hb0.
    pose proof (Index_stop_cases (Index.att_stop a) s0) as (_&_&_&_&H).
    destruct (fst (Index.stop (Index.att_stop a) s0)) as [[]|e0].
    - destruct H as (_ & _ & [H|H]); congruence.
    - destruct H as (H & _). congruence. }
  assert (Hbody : fst (Index.main_body CONFIG now (a :: rest) (boot now))
                  = Throw e').
  { unfold Index.main_body.
    unfold bind at 1 2 3. unfold bind at 1 2 in Hboot.
    destruct (Index.validateConfig CONFIG (boot now)) as [[[]|e0] s0];
      [|discriminate].
    destruct (emit NewStreamer s0) as [[[]|e0] s2]; [|discriminate].
    destruct (update _ s2) as [[[]|e0] s3]; [|discriminate].
    injection Hboot as ->.
    simpl. unfold bind at 1. unfold try_catch at 1. rewrite Hstart.
    unfold bind at 1, log, emit. simpl.
    unfold bind at 1.
    match goal with
    | |- context [Index.stop ?x ?s0] =>
        specialize (Hstop s0 Hb); destruct (Index.stop x s0) as [[[]|e0] s4]
    end; simpl in *; congruence. }
  unfold Index.main.
  destruct (Index.main_body CONFIG now (a :: rest) (boot now)) as [[r|e0] s];
    [discriminate | reflexivity].
Qed.

Lemma Index_main_dies_when_stop_rejects_witness :
  let CONFIG := Index.mkCONFIG env_default in
  let a := {| Index.att_start := stuck_start; Index.att_stop := stuck_stop;
              Index.att_backoff := [] |} in
  let r := Index.start CONFIG stuck_start (booted CONFIG 0) in
  falsy_string (STREAM_KEY CONFIG) = false /\
  fst r = Throw (ErrExternal "browser.close") /\
  browser (self (snd r)) <> None /\
  fst (Index.main CONFIG 0 [a; a]) = Index.Exited 1.
Proof.
  cbv zeta.
  assert (E : Index.start (Index.mkCONFIG env_default) stuck_start
                (booted (Index.mkCONFIG env_default) 0)
              = (Throw (ErrExternal "browser.close"),
                 snd (Index.start (Index.mkCONFIG env_default) stuck_start
                        (booted (Index.mkCONFIG env_default) 0))))
    by (vm_compute; reflexivity).
  assert (Hb : browser (self (snd (Index.start (Index.mkCONFIG env_default)
                 stuck_start (booted (Index.mkCONFIG env_default) 0))))
               <> None) by (vm_compute; discriminate).
  split; [reflexivity|]. split; [rewrite E; reflexivity|].
  split; [exact Hb|].
  exact (Index_main_dies_when_stop_rejects (Index.mkCONFIG env_default) 0
           {| Index.att_start := stuck_start; Index.att_stop := stuck_stop;
              Index.att_backoff := [] |}
           [ {| Index.att_start := stuck_start;
                Index.att_stop := stuck_stop;
                Index.att_backoff := [] |} ]
           _ (ErrExternal "browser.close") _ eq_refl E Hb eq_refl).
Defined.


(** The signal listener: when [stop()] returns, [process.exit(0)] is the
    last thing done and everything is released; when [browser.close()]
    rejects, [stop()] throws out of the listener and [process.exit] is
    never called, so the signal does not end the process. *)
Theorem Index_shutdown_outcome (x : StopAnswers) (s : Sys) :
  let r := Index.shutdown x s in
  match fst r with
  | Ok _ =>
      (exists tr, trace (snd r) = tr ++ [ProcessExit 0] /\
                  count is_exit tr = count is_exit (trace s)) /\
      isRunning (self (snd r)) = false /\
      ffmpeg (self (snd r)) = None /\
      browser (self (snd r)) = None
  | Throw e =>
      ans_browserClose x = Rejects e /\
      browser (self s) <> None /\
      count is_exit (trace (snd r)) = count is_exit (trace s)
  end.
Proof.
  destruct s as [[b pg c ff r n t] ps ts tr].
  destruct x as [[[]|e1] [[]|e2] [[]|e3]]; destruct c, ff, b;
    cbn -[count];
    try (split; [eexists; split; [reflexivity|] | repeat split]);
    try (split; [reflexivity | split; [discriminate|]]);
    rewrite ?count_snoc; simpl; lia.
Qed.

(** ** A stopped streamer feeds nothing to the encoder *)

#[local] Instance idle_preorder : PreOrder idle.
Proof.
  split.
  - intros s; unfold idle; tauto.
  - intros a b c (?&?&?) (?&?&?); unfold idle; repeat split; congruence.
Qed.

Ltac idle_leaf :=
  let s0 := fresh "s" in
  intros s0;
  unfold idle, writes, update, emit, on_proc, setTimeout, spawn, pop_timer;
  try (destruct (timers s0));
  simpl; rewrite ?count_snoc; simpl; repeat split; try reflexivity; lia.

Lemma idle_Index_handle_stopped ev s :
  isRunning (self s) = false -> idle s (snd (Index.handle ev s)).
Proof.
  intros Hrun. destruct ev.
  - assert (H : always idle (Index.handle (EvClose pid code)))
      by (unfold Index.handle, Index.on_close; always_tac idle_leaf).
    apply H.
  - assert (H : always idle (Index.handle EvError))
      by (unfold Index.handle, Index.on_error; always_tac idle_leaf).
    apply H.
  - assert (H : always idle (Index.handle (EvDrain pid)))
      by (unfold Index.handle; always_tac idle_leaf).
    apply H.
  - assert (H : always idle (Index.handle (EvTimer musicExists)))
      by (unfold Index.handle, Index.startFFmpeg, Index.getAudioInputArgs;
          always_tac idle_leaf).
    apply H.
  - unfold Index.handle, Index.on_screencastFrame, bind, get.
    rewrite Hrun. simpl. reflexivity.
Qed.

(** While the running flag is cleared, no event the loop delivers writes
    a frame: screencast frames are dropped unacknowledged, the frame
    counter stays, and no listener sets the flag again (also a relaunch
    timer that fires after [stop()] leaves it cleared). *)
Theorem Index_stopped_streamer_writes_nothing (evs : list Event) (s : Sys) :
  isRunning (self s) = false ->
  let s' := snd (Index.deliver evs s) in
  writes (trace s') = writes (trace s) /\
  frameCount (self s') = frameCount (self s) /\
  isRunning (self s') = false.
Proof.
  revert s. induction evs as [|ev evs IH]; intros s Hrun; simpl.
  - auto.
  - destruct (idle_Index_handle_stopped ev s Hrun) as (W & F & R).
    destruct (nothrow_Index_handle ev s) as [[] Ha].
    unfold bind, try_catch.
    destruct (Index.handle ev s) as [[[]|e] s1]; [|discriminate].
    simpl in *. rewrite Hrun in R.
    destruct (IH s1 R) as (W' & F' & R').
    repeat split; congruence.
Qed.

Lemma Index_stopped_streamer_writes_nothing_witness :
  let s := snd (Index.stop ok_stop live0) in
  let evs := [ EvScreencastFrame 1%nat (Wrote true) (Resolves tt);
               EvClose 0 0; EvTimer false;
               EvScreencastFrame 2%nat (Wrote true) (Resolves tt) ] in
  isRunning (self s) = false /\
  writes (trace (snd (Index.deliver evs s))) = writes (trace s).
Proof.
  cbv zeta. split; [vm_compute; reflexivity|].
  apply (Index_stopped_streamer_writes_nothing _ (snd (Index.stop ok_stop live0))).
  vm_compute; reflexivity.
Defined.

(** ** Relaunches are neither lost nor doubled *)

#[local] Instance settled_preorder : PreOrder settled.
Proof.
  split.
  - intros s; unfold settled; tauto.
  - intros a b c (?&?) (?&?); unfold settled; split; congruence.
Qed.

Ltac settled_leaf :=
  let s0 := fresh "s" in
  intros s0;
  unfold settled, relaunches, spawns, update, emit, on_proc,
    incr_frameCount;
  simpl; rewrite ?count_snoc; simpl; repeat split; try reflexivity; lia.

Lemma settled_stdin_write pid f w : always settled (stdin_write pid f w).
Proof. unfold stdin_write. always_tac settled_leaf. Qed.

Lemma settled_incr : always settled incr_frameCount.
Proof. settled_leaf. Qed.

#[local] Hint Resolve settled_stdin_write settled_incr : always.

Lemma Index_handle_relaunches ev s :
  let s' := snd (Index.handle ev s) in
  relaunches s'
    = (relaunches s
       + (if isRunning (self s) then closes [ev] else 0))%nat /\
  isRunning (self s') = isRunning (self s).
Proof.
  destruct ev.
  - destruct s as [[b pg c ff r n t] ps ts tr].
    unfold relaunches, spawns, closes.
    destruct r; cbn -[count]; rewrite ?count_snoc, ?length_app; simpl;
      split; try reflexivity; lia.
  - assert (H : always settled (Index.handle EvError))
      by (unfold Index.handle, Index.on_error; always_tac settled_leaf).
    destruct (H s) as [H1 H2]. cbv zeta. rewrite H1, H2.
    unfold closes; simpl. destruct (isRunning (self s)); split; auto; lia.
  - assert (H : always settled (Index.handle (EvDrain pid)))
      by (unfold Index.handle; always_tac settled_leaf).
    destruct (H s) as [H1 H2]. cbv zeta. rewrite H1, H2.
    unfold closes; simpl. destruct (isRunning (self s)); split; auto; lia.
  - destruct s as [[b pg c ff r n t] ps ts tr].
    unfold relaunches, spawns, closes.
    destruct ts as [|[[] d] ts], musicExists, r; cbn -[count];
      rewrite ?count_snoc; simpl; split; try reflexivity; lia.
  - assert (H : always settled (Index.handle (EvScreencastFrame f w ack)))
      by (unfold Index.handle, Index.on_screencastFrame,
            Index.sendFrameToFFmpeg; always_tac settled_leaf).
    destruct (H s) as [H1 H2]. cbv zeta. rewrite H1, H2.
    unfold closes; simpl. destruct (isRunning (self s)); split; auto; lia.
Qed.

(** Over any sequence of events, the encoders spawned plus the relaunch
    timers still pending grow by exactly the number of 'close' events met
    while the running flag is set, and not at all while it is cleared:
    every exit of a running relay is answered by one relaunch, pending or
    done, and nothing else ever spawns an encoder or sets a timer. *)
Theorem Index_every_close_is_answered_once (evs : list Event) (s : Sys) :
  let s' := snd (Index.deliver evs s) in
  relaunches s'
    = (relaunches s + (if isRunning (self s) then closes evs else 0))%nat /\
  isRunning (self s') = isRunning (self s).
Proof.
  revert s. induction evs as [|ev evs IH]; intros s; simpl.
  - split; [destruct (isRunning (self s)); unfold closes; simpl; lia
           | reflexivity].
  - destruct (Index_handle_relaunches ev s) as (R1 & R2).
    destruct (nothrow_Index_handle ev s) as [[] Ha].
    unfold bind, try_catch.
    destruct (Index.handle ev s) as [[[]|e] s1]; [|discriminate].
    simpl in *. destruct (IH s1) as (R3 & R4).
    rewrite R3, R4, R1, R2. split; [|reflexivity].
    unfold closes in *. simpl.
    destruct (isRunning (self s)); destruct ev; simpl; lia.
Qed.

(** ** What every reachable state satisfies *)

#[local] Instance keeps_well_formed_preorder : PreOrder keeps_well_formed.
Proof.
  split.
  - intros s H; exact H.
  - intros a b c H1 H2 H; exact (H2 (H1 H)).
Qed.

Ltac wf_leaf :=
  let s0 := fresh "s" in
  let H1 := fresh "Hnew" in
  let H2 := fresh "Hses" in
  let H3 := fresh "Hpg" in
  let Hp := fresh "Hpid" in
  let Hr := fresh "Hrun" in
  let Hb := fresh "Hbr" in
  intros s0;
  unfold keeps_well_formed, well_formed, held_is_newest,
    running_holds_session, page_needs_browser, update, emit, on_proc,
    setTimeout, pop_timer, incr_frameCount;
  try (destruct (timers s0));
  simpl; rewrite ?length_alter;
  intros (H1 & H2 & H3);
  (split;
   [ intros ? Hp; try discriminate Hp; auto
   | split;
     [ intros Hr; try discriminate Hr;
       destruct (H2 Hr) as (?&?&?); repeat split; auto; discriminate
     | intros Hb; try discriminate Hb; auto ] ]).

(** Settles a whole method on a symbolic state, once its answers and the
    handles it tests have been split. *)
Ltac wf_crunch :=
  let H1 := fresh "Hnew" in
  let H2 := fresh "Hses" in
  let H3 := fresh "Hpg" in
  let Hr := fresh "Hrun" in
  unfold keeps_well_formed, well_formed, held_is_newest,
    running_holds_session, page_needs_browser;
  cbn; rewrite ?length_app, ?length_alter; cbn;
  intros (H1 & H2 & H3);
  (split;
   [ intros ? Hp; try discriminate Hp;
     try (injection Hp as <-; lia); auto
   | split;
     [ intros Hr; try discriminate Hr;
       try (destruct (H2 Hr) as (?&?&?));
       repeat split; auto; try discriminate;
       try (intros Hx; apply H3 in Hx; discriminate)
     | intros Hb; try discriminate Hb; auto ] ]).

Lemma wf_stdin_write pid f w : always keeps_well_formed (stdin_write pid f w).
Proof. unfold stdin_write. always_tac wf_leaf. Qed.

Lemma wf_incr : always keeps_well_formed incr_frameCount.
Proof. wf_leaf. Qed.

Lemma wf_Index_startFFmpeg m : always keeps_well_formed (Index.startFFmpeg m).
Proof.
  intros s. destruct s as [[b pg c ff r n t] ps ts tr].
  destruct m; wf_crunch.
Qed.

Lemma wf_Index_startBrowser l p u :
  always keeps_well_formed (Index.startBrowser l p u).
Proof.
  intros s. destruct s as [[b pg c ff r n t] ps ts tr].
  destruct l as [b'|e1], p as [p'|e2], u as [[]|e3]; wf_crunch.
Qed.

Lemma wf_Index_startScreencast_setup c a :
  always keeps_well_formed (Index.startScreencast_setup c a).
Proof.
  intros s. destruct s as [[b pg cs ff r n t] ps ts tr].
  destruct pg as [p|], c as [c'|e1], a as [[]|e2]; wf_crunch.
Qed.

Lemma wf_Index_stop x : always keeps_well_formed (Index.stop x).
Proof.
  intros s. destruct s as [[b pg c ff r n t] ps ts tr].
  destruct x as [[[]|e1] [[]|e2] [[]|e3]]; destruct c, ff, b; wf_crunch.
Qed.

#[local] Hint Resolve wf_stdin_write wf_incr wf_Index_startFFmpeg
  wf_Index_startBrowser wf_Index_startScreencast_setup wf_Index_stop
  : always.

Lemma wf_Index_on_close code : always keeps_well_formed (Index.on_close code).
Proof. unfold Index.on_close. always_tac wf_leaf. Qed.

Lemma wf_Index_sendFrameToFFmpeg f w :
  always keeps_well_formed (Index.sendFrameToFFmpeg f w).
Proof. unfold Index.sendFrameToFFmpeg. always_tac wf_leaf. Qed.

#[local] Hint Resolve wf_Index_on_close wf_Index_sendFrameToFFmpeg : always.

Lemma wf_Index_handle ev : always keeps_well_formed (Index.handle ev).
Proof.
  destruct ev; unfold Index.handle, Index.on_error,
    Index.on_screencastFrame; always_tac wf_leaf.
Qed.

#[local] Hint Resolve wf_Index_handle : always.

Lemma wf_Index_deliver evs : always keeps_well_formed (Index.deliver evs).
Proof.
  induction evs as [|ev evs IH]; simpl; always_tac wf_leaf.
Qed.

Lemma wf_Index_loadPage g t : always keeps_well_formed (Index.loadPage g t).
Proof. unfold Index.loadPage. always_tac wf_leaf. Qed.

#[local] Hint Resolve wf_Index_deliver wf_Index_loadPage : always.

Lemma wf_Index_refreshPageIfNeeded CONFIG n g t :
  always keeps_well_formed (Index.refreshPageIfNeeded CONFIG n g t).
Proof. unfold Index.refreshPageIfNeeded. always_tac wf_leaf. Qed.

Lemma wf_Index_captureAndSendFrame shot during w :
  always keeps_well_formed (Index.captureAndSendFrame shot during w).
Proof. unfold Index.captureAndSendFrame. always_tac wf_leaf. Qed.

#[local] Hint Resolve wf_Index_refreshPageIfNeeded
  wf_Index_captureAndSendFrame : always.

Lemma wf_Index_monitor_loop CONFIG ticks :
  always keeps_well_formed (Index.monitor_loop CONFIG ticks).
Proof.
  induction ticks as [|t ticks IH]; simpl;
    unfold Index.monitor_iteration; always_tac wf_leaf.
Qed.

#[local] Hint Resolve wf_Index_monitor_loop : always.

Lemma wf_Index_startScreencast CONFIG c a ticks :
  always keeps_well_formed (Index.startScreencast CONFIG c a ticks).
Proof. unfold Index.startScreencast. always_tac wf_leaf. Qed.

#[local] Hint Resolve wf_Index_startScreencast : always.

Lemma wf_Index_start CONFIG x : always keeps_well_formed (Index.start CONFIG x).
Proof. unfold Index.start. always_tac wf_leaf. Qed.

Lemma wf_Index_shutdown x : always keeps_well_formed (Index.shutdown x).
Proof. unfold Index.shutdown. always_tac wf_leaf. Qed.

#[local] Hint Resolve wf_Index_start wf_Index_shutdown : always.

Lemma wf_Index_step CONFIG op s :
  keeps_well_formed s (Index.step CONFIG op s).
Proof.
  destruct op; cbv beta iota delta [Index.step];
    match goal with
    | |- keeps_well_formed ?s (snd (?m ?s)) =>
        let H := fresh in
        assert (H : always keeps_well_formed m) by always_tac wf_leaf;
        apply H
    end.
Qed.

(** In every state the streamer of [index.js] can reach: the encoder
    handle, when set, names the child process spawned last, so an encoder
    that was replaced is never referred to again (it can be neither written
    to nor signalled); and while the running flag is set the browser, the
    page and the CDP session are all held, so the screencast listener
    never meets a null session once its guard has passed. *)
Theorem Index_reachable_well_formed (CONFIG : Config) (s : Sys) :
  Index.reachable CONFIG s ->
  (forall pid, ffmpeg (self s) = Some pid -> S pid = length (procs s)) /\
  (isRunning (self s) = true ->
   browser (self s) <> None /\ page (self s) <> None /\
   cdpSession (self s) <> None) /\
  (browser (self s) = None -> page (self s) = None).
Proof.
  intros (now & ops & <-).
  assert (H : forall s0, keeps_well_formed s0 (Index.run CONFIG ops s0)).
  { induction ops as [|op ops IH]; intros s0; simpl.
    - reflexivity.
    - etransitivity; [apply wf_Index_step | apply IH]. }
  apply H. repeat split; try discriminate; reflexivity.
Qed.

Lemma Index_reachable_well_formed_witness :
  let s := snd (Index.deliver (flat_map crash_round
                                 [(0%nat, 1, false); (1%nat, 1, true)])
                  live0) in
  Index.reachable (Index.mkCONFIG env_default) s /\
  S 2 = length (procs s) /\ ffmpeg (self s) = Some 2%nat.
Proof.
  cbv zeta.
  set (s := snd (Index.deliver _ live0)).
  assert (Hr : Index.reachable (Index.mkCONFIG env_default) s).
  { exists 0,
      [ Index.OpStart (smooth_start []);
        Index.OpHandle (EvClose 0 1); Index.OpHandle (EvTimer false);
        Index.OpHandle (EvClose 1 1); Index.OpHandle (EvTimer true) ].
    vm_compute; reflexivity. }
  assert (Hf : ffmpeg (self s) = Some 2%nat) by (vm_compute; reflexivity).
  split; [exact Hr|]. split; [|exact Hf].
  exact (proj1 (Index_reachable_well_formed _ s Hr) 2%nat Hf).
Defined.

(** ** [part_002]: what can throw, and what a late timer does *)

Lemma nothrow_X11grab_startFFmpeg m : nothrow (X11grab.startFFmpeg m).
Proof. unfold X11grab.startFFmpeg, X11grab.getAudioInputArgs; nothrow_tac. Qed.

Lemma nothrow_X11grab_on_close code : nothrow (X11grab.on_close code).
Proof. unfold X11grab.on_close; nothrow_tac. Qed.

#[local] Hint Resolve nothrow_X11grab_startFFmpeg nothrow_X11grab_on_close
  : nothrow.

Lemma nothrow_X11grab_handle ev : nothrow (X11grab.handle ev).
Proof. destruct ev; unfold X11grab.handle, X11grab.on_error; nothrow_tac. Qed.

#[local] Hint Resolve nothrow_X11grab_handle : nothrow.

Lemma nothrow_X11grab_deliver evs : nothrow (X11grab.deliver evs).
Proof. induction evs as [|ev evs IH]; simpl; nothrow_tac. Qed.

#[local] Hint Resolve nothrow_X11grab_deliver : nothrow.

Lemma nothrow_X11grab_main_loop CONFIG ticks :
  nothrow (X11grab.main_loop CONFIG ticks).
Proof.
  induction ticks as [|t ticks IH]; simpl;
    unfold X11grab.main_iteration; nothrow_tac.
Qed.

#[local] Hint Resolve nothrow_X11grab_main_loop : nothrow.

Lemma X11grab_main_loop_left CONFIG ticks s s' :
  X11grab.main_loop CONFIG ticks s = (Ok LoopLeft, s') ->
  isRunning (self s') = false.
Proof.
  revert s. induction ticks as [|t ticks IH]; intros s; simpl;
    unfold bind at 1, this; destruct (isRunning (self s)) eqn:E.
  - discriminate.
  - intros H; injection H as <-; exact E.
  - intros H. apply bind_ok_inv in H as (a & s1 & _ & H). eapply IH, H.
  - intros H; injection H as <-; exact E.
Qed.

(** The main loop of [part_002] cannot be ended by an exception: whatever
    the reloads and the delivered events do, [runMainLoop] returns, and it
    returns as left only with the running flag cleared. *)
Theorem X11grab_runMainLoop_never_throws
    (CONFIG : Config) (ticks : list X11grab.Tick) (s : Sys) :
  exists r s',
    X11grab.runMainLoop CONFIG ticks s = (Ok r, s') /\
    (r = LoopLeft -> isRunning (self s') = false).
Proof.
  assert (N : nothrow (X11grab.runMainLoop CONFIG ticks))
    by (unfold X11grab.runMainLoop; nothrow_tac).
  destruct (N s) as [r Hr].
  destruct (X11grab.runMainLoop CONFIG ticks s) as [[r'|e] s'] eqn:E;
    [|discriminate].
  exists r', s'. split; [reflexivity|]. intros ->.
  unfold X11grab.runMainLoop in E.
  apply bind_ok_inv in E as (? & ? & _ & E).
  eapply X11grab_main_loop_left, E.
Qed.

#[local] Instance before_encoder_preorder : PreOrder before_encoder.
Proof.
  split.
  - intros s; unfold before_encoder; tauto.
  - intros a b c (?&?&?&?) (?&?&?&?); unfold before_encoder;
      repeat split; congruence.
Qed.

Ltac before_encoder_leaf :=
  let s0 := fresh "s" in
  intros s0;
  unfold before_encoder, spawns, update, emit;
  simpl; rewrite ?count_snoc; simpl; repeat split; try reflexivity; lia.

Lemma bind_throw_inv {A B} (m : M A) (k : A -> M B) s e s' :
  bind m k s = (Throw e, s') ->
  m s = (Throw e, s') \/
  exists a s1, m s = (Ok a, s1) /\ k a s1 = (Throw e, s').
Proof.
  unfold bind. destruct (m s) as [[a|e0] s1]; intros H.
  - right; exists a, s1; auto.
  - left. injection H as -> ->. reflexivity.
Qed.

Lemma always_at (R : Sys -> Sys -> Prop) {A} (m : M A) s r s' :
  always R m -> m s = (r, s') -> R s s'.
Proof. intros H E. specialize (H s). rewrite E in H. exact H. Qed.

(** A [start()] of [part_002] can only throw while the browser starts or
    the page loads, before any encoder exists: when it throws, no process
    has been spawned, no encoder is held that was not held before, and the
    running flag is as it was.  Nothing is cleaned up by [start()] itself
    (it has no [try]): a browser that was launched stays held. *)
Theorem X11grab_start_throws_before_encoder
    (CONFIG : Config) (x : X11grab.StartAnswers) (s s' : Sys) (e : Error) :
  X11grab.start CONFIG x s = (Throw e, s') ->
  before_encoder s s' /\
  (forall b, X11grab.ans_launch x = Resolves b ->
             browser (self s') = Some b).
Proof.
  intros H.
  assert (HB : always before_encoder (X11grab.startBrowser x))
    by (unfold X11grab.startBrowser; always_tac before_encoder_leaf).
  assert (HL : always before_encoder (X11grab.loadPage x))
    by (unfold X11grab.loadPage; always_tac before_encoder_leaf).
  assert (HBb : forall s0 r s1, X11grab.startBrowser x s0 = (r, s1) ->
            forall b, X11grab.ans_launch x = Resolves b ->
                      browser (self s1) = Some b).
  { intros s0 r s1 E b Hb. unfold X11grab.startBrowser in E.
    rewrite Hb in E. destruct s0 as [[b0 pg c ff rn n t] ps ts tr].
    destruct x as [l [[pg0|]|e1] [np|e2] [[]|e3] [[]|e4] [[]|e5] g v ev ld m w tk];
      cbn in E; injection E as <- <-; reflexivity. }
  assert (HLb : forall s0 r s1, X11grab.loadPage x s0 = (r, s1) ->
            browser (self s1) = browser (self s0)).
  { intros s0 r s1 E. unfold X11grab.loadPage in E.
    destruct s0 as [[b0 pg c ff rn n t] ps ts tr].
    destruct x as [l pgs np ua hc hw [[]|e1] [[]|e2] [[]|e3] ld m w tk];
      destruct pg; cbn in E; injection E as <- <-; reflexivity. }
  unfold X11grab.start in H.
  repeat (apply bind_throw_inv in H as [H | (? & ? & Hlog & H)];
          [ unfold log, emit in H; discriminate
          | unfold log, emit in Hlog; injection Hlog as <- <- ]).
  set (s0 := {| self := self s; procs := procs s; timers := timers s;
                trace := _ |}) in H.
  assert (R0 : before_encoder s s0)
    by (unfold before_encoder, spawns, s0; simpl; rewrite !count_snoc;
        simpl; repeat split; lia).
  apply bind_throw_inv in H as [H | (? & s1 & HsB & H)].
  { split.
    - etransitivity; [exact R0 | exact (always_at _ _ _ _ _ HB H)].
    - intros b Hb. exact (HBb _ _ _ H b Hb). }
  apply bind_throw_inv in H as [H | (? & s2 & HsL & H)].
  { split.
    - etransitivity; [exact R0|].
      etransitivity; [exact (always_at _ _ _ _ _ HB HsB)
                     | exact (always_at _ _ _ _ _ HL H)].
    - intros b Hb. rewrite (HLb _ _ _ H). exact (HBb _ _ _ HsB b Hb). }
  exfalso.
  assert (N : nothrow (X11grab.startFFmpeg (X11grab.ans_musicExists x) ;;
                       sleep 3000 ;;
                       X11grab.deliver (X11grab.ans_warmup x) ;;
                       X11grab.runMainLoop CONFIG (X11grab.ans_ticks x)))
    by (unfold X11grab.runMainLoop; nothrow_tac).
  destruct (N s2) as [r Hr]. rewrite H in Hr. discriminate.
Qed.

Lemma X11grab_start_throws_before_encoder_witness :
  let CONFIG := X11grab.mkCONFIG env_default in
  let r := X11grab.start CONFIG x11_failing_start (boot 0) in
  fst r = Throw (ErrExternal "page.goto") /\
  spawns (trace (snd r)) = 0%nat /\
  browser (self (snd r)) = Some 0%nat.
Proof.
  cbv zeta.
  assert (E : X11grab.start (X11grab.mkCONFIG env_default) x11_failing_start
                (boot 0)
              = (Throw (ErrExternal "page.goto"),
                 snd (X11grab.start (X11grab.mkCONFIG env_default)
                        x11_failing_start (boot 0))))
    by (vm_compute; reflexivity).
  destruct (X11grab_start_throws_before_encoder _ _ _ _ _ E)
    as ((Hs & _) & Hb).
  split; [rewrite E; reflexivity|].
  split; [rewrite Hs; reflexivity | exact (Hb 0%nat eq_refl)].
Defined.

(** In [part_002] [startFFmpeg] sets the running flag itself and the
    relaunch timer calls it unconditionally: when the encoder of a running
    streamer exits and [stop()] completes before the relaunch timer fires,
    the timer spawns a new encoder and sets the running flag again, so the
    streamer that was stopped is running once more. *)
Theorem X11grab_late_timer_restarts_stopped_streamer
    (x : StopAnswers) (s : Sys) (pid : nat) (code : Z) (m : bool) :
  isRunning (self s) = true ->
  let s1 := snd (X11grab.handle (EvClose pid code) s) in
  let s2 := snd (X11grab.stop x s1) in
  let s3 := snd (X11grab.handle (EvTimer m) s2) in
  isRunning (self s2) = false /\
  ffmpeg (self s2) = None /\
  isRunning (self s3) = true /\
  ffmpeg (self s3) = Some (length (procs s)) /\
  spawns (trace s3) = S (spawns (trace s)).
Proof.
  destruct s as [[b pg c ff r n t] ps ts tr]; simpl. intros ->.
  unfold spawns.
  destruct x as [o1 o2 [[]|e3]], ts as [|[[] d] ts], m, ff, b;
    cbn -[count]; rewrite ?length_app, ?length_alter, ?count_snoc;
    cbn -[count]; repeat split; try reflexivity; lia.
Qed.

Lemma X11grab_late_timer_restarts_stopped_streamer_witness :
  let s := snd (X11grab.startFFmpeg false (boot 0)) in
  let s1 := snd (X11grab.handle (EvClose 0 1) s) in
  let s2 := snd (X11grab.stop ok_stop s1) in
  let s3 := snd (X11grab.handle (EvTimer false) s2) in
  isRunning (self s) = true /\
  isRunning (self s2) = false /\ isRunning (self s3) = true.
Proof.
  cbv zeta. split; [reflexivity|].
  pose proof (X11grab_late_timer_restarts_stopped_streamer ok_stop
                (snd (X11grab.startFFmpeg false (boot 0))) 0%nat 1 false
                eq_refl) as (H1 & _ & H3 & _).
  split; [exact H1 | exact H3].
Defined.

(** ** A page refresh that fails *)

(** In [index.js] a refresh that falls due and whose [page.goto] rejects
    ends the monitor loop with that very error: it is logged and thrown
    on, the refresh clock keeps its old value, and the remaining turns of
    the loop never run. *)
Theorem Index_failed_refresh_ends_the_run
    (CONFIG : Config) (t : Index.Tick) (ticks : list Index.Tick)
    (s : Sys) (e : Error) :
  isRunning (self s) = true ->
  PAGE_REFRESH_INTERVAL CONFIG <= Index.tick_now t - lastRefreshTime (self s) ->
  Index.tick_goto t = Rejects e ->
  page (self s) <> None ->
  exists s',
    Index.monitor_loop CONFIG (t :: ticks) s = (Throw e, s') /\
    self s' = self s /\
    trace s' = trace s ++ [ Log INFO "refreshing page";
                            Log INFO "loading page"; PageGoto;
                            Log ERROR "page load error" ].
Proof.
  destruct t as [now goto loaded evs].
  destruct s as [[b pg c ff r n tl] ps ts tr]; simpl.
  intros -> Hdue -> Hp. destruct pg as [p|]; [|congruence].
  unfold Index.monitor_iteration, Index.refreshPageIfNeeded, Index.loadPage.
  unfold_monad. cbn -[Z.leb Z.sub Index.monitor_loop Index.deliver].
  destruct (PAGE_REFRESH_INTERVAL CONFIG <=? now - tl) eqn:E; [|lia].
  cbn -[Z.leb Z.sub Index.monitor_loop Index.deliver].
  eexists. split; [reflexivity|]. split; [reflexivity|].
  simpl. rewrite <- !app_assoc. reflexivity.
Qed.

Lemma Index_failed_refresh_ends_the_run_witness :
  let CONFIG := Index.mkCONFIG env_default in
  let t := {| Index.tick_now := 3604000;
              Index.tick_goto := Rejects (ErrExternal "page.goto");
              Index.tick_loaded := 3608000; Index.tick_events := [] |} in
  isRunning (self live0) = true /\
  PAGE_REFRESH_INTERVAL CONFIG
    <= Index.tick_now t - lastRefreshTime (self live0) /\
  page (self live0) <> None /\
  exists s',
    Index.monitor_loop CONFIG [t; calm_tick 3605000 []] live0
      = (Throw (ErrExternal "page.goto"), s') /\
    self s' = self live0.
Proof.
  cbv zeta.
  assert (Hr : isRunning (self live0) = true) by (vm_compute; reflexivity).
  assert (Hd : PAGE_REFRESH_INTERVAL (Index.mkCONFIG env_default)
               <= 3604000 - lastRefreshTime (self live0))
    by (vm_compute; discriminate).
  assert (Hp : page (self live0) <> None) by (vm_compute; discriminate).
  split; [exact Hr|]. split; [exact Hd|]. split; [exact Hp|].
  destruct (Index_failed_refresh_ends_the_run (Index.mkCONFIG env_default)
              {| Index.tick_now := 3604000;
                 Index.tick_goto := Rejects (ErrExternal "page.goto");
                 Index.tick_loaded := 3608000; Index.tick_events := [] |}
              [calm_tick 3605000 []] live0 (ErrExternal "page.goto")
              Hr Hd eq_refl Hp) as (s' & E & Hs & _).
  exists s'. split; [exact E | exact Hs].
Defined.

(** ** Configuration *)

(** [validateConfig] rejects exactly a stream key that is unset or empty;
    any other key passes and only writes the five log lines.  An empty key
    therefore ends [main] with exit code 1 like a missing one. *)
Theorem Index_validateConfig_rejects_unset_or_empty
    (CONFIG : Config) (s : Sys) :
  (fst (Index.validateConfig CONFIG s) = Throw ErrStreamKey <->
   STREAM_KEY CONFIG = None \/ STREAM_KEY CONFIG = Some "") /\
  (forall e, fst (Index.validateConfig CONFIG s) = Throw e ->
             e = ErrStreamKey /\ snd (Index.validateConfig CONFIG s) = s) /\
  (fst (Index.validateConfig CONFIG s) = Ok tt ->
   self (snd (Index.validateConfig CONFIG s)) = self s /\
   trace (snd (Index.validateConfig CONFIG s))
     = trace s ++ [ Log INFO "config valid"; Log INFO "URL";
                    Log INFO "resolution"; Log INFO "FPS";
                    Log INFO "bitrate" ]) /\
  (forall now attempts,
     STREAM_KEY CONFIG = Some "" ->
     fst (Index.main CONFIG now attempts) = Index.Exited 1).
Proof.
  assert (Hmain : forall now attempts,
            falsy_string (STREAM_KEY CONFIG) = true ->
            fst (Index.main CONFIG now attempts) = Index.Exited 1).
  { intros now attempts H.
    unfold Index.main, Index.main_body, Index.validateConfig.
    rewrite H. reflexivity. }
  unfold Index.validateConfig. unfold falsy_string in *.
  destruct (STREAM_KEY CONFIG) as [key|] eqn:K.
  - destruct (string_dec key "") as [->|Hne]; simpl.
    + split; [split; auto|].
      split; [intros e0 He; split; congruence|].
      split; [discriminate|].
      intros now attempts _. apply Hmain. reflexivity.
    + split; [split; [discriminate | intros [H|H]; congruence]|].
      split; [discriminate|].
      split; [intros _; split; [reflexivity|];
              rewrite <- !app_assoc; reflexivity|].
      intros now attempts H. congruence.
  - simpl. split; [split; auto|].
    split; [intros e0 He; split; congruence|].
    split; discriminate.
Qed.

(** Whatever the environment holds, the frame rate, the restart delay and
    the refresh interval of the configuration are never zero (so
    [FRAME_INTERVAL] never divides by zero): an unset, unparsable or zero
    variable yields the default of its file (24, 6 and 30 frames per
    second, 5000 ms, one hour), and any other number is taken as it is,
    a negative one too. *)
Theorem mkCONFIG_never_zero (env : ProcessEnv) :
  (FPS (Index.mkCONFIG env) <> 0 /\ FPS (Polled.mkCONFIG env) <> 0 /\
   FPS (X11grab.mkCONFIG env) <> 0 /\
   RESTART_DELAY (Index.mkCONFIG env) <> 0 /\
   PAGE_REFRESH_INTERVAL (Index.mkCONFIG env) <> 0) /\
  (env_FPS env = None \/ env_FPS env = Some 0 ->
   FPS (Index.mkCONFIG env) = 24 /\ FPS (Polled.mkCONFIG env) = 6 /\
   FPS (X11grab.mkCONFIG env) = 30 /\
   FRAME_INTERVAL (Index.mkCONFIG env) = 41 /\
   FRAME_INTERVAL (Polled.mkCONFIG env) = 166) /\
  (env_RESTART_DELAY env = None \/ env_RESTART_DELAY env = Some 0 ->
   RESTART_DELAY (Index.mkCONFIG env) = 5000) /\
  (env_PAGE_REFRESH_INTERVAL env = None \/
   env_PAGE_REFRESH_INTERVAL env = Some 0 ->
   PAGE_REFRESH_INTERVAL (Index.mkCONFIG env) = 3600000) /\
  (forall z, z <> 0 -> env_FPS env = Some z ->
             FPS (Index.mkCONFIG env) = z /\
             FRAME_INTERVAL (Index.mkCONFIG env) = 1000 / z).
Proof.
  unfold FRAME_INTERVAL, Index.mkCONFIG, Polled.mkCONFIG, X11grab.mkCONFIG,
    parseInt_or; simpl.
  destruct (env_FPS env) as [f|];
    destruct (env_RESTART_DELAY env) as [r|];
    destruct (env_PAGE_REFRESH_INTERVAL env) as [p|];
    try destruct (f =? 0) eqn:Ef; try destruct (r =? 0) eqn:Er;
    try destruct (p =? 0) eqn:Ep;
    repeat split; intros;
    repeat match goal with
           | H : _ \/ _ |- _ => destruct H
           end;
    try discriminate;
    repeat match goal with
           | H : Some _ = Some _ |- _ => injection H as H
           end;
    subst; try reflexivity; try lia.
Qed.

(** ** The polled capture loop of [part_001] *)

Lemma slept_snoc tr e :
  slept (tr ++ [e])
  = slept tr + match e with Sleep ms => ms | _ => 0 end.
Proof.
  unfold slept. induction tr as [|a tr IH]; simpl.
  - destruct e; lia.
  - rewrite IH. destruct a; lia.
Qed.

#[local] Instance sleepless_preorder : PreOrder sleepless.
Proof.
  split.
  - intros s; unfold sleepless; tauto.
  - intros a b c (?&?) (?&?); unfold sleepless; split; congruence.
Qed.

Ltac sleepless_leaf :=
  let s0 := fresh "s" in
  intros s0;
  unfold sleepless, update, emit, on_proc, setTimeout, spawn, pop_timer;
  try (destruct (timers s0));
  simpl; rewrite ?slept_snoc; simpl; split; try reflexivity; lia.

Lemma sleepless_Polled_handle ev : always sleepless (Polled.handle ev).
Proof.
  destruct ev; unfold Polled.handle, Polled.on_error, Polled.on_close,
    Polled.startFFmpeg; always_tac sleepless_leaf.
Qed.

#[local] Hint Resolve sleepless_Polled_handle : always.

Lemma sleepless_Polled_deliver evs : always sleepless (Polled.deliver evs).
Proof.
  induction evs as [|ev evs IH]; simpl; always_tac sleepless_leaf.
Qed.

Ltac pacing_cbn :=
  unfold_monad;
  cbn -[slept Z.rem Z.leb Z.ltb Z.eqb Z.max Z.sub Z.mul Z.div Z.add
        lookup Polled.deliver FRAME_INTERVAL] in *.

Ltac pacing_events :=
  match goal with
  | |- context [Polled.deliver ?evs ?s0] =>
      let L := fresh "L" in
      let Q0 := fresh "Q0" in
      pose proof (sleepless_Polled_deliver evs s0) as L;
      pose proof (Polled_deliver_ok evs s0) as Q0;
      destruct (Polled.deliver evs s0)
        as [[[]|?] [[? ? ? ? ? ? ?] ? ? ?]]; [|discriminate Q0];
      clear Q0;
      unfold sleepless in L; pacing_cbn;
      destruct L as (? & ?);
      subst
  end.

(** A turn of the capture loop that completes without a page refresh
    sleeps exactly [max(0, FRAME_INTERVAL - elapsed)] milliseconds, where
    [elapsed] is the time the turn's work took: the turn is stretched to
    one frame interval when the work was faster, and not delayed at all
    when it was slower. *)
Theorem Polled_turn_sleeps_the_remainder
    (CONFIG : Config) (t : Polled.Tick) (s s' : Sys) :
  Polled.capture_iteration CONFIG t s = (Ok tt, s') ->
  Polled.tick_now t - lastRefreshTime (self s) < PAGE_REFRESH_INTERVAL CONFIG ->
  slept (trace s')
  = slept (trace s)
    + Z.max 0 (FRAME_INTERVAL CONFIG
               - (Polled.tick_end t - Polled.tick_start t)).
Proof.
  destruct t as [t0 shot during w fl now goto loaded tend evs].
  destruct s as [[b p c f r n tl] ps ts tr].
  intros H Hnd; revert H; simpl in Hnd.
  unfold Polled.capture_iteration, Polled.captureAndSendFrame,
    Polled.write_promise, Polled.refreshPageIfNeeded, Polled.loadPage,
    encoder_unavailable, stdin_writable.
  destruct shot as [fr|es], w as [cw|ew], fl as [ef|].
  all: repeat (run_cases pacing_cbn; try pacing_events).
  all: intros Hres; try discriminate Hres; try lia.
  all: injection Hres as <-; pacing_cbn; rewrite ?slept_snoc in *;
    pacing_cbn; lia.
Qed.

Lemma Polled_turn_sleeps_the_remainder_witness :
  let CONFIG := Polled.mkCONFIG env_default in
  let s := snd (Polled.start CONFIG (polled_start []) (boot 0)) in
  let t := polled_tick 6000 (Resolves 1%nat) (Wrote true) in
  let s' := snd (Polled.capture_iteration CONFIG t s) in
  Polled.capture_iteration CONFIG t s = (Ok tt, s') /\
  Polled.tick_now t - lastRefreshTime (self s) < PAGE_REFRESH_INTERVAL CONFIG /\
  slept (trace s') = slept (trace s) + 126.
Proof.
  cbv zeta.
  assert (E : Polled.capture_iteration (Polled.mkCONFIG env_default)
                (polled_tick 6000 (Resolves 1%nat) (Wrote true))
                (snd (Polled.start (Polled.mkCONFIG env_default)
                        (polled_start []) (boot 0)))
              = (Ok tt,
                 snd (Polled.capture_iteration (Polled.mkCONFIG env_default)
                        (polled_tick 6000 (Resolves 1%nat) (Wrote true))
                        (snd (Polled.start (Polled.mkCONFIG env_default)
                                (polled_start []) (boot 0))))))
    by (vm_compute; reflexivity).
  assert (Hnd : Polled.tick_now (polled_tick 6000 (Resolves 1%nat) (Wrote true))
                - lastRefreshTime
                    (self (snd (Polled.start (Polled.mkCONFIG env_default)
                                  (polled_start []) (boot 0))))
                < PAGE_REFRESH_INTERVAL (Polled.mkCONFIG env_default))
    by (vm_compute; reflexivity).
  split; [exact E|]. split; [exact Hnd|].
  rewrite (Polled_turn_sleeps_the_remainder _ _ _ _ E Hnd).
  f_equal.
Defined.

#[local] Instance unwritten_preorder : PreOrder unwritten.
Proof.
  split.
  - intros s; reflexivity.
  - intros a b c H1 H2; unfold unwritten in *; congruence.
Qed.

Ltac unwritten_leaf :=
  let s0 := fresh "s" in
  intros s0;
  unfold unwritten, writes, update, emit, on_proc, setTimeout, spawn,
    pop_timer;
  try (destruct (timers s0));
  simpl; rewrite ?count_snoc; simpl; try reflexivity; lia.

Lemma unwritten_Polled_handle ev : always unwritten (Polled.handle ev).
Proof.
  destruct ev; unfold Polled.handle, Polled.on_error, Polled.on_close,
    Polled.startFFmpeg; always_tac unwritten_leaf.
Qed.

#[local] Hint Resolve unwritten_Polled_handle : always.

Lemma unwritten_Polled_deliver evs : always unwritten (Polled.deliver evs).
Proof.
  induction evs as [|ev evs IH]; simpl; always_tac unwritten_leaf.
Qed.

(** Only a 'close' event takes the encoder handle away. *)
Lemma Polled_encoder_survives evs s :
  closes evs = 0%nat -> ffmpeg (self s) <> None ->
  ffmpeg (self (snd (Polled.deliver evs s))) <> None.
Proof.
  revert s. induction evs as [|ev evs IH]; intros s Hc Hf; [exact Hf|].
  assert (Hc' : closes evs = 0%nat /\
                match ev with EvClose _ _ => False | _ => True end).
  { unfold closes in *. simpl in Hc. destruct ev; simpl in Hc;
      try (split; [exact Hc | exact I]). discriminate Hc. }
  destruct Hc' as [Hc' Hev].
  simpl. unfold bind at 1.
  destruct (try_catch (Polled.handle ev) _ s) as [[[]|e] s1] eqn:E.
  - apply IH; [exact Hc'|].
    replace s1 with (snd (try_catch (Polled.handle ev)
      (fun _ => log ERROR "uncaught exception" ;; log ERROR "stack") s))
      by (rewrite E; reflexivity).
    clear E IH. destruct s as [[b p c f r n tl] ps ts tr]; simpl in Hf.
    destruct f as [f|]; [|congruence].
    destruct ev; try contradiction;
      unfold Polled.handle, Polled.on_error, Polled.startFFmpeg;
      try (destruct ts as [|[[] ?] ?]);
      run_cases polled_cbn; discriminate.
  - exfalso.
    assert (N : nothrow (try_catch (Polled.handle ev)
      (fun _ => log ERROR "uncaught exception" ;; log ERROR "stack"))).
    { apply nothrow_try_catch. intros e0. nothrow_tac. }
    destruct (N s) as [a Ha]. rewrite E in Ha. discriminate Ha.
Qed.

Ltac outcome_events :=
  match goal with
  | |- context [Polled.deliver ?evs ?s0] =>
      let Q := fresh "Q" in
      let U := fresh "U" in
      let V := fresh "V" in
      let Q0 := fresh "Q0" in
      pose proof (polled_quiet_deliver evs s0) as Q;
      pose proof (unwritten_Polled_deliver evs s0) as U;
      pose proof (Polled_encoder_survives evs s0) as V;
      pose proof (Polled_deliver_ok evs s0) as Q0;
      destruct (Polled.deliver evs s0)
        as [[[]|?] [[? ? ? ? ? ? ?] ? ? ?]]; [|discriminate Q0];
      clear Q0;
      unfold polled_quiet in Q; unfold unwritten, writes in U;
      polled_cbn;
      destruct Q as (? & ? & ? & _ & _);
      subst
  end.

(** What the awaited [captureAndSendFrame] of [part_001] tells its caller,
    whatever events arrive while the screenshot is taken.  [true]: the
    screenshot was taken, written, flushed without error and counted,
    exactly once.  [false]: the frame counter is untouched; either nothing
    was written, or the frame was written but its flush reported an
    error.  A throw: nothing has been written or counted, and the error is
    either the one [stdin.write] threw, or the TypeError of writing to an
    encoder handle that a 'close' event nulled while the screenshot was
    awaited; the [catch] covers neither (the promise is returned, not
    awaited, inside the [try]). *)
Theorem Polled_capture_outcome
    (shot : Outcome Frame) (during : list Event) (w : WriteAnswer)
    (flushed : option Error) (s : Sys) :
  let r := Polled.captureAndSendFrame shot during w flushed s in
  let s' := snd r in
  match fst r with
  | Ok true =>
      frameCount (self s') = frameCount (self s) + 1 /\
      writes (trace s') = S (writes (trace s)) /\
      flushed = None /\
      (exists f c, shot = Resolves f /\ w = Wrote c)
  | Ok false =>
      frameCount (self s') = frameCount (self s) /\
      (writes (trace s') = writes (trace s) \/
       (writes (trace s') = S (writes (trace s)) /\ flushed <> None))
  | Throw e =>
      frameCount (self s') = frameCount (self s) /\
      writes (trace s') = writes (trace s) /\
      (w = WriteThrows e \/
       (e = ErrTypeError "this.ffmpeg is null" /\ (0 < closes during)%nat))
  end.
Proof.
  destruct s as [[b p c f r n tl] ps ts tr].
  unfold Polled.captureAndSendFrame, Polled.write_promise,
    encoder_unavailable, stdin_writable, writes.
  destruct shot as [fr|es], w as [cw|ew], flushed as [ef|], p, f.
  all: repeat (run_cases polled_cbn; try outcome_events).
  all: simpl; rewrite ?count_snoc in *; simpl in *.
  all: repeat split; eauto; try discriminate; try lia;
    try (right; split; [lia | discriminate]); try (left; lia);
    try (left; reflexivity).
  all: right; split; [reflexivity|];
    destruct (closes during); [exfalso; apply V; congruence | lia].
Qed.

(** The encoder exits while the screenshot of the first frame is being
    taken: the guard has passed, the handle is null at the write, and the
    awaited call rejects with a TypeError that nothing in [start()]
    catches before its own handler. *)
Example polled_close_during_screenshot :
  let s := snd (Polled.start (Polled.mkCONFIG env_default)
                  (polled_start []) (boot 0)) in
  fst (Polled.captureAndSendFrame (Resolves 1%nat) [EvClose 0 1]
         (Wrote true) None s)
  = Throw (ErrTypeError "this.ffmpeg is null").
Proof. vm_compute; reflexivity. Qed.

(** ** The restart loop starts from a clean slate *)

Lemma Index_monitor_iteration_keeps_running CONFIG t s :
  isRunning (self (snd (Index.monitor_iteration CONFIG t s)))
  = isRunning (self s).
Proof.
  destruct (Index_monitor_iteration_rest CONFIG t s) as [(Hq & _) _].
  rewrite Hq.
  apply (Index_refresh_keeps_frames CONFIG (Index.tick_now t)
           (Index.tick_goto t) (Index.tick_loaded t) s).
Qed.

Lemma Index_monitor_loop_stays_running CONFIG ticks s r s' :
  isRunning (self s) = true ->
  Index.monitor_loop CONFIG ticks s = (Ok r, s') ->
  r = StillLooping /\ isRunning (self s') = true.
Proof.
  revert s. induction ticks as [|t ticks IH]; intros s Hrun; simpl;
    unfold bind at 1, this; rewrite Hrun.
  - intros H; injection H as <- <-. auto.
  - intros H. apply bind_ok_inv in H as ([] & s1 & E & H).
    apply (IH s1); [|exact H].
    pose proof (Index_monitor_iteration_keeps_running CONFIG t s) as K.
    rewrite E in K. simpl in K. congruence.
Qed.

Lemma Index_setup_sets_running c a s s' :
  Index.startScreencast_setup c a s = (Ok tt, s') ->
  isRunning (self s') = true.
Proof.
  destruct s as [[b pg cs ff r n t] ps ts tr].
  unfold Index.startScreencast_setup.
  destruct pg, c as [c'|e1], a as [[]|e2]; cbn; intros H;
    try discriminate H; injection H as <-; reflexivity.
Qed.

Lemma Index_start_ok_is_running CONFIG x s r s' :
  Index.start CONFIG x s = (Ok r, s') ->
  r = StillLooping /\ isRunning (self s') = true.
Proof.
  unfold Index.start. intros H.
  apply try_catch_ok_inv in H as [H | (e0 & s1 & _ & H)].
  - do 7 (apply bind_ok_inv in H as (? & ? & _ & H)).
    unfold Index.startScreencast in H.
    apply bind_ok_inv in H as ([] & s2 & Hs & H).
    eapply Index_monitor_loop_stays_running; [|exact H].
    eapply Index_setup_sets_running, Hs.
  - exfalso. unfold bind at 1 in H.
    destruct (log _ _ s1) as [[[]|?] ?]; [|discriminate].
    unfold bind in H.
    destruct (Index.stop _ _) as [[[]|?] ?]; discriminate.
Qed.

(** Among the listeners of [index.js] only a relaunch timer sets the
    encoder handle. *)
Lemma Index_encoder_stays_null evs s :
  Forall (fun ev => is_timer ev = false) evs ->
  ffmpeg (self s) = None ->
  ffmpeg (self (snd (Index.deliver evs s))) = None.
Proof.
  intros Hall. revert s.
  induction Hall as [|ev evs Hev _ IH]; intros s Hf; [exact Hf|].
  simpl. unfold bind at 1.
  destruct (try_catch (Index.handle ev) _ s) as [[[]|e] s1] eqn:E.
  - apply IH.
    replace s1 with (snd (try_catch (Index.handle ev)
      (fun _ => log ERROR "uncaught exception" ;; log ERROR "stack") s))
      by (rewrite E; reflexivity).
    clear E IH. destruct s as [[b p c f r n tl] ps ts tr]; simpl in Hf.
    subst f. destruct r.
    all: destruct ev; try discriminate Hev;
      unfold Index.handle, Index.on_error, Index.on_close,
        Index.on_screencastFrame, Index.sendFrameToFFmpeg,
        encoder_unavailable, stdin_writable;
      run_cases polled_cbn; reflexivity.
  - exfalso.
    assert (N : nothrow (try_catch (Index.handle ev)
      (fun _ => log ERROR "uncaught exception" ;; log ERROR "stack"))).
    { apply nothrow_try_catch. intros e0. nothrow_tac. }
    destruct (N s) as [a Ha]. rewrite E in Ha. discriminate Ha.
Qed.

(** With [browser.close()] resolving in the catch block, the restart loop
    of [main] never throws, whatever events arrive while it waits out the
    restart delay, and each [start()] it calls begins with no browser, no
    page and no session held and the running flag cleared: after any
    number of attempts the streamer is either running (the last [start()]
    is still in its loop) or holds none of them.  The encoder handle is
    null as well then, provided it was at the beginning and no relaunch
    timer left behind by a failed run fired during a restart delay. *)
Theorem Index_restart_loop_restarts_from_clean_slate
    (CONFIG : Config) (attempts : list Index.Attempt) (s : Sys) :
  session_released s ->
  Forall closes_cleanly attempts ->
  exists s',
    Index.restart_loop CONFIG attempts s = (Ok StillLooping, s') /\
    (isRunning (self s') = true \/ session_released s') /\
    (ffmpeg (self s) = None -> Forall no_timer_fires attempts ->
     isRunning (self s') = true \/ released s').
Proof.
  intros Hrel Hall. revert s Hrel.
  induction Hall as [|a attempts Ha _ IH]; intros s Hrel.
  - exists s. split; [reflexivity|]. split; [right; exact Hrel|].
    intros Hf _. right. destruct Hrel as (?&?&?&?).
    unfold released. repeat split; assumption.
  - simpl. unfold bind at 1, try_catch at 1.
    destruct (Index.start CONFIG (Index.att_start a) s) as [[r|e] s1] eqn:E.
    + destruct (Index_start_ok_is_running _ _ _ _ _ E) as [-> Hrun].
      exists s1. split; [reflexivity|].
      split; [left; exact Hrun | intros _ _; left; exact Hrun].
    + destruct (Index_failed_start_cases _ _ _ _ _ E)
        as (R1 & R2 & R3 & _).
      assert (Htidy : page_needs_browser s1).
      { pose proof (tidy_Index_start CONFIG (Index.att_start a) s) as T.
        rewrite E in T. apply T. intros _. apply Hrel. }
      unfold bind at 1, log at 1, emit at 1.
      set (s2 := {| self := self s1; procs := procs s1; timers := timers s1;
                    trace := trace s1 ++ [Log ERROR "streamer crashed"] |}).
      pose proof (Index_stop_cases (Index.att_stop a) s2)
        as (S1 & S2 & S3 & _ & S5).
      destruct (nothrow_Index_stop _ Ha s2) as [[] Hok].
      unfold bind at 1.
      destruct (Index.stop (Index.att_stop a) s2) as [[[]|e1] s3];
        [|discriminate Hok].
      simpl in S1, S2, S3, S5. destruct S5 as (S5 & S6 & _).
      unfold bind, log, sleep, emit, ret. simpl.
      match goal with
      | |- context [Index.deliver ?evs ?s4] =>
          pose proof (quiet_Index_deliver evs s4) as Q;
          pose proof (Index_encoder_stays_null evs s4) as N;
          destruct (nothrow_Index_deliver evs s4) as [[] D];
          destruct (Index.deliver evs s4) as [[[]|?] s5];
          [|discriminate D]
      end.
      unfold quiet in Q. simpl in Q, N.
      destruct Q as (Q1 & Q2 & Q3 & Q4 & _).
      destruct (IH s5) as (s' & E' & P1 & P2).
      { unfold session_released. rewrite Q1, Q2, Q3, Q4.
        repeat split; auto. }
      exists s'. split; [exact E'|]. split; [exact P1|].
      intros _ Hnt. inversion Hnt as [|? ? Hn Hnt']; subst.
      apply P2; [apply N; [exact Hn | exact S3] | exact Hnt'].
Qed.

Lemma Index_restart_loop_restarts_from_clean_slate_witness :
  let CONFIG := Index.mkCONFIG env_default in
  session_released (booted CONFIG 0) /\
  Forall closes_cleanly [failing_attempt; failing_attempt] /\
  exists s',
    Index.restart_loop CONFIG [failing_attempt; failing_attempt]
      (booted CONFIG 0) = (Ok StillLooping, s') /\
    (isRunning (self s') = true \/ session_released s').
Proof.
  cbv zeta.
  assert (Hr : session_released (booted (Index.mkCONFIG env_default) 0))
    by (repeat split; reflexivity).
  assert (Hc : Forall closes_cleanly [failing_attempt; failing_attempt])
    by (repeat constructor).
  split; [exact Hr|]. split; [exact Hc|].
  destruct (Index_restart_loop_restarts_from_clean_slate
              (Index.mkCONFIG env_default) _ _ Hr Hc)
    as (s' & E & H & _).
  exists s'. split; [exact E | exact H].
Defined.

(** The encoder exits while the streamer runs, and the run then fails
    before the relaunch timer has fired: [stop()] cancels no timer, so the
    relaunch happens during the restart delay, on a stopped streamer.  The
    restart loop goes on with no browser, page or session held, the flag
    cleared, and encoder 1 running, held and never signalled. *)
Example relaunch_during_restart_delay :
  let s := snd (Index.restart_loop (Index.mkCONFIG env_default)
                  [late_relaunch_attempt] (booted (Index.mkCONFIG env_default) 0)) in
  session_released s /\ ffmpeg (self s) = Some 1%nat /\
  (exists p, procs s !! 1%nat = Some p /\ exited p = false /\ signals p = []).
Proof.
  vm_compute. repeat split; try reflexivity.
  eexists; repeat split; reflexivity.
Qed.

(** ** What a frame sent on the screencast path comes to *)

(** [sendFrameToFFmpeg] never throws.  It returns [false] exactly when
    nothing was written: the encoder was unavailable (and then the state is
    untouched) or [stdin.write] threw.  It returns [true] exactly when the
    write reported room in the buffer, and the drain promise exactly when
    the write reported a full buffer; in both cases the frame was written
    once and counted once, and a 'drain' listener is registered only in
    the second. *)
Theorem Index_send_outcome (f : Frame) (w : WriteAnswer) (s : Sys) :
  let r := Index.sendFrameToFFmpeg f w s in
  let s' := snd r in
  match fst r with
  | Ok SentFalse =>
      frameCount (self s') = frameCount (self s) /\
      writes (trace s') = writes (trace s) /\
      ((encoder_unavailable s = true /\ s' = s) \/
       exists e, w = WriteThrows e)
  | Ok SentTrue =>
      w = Wrote true /\
      frameCount (self s') = frameCount (self s) + 1 /\
      writes (trace s') = S (writes (trace s)) /\
      count is_once_drain (trace s') = count is_once_drain (trace s)
  | Ok SentAfterDrain =>
      w = Wrote false /\
      frameCount (self s') = frameCount (self s) + 1 /\
      writes (trace s') = S (writes (trace s)) /\
      count is_once_drain (trace s') = S (count is_once_drain (trace s))
  | Throw _ => False
  end.
Proof.
  destruct s as [[b p c ff r n tl] ps ts tr].
  unfold Index.sendFrameToFFmpeg, encoder_unavailable, stdin_writable,
    writes.
  destruct w as [[]|ew], ff as [pid|];
    run_cases polled_cbn; simpl; rewrite ?count_snoc; simpl;
    repeat split; eauto; try lia;
    try (left; split; [assumption || reflexivity | reflexivity]).
Qed.

(** The 'Page.screencastFrame' listener never throws.  A frame that
    arrives while the running flag is cleared or the encoder is
    unavailable leaves the state untouched: it is neither written nor
    acknowledged to the session.  Any other frame is acknowledged exactly
    once, whether its write succeeded, reported a full buffer or threw. *)
Theorem Index_screencast_frame_outcome
    (f : Frame) (w : WriteAnswer) (ack : Outcome unit) (s : Sys) :
  let r := Index.on_screencastFrame f w ack s in
  fst r = Ok tt /\
  if negb (isRunning (self s)) || encoder_unavailable s
  then snd r = s
  else
    writes (trace (snd r))
      = (writes (trace s)
         + match w with Wrote _ => 1 | WriteThrows _ => 0 end)%nat /\
    (cdpSession (self s) <> None ->
     count is_ack (trace (snd r)) = S (count is_ack (trace s))).
Proof.
  destruct s as [[b p c ff r n tl] ps ts tr].
  unfold Index.on_screencastFrame, Index.sendFrameToFFmpeg,
    encoder_unavailable, stdin_writable, writes.
  destruct w as [[]|ew], ack as [[]|ea], ff as [pid|], r, c;
    run_cases polled_cbn; simpl; rewrite ?count_snoc; simpl;
    repeat split; try reflexivity; try lia; try discriminate;
    try (intros Hc; congruence); try (intros _; lia).
Qed.
